(* ===== verification/_CoqProject ===== *)
-Q . S2P
Prelude.v
PyJson.v
PyStr.v
FileSystem.v
Journal.v
Directory.v
Session.v
Remote.v
Cli.v
BackupPage.v
SidebarPages.v
AppTurn.v
Render.v
AppPage.v
HistoryPages.v
FrontEnds.v
