(* ===== verification/Prelude.v ===== *)
(** * UWEPD agent clients: a verification development

    ** The program

    Three Python front ends talk to a hosted agent service (an Azure AI
    Agents [AgentsClient]) and keep a local journal of every conversation:
    - [src/streamlit_mcpclientapp.py], a Streamlit page: a chat column, an
      activity log, and a history column to resume, start or delete
      conversations;
    - [src/client_python.py], a command-line client that offers the saved
      conversations in a menu and then reads questions from standard input;
    - [src/client_v2.py], the same client without the menu.
    The files under [src/backup/] are four earlier versions of the page:
    page 1 keeps its log in the main column, page 2 moves it to the
    sidebar, page 3 adds a history column of buttons and page 4 a
    selectbox of saved conversations.

    The parts, as the spec names them, and how they interact:
    - the Journal Store: one JSON file [memory/conversation_<thread>.json]
      per thread, holding the thread id and the list of messages, written
      with a load-modify-write on every message;
    - the Thread Directory: the list of saved conversations, which the page
      builds with [get_all_threads] and the CLI with [_list_saved_threads];
    - the Interaction Loop: one user turn, namely post the question, journal
      it, run the agent, fetch and journal the reply, then delete the agent;
      it calls the Remote Agent Session and the Journal Store;
    - the front ends: Streamlit's [st.session_state] and callbacks, or the
      CLI menu and read-eval loop.

    ** The development, file by file

    - [Prelude] (this file): Python results [res] ([Ok] or a raised [exn]);
      the state-and-exception monad [pyM] of Python statements, with
      [py_try], [py_for] and [py_finally]; slicing [xs[i:]]; the invariant
      calculus [pyM_preserves] and its tactic [preserves_auto]; the
      simulation calculus [pyM_sim] (two programs over different states
      that raise alike and keep a relation, drawing statements stuttering
      on either side) and its tactic [sim_auto]; and the hint database
      [uwepd].
    - [PyJson]: JSON values as Python objects, the dict and list operations
      with their [AttributeError], [KeyError] and [TypeError], Python
      equality and hashing of dict keys, and the [JsonCodec] interface of
      [json.dump]/[json.load] with a concrete instance.
    - [PyStr]: [str.strip], [lower], [upper], [int()], [len] and slicing by
      code point, and f-string formatting.
    - [FileSystem]: [pathlib] over a state of files and directories
      ([mkdir(parents=True, exist_ok=True)], [exists], [open], [unlink],
      [glob]).
    - [Journal]: the abstract journal of the spec ([journal_append] with its
      trim policy); its JSON encoding; and Module [Store], the code's
      [_memory_dir], [_memory_path_for_thread], [_load_memory], the
      trimming [_append_memory] of the page and the untrimmed one of the
      CLIs, the CLIs' thread-id stamping, and [delete_thread]'s unlink.
      [journal_view] abstracts a file to a journal.  [unstamped] is the
      invariant that no file holds a journal with a thread id.
    - [Directory]: [get_all_threads] and the abstract listing [listing_of].
    - [Session]: [st.session_state] as a record inside a [world] that also
      holds the files, the service and the messages shown; the callbacks
      [start_new_chat], [set_active_thread], [delete_thread],
      [handle_chat_selection] and [delete_selected_chat_callback]; and the
      history column's widgets as [history_event]s.
    - [Remote]: the service as a type class [AgentsService] holding the
      seven calls the code makes, each able to raise, over an abstract
      service state.  [Scripted] is a reference instance whose runs follow
      a script, used only for concrete scenarios.
    - [Cli]: [client_python.py] ([_list_saved_threads],
      [_choose_thread_interactive], [main]) and [client_v2.py]'s [main].
      The state [cli] holds the files, the service, the lines written to
      standard output and a clock; standard input is the list of lines
      still to be read.
    - [BackupPage]: page 1 ([src/backup/streamlit_mcpclient.py]), one
      run of its script ([b1_script_run]) over its session, files,
      service and drawn widgets.
    - [SidebarPages]: the state [spage] and the sidebar helpers pages 2,
      3 and 4 share, and page 2 ([b2_script_run]).
    - [AppTurn]: the page's chat-input block ([app_turn]); a page action
      ([app_step]: a prompt or a history event); the worlds [reachable]
      by actions; and the invariants of the files that every action
      keeps ([reachable_preserves], [app_step_preserves]).
    - [Render]: the page's sidebar (the activity log, with the
      ["run_steps"] expander and its subscripts) and the chat messages,
      drawn as the list of widgets emitted.
    - [AppPage]: one run of the current page's script (lines 144-295):
      the callback of the changed widget, then the title, style block,
      sidebar, chat input, and either the turn ending in [st.rerun()] or
      the messages and the history column; [app_reruns] is Streamlit's
      loop over reruns.  Its state pairs the world with the widgets drawn.
    - [HistoryPages]: pages 3 and 4, their history callbacks, their chat
      turns, page 4's selectbox handling with [st.rerun()], and
      Streamlit's rerun loop [b4_reruns].
    - [FrontEnds]: every script's own copy of the journal and service
      helpers as a record ([front_end]), with the Journal Store contract
      each copy meets under its own trim policy; and the history
      callbacks of the three pages with a history column as
      [history_helpers], with the contract they share.

    Every handler is one definition that follows the code statement by
    statement.  Mutations made before an exception persist, as they do in
    Python.

    ** What is proved

    - Refinement of the Journal Store and the Directory against the spec:
      [_append_memory] appends and trims the abstract journal (C2, C11);
      a corrupt file behaves as a missing one (C20); stamping (C25);
      deletion (C21); [get_all_threads] computes the spec's listing (C4);
      the CLI's [_list_saved_threads] lists one sorted entry per stamped
      journal (C29); and resuming a conversation shows exactly its messages (C6).
    - The turn, against any service: what a completed, a failed and a
      raising run leave in the journal, the session and the service (C3,
      C8, C9), and what one CLI line journals whatever the run status (C7).
    - Invariants over every reachable state:
      - the page never writes a thread id, so its history stays empty
        (C1, by induction on [reachable] with [pyM_preserves]);
      - the CLI's journal keeps its thread id and only grows, so a CLI
        conversation stays resumable (C5);
      - the CLI always deletes its agent (C10);
      - the sidebar of every reachable page draws without raising (C30);
      - the page only ever writes journal-shaped files (C39, the type
        invariant of the store).
    - Error paths and edge cases:
      - a bad journal raises instead of being treated as empty (C19, C15);
      - labels: a shared label always selects, and deletes, the first
        conversation listed with it (C12); a stale label raises (C13);
        once a journal is full, each append moves the label to the first
        user message of the last 20 entries (C16);
      - different thread ids map to different journal paths (C26);
      - the menu reads back the numbers it prints (C23);
      - the loop reads no line after an exit word (C24);
      - the menu preview is bounded (C28), and so are page 3's history
        labels (C27);
      - a journal write error escapes the app's turn (C31), and the CLIs
        stop on a missing setting (C32).
    - The interfaces between the front ends (FrontEnds.v): every file's
      journal helpers implement the Journal Store contract with its own
      trim policy (C17); the three history columns keep one history
      contract (C18); pages 2 to 4 print and log as the app does (C22).
    - The backup pages:
      - page 1 leaks one agent per idle rerun (C33) and stamps its
        journal on the first run (C34);
      - page 2 refines page 1 for a service whose agents ignore their
        instruction text, the one input on which the two pages differ
        (C37), and the turns of pages 3 and 4
        refine the app's (C38), both as [pyM_sim] simulations;
      - page 3's history buttons resume by thread id (C35);
      - page 4 never settles: every run resets the chat and calls
        [st.rerun()] before its chat input (C36, a liveness failure
        proved for every number of reruns).
    - The whole page: the current page settles, after at most one rerun,
      in a run that draws its chat input and asks for no other (C40),
      composing the sidebar invariant, the journal-schema invariant, the
      listing and the turn.

    ** Bounds, fuel and numbers

    There is no fuel.  Every loop of the code is structural recursion:
    - over the files a glob returns;
    - over the steps and messages a service call returns;
    - over the lines of standard input (the CLI's [while True] ends at
      end of input or at an exit word).
    So every definition is total, and [chat_loop] stops on every input by
    construction.  Streamlit's rerun loop is the one unbounded loop of the
    program; [b4_reruns n] and [app_reruns n] follow it for [n] reruns,
    and C36 and C40 hold for every [n] (at least one for C40, the one
    rerun a prompt asks for).  Python integers are unbounded and are modelled as [Z];
    the code has no machine-width arithmetic.  The numeric bounds are the
    code's own: the trim keeps 20 entries and the CLI preview keeps 60
    code points.

    ** What is not modelled

    - [st.set_page_config], [st.columns] and [st.spinner]: they only lay
      out or wait.  The CSS blocks are drawn as one [WStyle] widget, not
      as text.
    - Whether Streamlit accepts a radio or selectbox value that is not
      among its options: the widgets are drawn with the session's value.
    - Client construction, [load_dotenv] and credentials.
    - [KeyboardInterrupt].
    - The text of JSON files: [json.load]/[json.dump] are the [JsonCodec]
      interface.
    - Non-ASCII whitespace, case and digits in [PyStr].
    - Concurrent writers to one journal; the spec assumes a single writer.
    - The service's own behaviour, beyond the results and exceptions of
      its calls.
    - Timestamps: the page's are parameters of a turn, and the CLI reads
      a clock [iso] that is a parameter of its theorems; how the copies
      format them ([utcnow().isoformat() + "Z"] or
      [now(timezone.utc).isoformat()]) is [datetime]'s and not modelled.
*)

From stdpp Require Export base list gmap strings sorting.
From Stdlib Require Export ZArith Lia Ascii.

Declare Scope py_scope.
Delimit Scope py_scope with py.

(** ** Python exceptions the modelled code can raise *)

Inductive exn :=
  | AttributeError
  | KeyError
  | TypeError
  | IndexError
  | OSError
  | ValueError
  | EOFError
  | ServiceError.

#[export] Instance exn_eq_dec : EqDecision exn.
Proof. solve_decision. Defined.

(** ** The result of a Python computation: a value or a raised exception *)

Inductive res (A : Type) : Type :=
  | Ok (a : A)
  | Raise (e : exn).
Arguments Ok {A} a.
Arguments Raise {A} e.

#[export] Instance res_ret : MRet res := @Ok.
#[export] Instance res_bind : MBind res :=
  fun A B f m => match m with Ok a => f a | Raise e => Raise e end.
#[export] Instance res_fmap : FMap res :=
  fun A B f m => match m with Ok a => Ok (f a) | Raise e => Raise e end.

Definition is_ok {A} (r : res A) : bool :=
  match r with Ok _ => true | Raise _ => false end.

(** The text of an exception in an f-string ([f"... {e}"]): its class
    stands for its message, which the libraries compose. *)
Definition exn_text (e : exn) : string :=
  match e with
  | AttributeError => "AttributeError" | KeyError => "KeyError" | TypeError => "TypeError"
  | IndexError => "IndexError" | OSError => "OSError" | ValueError => "ValueError"
  | EOFError => "EOFError" | ServiceError => "HttpResponseError"
  end.

(** The value of a result, or [d] if it raised. *)
Definition res_default {A} (d : A) (r : res A) : A :=
  match r with Ok a => a | Raise _ => d end.

(** Bind notation for [res] inside Python-shaped definitions. *)
Notation "'let?' x ':=' m 'in' k" := (mbind (fun x => k) m)
  (at level 10, x binder, m at level 100, k at level 200) : py_scope.

(** ** Python slicing [xs[i:]] *)

(** Python normalises the start of a slice: a negative start counts from
    the end and is clamped at 0, a positive one is clamped at the length. *)
Definition py_slice_start (i : Z) (n : nat) : nat :=
  Z.to_nat (if (i <? 0)%Z then Z.max 0 (Z.of_nat n + i) else Z.min i (Z.of_nat n)).

Definition py_slice_from {A} (i : Z) (xs : list A) : list A :=
  drop (py_slice_start i (length xs)) xs.

Notation "xs .[ i :]" := (py_slice_from i xs)
  (at level 1, i at level 200, format "xs .[ i :]") : py_scope.

(** The last [k] elements of a list, the abstract reading of [xs[-k:]]. *)
Definition lastn {A} (k : nat) (xs : list A) : list A := drop (length xs - k) xs.

(** ** [next(gen, default)] over a list, with a fallible filter and projection *)

Fixpoint py_next {A B} (test : A -> res bool) (proj : A -> res B) (dflt : B)
    (xs : list A) : res B :=
  match xs with
  | [] => Ok dflt
  | x :: xs' =>
      match test x with
      | Ok true => proj x
      | Ok false => py_next test proj dflt xs'
      | Raise e => Raise e
      end
  end.

(** [all(f(x) for x in xs)]-style mapping with the first exception. *)
Fixpoint res_mapM {A B} (f : A -> res B) (xs : list A) : res (list B) :=
  match xs with
  | [] => Ok []
  | x :: xs' =>
      match f x with
      | Ok y => match res_mapM f xs' with Ok ys => Ok (y :: ys) | Raise e => Raise e end
      | Raise e => Raise e
      end
  end.

(** ** Automation *)

Create HintDb uwepd.
Create Rewrite HintDb uwepd.

Ltac res_simpl :=
  repeat match goal with
  | H : Ok _ = Ok _ |- _ => injection H as H
  | H : Ok _ = Raise _ |- _ => discriminate H
  | H : Raise _ = Ok _ |- _ => discriminate H
  | H : Raise _ = Raise _ |- _ => injection H as H
  | |- context [mbind _ (Ok _)] => cbn [mbind res_bind]
  | |- context [mbind _ (Raise _)] => cbn [mbind res_bind]
  end.

(** ** Generic lemmas *)

Lemma bind_Ok {A B} (a : A) (f : A -> res B) : mbind f (Ok a) = f a.
Proof. reflexivity. Qed.

Lemma bind_Raise {A B} e (f : A -> res B) : mbind f (Raise e) = Raise e.
Proof. reflexivity. Qed.

Lemma bind_eq_Ok {A B} (m : res A) (f : A -> res B) b :
  mbind f m = Ok b <-> exists a, m = Ok a /\ f a = Ok b.
Proof. destruct m; cbn; split; [eauto | naive_solver | done | naive_solver]. Qed.

#[export] Hint Rewrite @bind_Ok @bind_Raise : uwepd.

Lemma py_slice_from_neg {A} (k : nat) (xs : list A) :
  0 < k -> py_slice_from (- Z.of_nat k) xs = lastn k xs.
Proof.
  intros Hk. unfold py_slice_from, py_slice_start, lastn.
  destruct (Z.ltb_spec (- Z.of_nat k) 0); [|lia].
  f_equal. lia.
Qed.

Lemma length_lastn {A} k (xs : list A) : length (lastn k xs) = min k (length xs).
Proof. unfold lastn. rewrite length_drop. lia. Qed.

Lemma lastn_all {A} k (xs : list A) : length xs <= k -> lastn k xs = xs.
Proof. intros H. unfold lastn. replace (length xs - k) with 0 by lia. apply drop_0. Qed.

(** Trimming after every append is the same as trimming once at the end:
    the key fact behind the bounded journal. *)
Lemma lastn_snoc {A} k (xs : list A) x :
  lastn k (lastn k xs ++ [x]) = lastn k (xs ++ [x]).
Proof.
  unfold lastn. rewrite !length_app, length_drop, !drop_app, drop_drop, length_drop.
  cbn [length]. f_equal; [f_equal; lia | f_equal; lia].
Qed.

Lemma lastn_lastn {A} k (xs : list A) : lastn k (lastn k xs) = lastn k xs.
Proof. apply lastn_all. rewrite length_lastn. lia. Qed.

Lemma lastn_suffix {A} k (xs : list A) : exists pre, xs = pre ++ lastn k xs.
Proof. exists (take (length xs - k) xs). unfold lastn. by rewrite take_drop. Qed.

#[export] Hint Rewrite @length_lastn @lastn_snoc @lastn_lastn : uwepd.

Lemma res_mapM_Ok {A B} (f : A -> res B) xs :
  Forall (fun x => exists y, f x = Ok y) xs -> exists ys, res_mapM f xs = Ok ys.
Proof.
  induction 1 as [|x xs [y Hy] _ [ys Hys]]; [by eexists|].
  exists (y :: ys). cbn. by rewrite Hy, Hys.
Qed.

Lemma res_mapM_map {A B} (f : A -> B) xs : res_mapM (fun x => Ok (f x)) xs = Ok (map f xs).
Proof. induction xs as [|x xs IH]; cbn; [done|]. by rewrite IH. Qed.

Lemma lastn_app_lastn {A} k (xs ys : list A) : lastn k (lastn k xs ++ ys) = lastn k (xs ++ ys).
Proof.
  unfold lastn. rewrite !length_app, length_drop, !drop_app, drop_drop, length_drop.
  f_equal; f_equal; lia.
Qed.

#[export] Hint Rewrite @lastn_app_lastn : uwepd.

(** ** Strings *)

Fixpoint no_slash (s : string) : bool :=
  match s with
  | EmptyString => true
  | String c s' => negb (Ascii.eqb c "/"%char) && no_slash s'
  end.

Lemma no_slash_app a b : no_slash (a +:+ b) = no_slash a && no_slash b.
Proof. induction a as [|c a IH]; simpl; [done|]. by rewrite IH, andb_assoc. Qed.

Lemma string_app_nil_l a : "" +:+ a = a.
Proof. reflexivity. Qed.

Lemma string_length_app a b : String.length (a +:+ b) = String.length a + String.length b.
Proof. induction a as [|c a IH]; simpl; [done|]. by rewrite IH. Qed.

Lemma string_app_inj_r a b c : a +:+ c = b +:+ c -> a = b.
Proof.
  revert b. induction a as [|x a IH]; intros [|y b] H; [done| | |].
  - apply (f_equal String.length) in H. rewrite !string_length_app in H. simpl in H. lia.
  - apply (f_equal String.length) in H. rewrite !string_length_app in H. simpl in H. lia.
  - simpl in H. injection H as -> H. f_equal. by apply IH.
Qed.

(** A fold that stops at the first exception. *)
Fixpoint res_foldl {A B} (f : A -> B -> res A) (acc : A) (xs : list B) : res A :=
  match xs with
  | [] => Ok acc
  | x :: xs' => match f acc x with Ok acc' => res_foldl f acc' xs' | Raise e => Raise e end
  end.

(** If one element makes the step raise whatever the accumulator, the fold raises. *)
Lemma res_foldl_raise {A B} (f : A -> B -> res A) acc xs x :
  x ∈ xs -> (forall a, is_ok (f a x) = false) -> is_ok (res_foldl f acc xs) = false.
Proof.
  revert acc. induction xs as [|y xs IH]; intros acc Hin Hx; [by apply not_elem_of_nil in Hin|].
  cbn. apply elem_of_cons in Hin as [<-|Hin].
  - specialize (Hx acc). destruct (f acc x); [done|]. done.
  - destruct (f acc y); [by apply IH|done].
Qed.

(** ** Python statements over a mutable world

    A handler mutates shared state ([st.session_state], files) in place; a
    raised exception leaves the mutations made before it.  [pyM S A] runs
    on the world [S] and returns a value or an exception together with the
    world as it is at that point. *)

Definition pyM (S A : Type) : Type := S -> res A * S.

#[export] Instance pyM_ret {S} : MRet (pyM S) := fun A a s => (Ok a, s).
#[export] Instance pyM_bind {S} : MBind (pyM S) :=
  fun A B f m s => match m s with (Ok a, s') => f a s' | (Raise e, s') => (Raise e, s') end.

Definition py_raise {S A} (e : exn) : pyM S A := fun s => (Raise e, s).
Definition py_lift {S A} (r : res A) : pyM S A := fun s => (r, s).
Definition py_gets {S A} (f : S -> A) : pyM S A := fun s => (Ok (f s), s).
Definition py_modify {S} (f : S -> S) : pyM S unit := fun s => (Ok tt, f s).

(** [try: m except Exception as e: h(e)]: the handler runs in the world the
    failed block left behind. *)
Definition py_try {S A} (m : pyM S A) (h : exn -> pyM S A) : pyM S A :=
  fun s => match m s with (Ok a, s') => (Ok a, s') | (Raise e, s') => h e s' end.

(** Unfold the statement plumbing, for a proof that runs a block. *)
Ltac py_unfold := unfold mbind, pyM_bind, mret, pyM_ret, py_lift, py_modify, py_gets, py_raise.

Lemma pyM_bind_run {S A B} (m : pyM S A) (f : A -> pyM S B) s :
  mbind f m s = match m s with (Ok a, s') => f a s' | (Raise e, s') => (Raise e, s') end.
Proof. reflexivity. Qed.

(** Running a block statement by statement: a first statement that
    returns [a] in [s'] hands both to the rest. *)
Lemma pyM_bind_ok {S A B} (m : pyM S A) (f : A -> pyM S B) s a s' :
  m s = (Ok a, s') -> mbind f m s = f a s'.
Proof. intros H. rewrite pyM_bind_run. by rewrite H. Qed.

Lemma pyM_bind_raise {S A B} (m : pyM S A) (f : A -> pyM S B) s e s' :
  m s = (Raise e, s') -> mbind f m s = (Raise e, s').
Proof. intros H. rewrite pyM_bind_run. by rewrite H. Qed.

(** Run the first statement of the block when it computes, or with [H]. *)
Tactic Notation "py_step" := erewrite pyM_bind_ok; [|reflexivity]; cbv beta.
Tactic Notation "py_step" "by" tactic3(t) := erewrite pyM_bind_ok; [|t]; cbv beta.

(** *** Invariants of a world, through statements

    [pyM_preserves I m]: running [m] from a world satisfying [I] ends in a
    world satisfying [I], whether [m] returns or raises.  The lemmas below
    make it compositional, and [preserves_auto] takes a handler apart
    statement by statement. *)

Definition pyM_preserves {S A} (I : S -> Prop) (m : pyM S A) : Prop :=
  forall s, I s -> I (m s).2.

Section Preserves.
Context {S : Type} (I : S -> Prop).

Lemma preserves_ret {A} (a : A) : pyM_preserves I (mret a).
Proof. by intros s. Qed.

Lemma preserves_bind {A B} (m : pyM S A) (f : A -> pyM S B) :
  pyM_preserves I m -> (forall a, pyM_preserves I (f a)) -> pyM_preserves I (mbind f m).
Proof.
  intros Hm Hf s Hs. rewrite pyM_bind_run. specialize (Hm s Hs).
  destruct (m s) as [[a|e] s']; [by apply Hf|done].
Qed.

Lemma preserves_try {A} (m : pyM S A) (h : exn -> pyM S A) :
  pyM_preserves I m -> (forall e, pyM_preserves I (h e)) -> pyM_preserves I (py_try m h).
Proof.
  intros Hm Hh s Hs. unfold py_try. specialize (Hm s Hs).
  destruct (m s) as [[a|e] s']; [done|by apply Hh].
Qed.

Lemma preserves_raise {A} e : pyM_preserves I (py_raise (A:=A) e).
Proof. by intros s. Qed.

Lemma preserves_lift {A} (r : res A) : pyM_preserves I (py_lift r).
Proof. by intros s. Qed.

Lemma preserves_gets {A} (f : S -> A) : pyM_preserves I (py_gets f).
Proof. by intros s. Qed.

Lemma preserves_modify (f : S -> S) : (forall s, I s -> I (f s)) -> pyM_preserves I (py_modify f).
Proof. intros Hf s. apply Hf. Qed.
End Preserves.

#[export] Hint Resolve preserves_ret preserves_raise preserves_lift preserves_gets : uwepd.

(** A fold whose every step returns its accumulator returns its start. *)
Lemma res_foldl_const {A B} (f : A -> B -> res A) acc xs r :
  (forall a x a', f a x = Ok a' -> a' = a) -> res_foldl f acc xs = Ok r -> r = acc.
Proof.
  intros Hf. revert acc. induction xs as [|x xs IH]; intros acc; cbn; [by intros [= <-]|].
  destruct (f acc x) as [a'|] eqn:E; [|done]. intros H. rewrite (IH _ H). by eapply Hf.
Qed.

(** ** More statements: [for] loops and [try ... finally] *)

(** [for x in xs: f(x)] *)
Fixpoint py_for {S A} (f : A -> pyM S unit) (xs : list A) : pyM S unit :=
  match xs with
  | [] => mret tt
  | x :: xs' => mbind (fun _ => py_for f xs') (f x)
  end.

(** [try: m finally: fin]: [fin] runs after [m] in either case; an
    exception of [fin] replaces the outcome of [m], otherwise that outcome
    is the result. *)
Definition py_finally {S A} (m : pyM S A) (fin : pyM S unit) : pyM S A :=
  fun s => let '(r, s1) := m s in
           let '(r2, s2) := fin s1 in
           match r2 with Ok _ => (r, s2) | Raise e => (Raise e, s2) end.

Lemma preserves_for {S A} (I : S -> Prop) (f : A -> pyM S unit) xs :
  (forall x, pyM_preserves I (f x)) -> pyM_preserves I (py_for f xs).
Proof.
  intros Hf. induction xs as [|x xs IH]; cbn; [apply preserves_ret|].
  apply preserves_bind; [apply Hf|intros; apply IH].
Qed.

Lemma preserves_finally {S A} (I : S -> Prop) (m : pyM S A) fin :
  pyM_preserves I m -> pyM_preserves I fin -> pyM_preserves I (py_finally m fin).
Proof.
  intros Hm Hf s Hs. unfold py_finally. specialize (Hm s Hs).
  destruct (m s) as [r s1]. specialize (Hf s1 Hm). destruct (fin s1) as [[]]; done.
Qed.

(** Decompose a statement sequence into its statements; [lem] closes the
    leaves the generic lemmas and the hints do not (the ones that touch
    [I]). *)
Ltac preserves_auto lem :=
  repeat first
    [ solve [eauto with uwepd]
    | solve [lem]
    | apply preserves_bind; [|intros ?; cbv beta]
    | apply preserves_try; [|intros ?; cbv beta]
    | apply preserves_for; intros ?; cbv beta
    | apply preserves_finally
    | case_match ].

(** A [res_mapM] whose function agrees, element by element, with an
    [option]-valued one that succeeds on the whole list. *)
Lemma res_mapM_mapM {A B C} (f : A -> res C) (g : A -> option B) (h : A -> B -> C) xs ys :
  (forall x y, g x = Some y -> f x = Ok (h x y)) -> mapM g xs = Some ys ->
  res_mapM f xs = Ok (zip_with h xs ys).
Proof.
  intros Hfg Hm. apply mapM_Some in Hm. induction Hm as [|x y xs ys Hxy _ IH]; [done|].
  cbn. by rewrite (Hfg _ _ Hxy), IH.
Qed.

(** Every result of a successful [res_mapM] is the image of an element. *)
Lemma res_mapM_elem {A B} (f : A -> res B) xs ys y :
  res_mapM f xs = Ok ys -> y ∈ ys -> exists x, f x = Ok y.
Proof.
  revert ys. induction xs as [|x xs IH]; intros ys; cbn; [intros [= <-]; by intros ?%not_elem_of_nil|].
  destruct (f x) as [y'|] eqn:Ex; [|done]. destruct (res_mapM f xs) as [ys'|] eqn:Exs; [|done].
  intros [= <-] [->|Hy]%elem_of_cons; [by exists x|]. by apply (IH ys').
Qed.

(** Whether a result raised, forgetting its value. *)
Definition res_unit {A} (r : res A) : res unit :=
  match r with Ok _ => Ok tt | Raise e => Raise e end.

(** ** Two versions of a handler that do the same thing

    [pyM_sim rel m1 m2]: from worlds related by [rel], [m1] and [m2]
    return the same value, or raise the same exception, and end in related
    worlds.  A statement that only draws (it returns and keeps [rel]) is
    skipped on either side: the simulation diagram of a compiler pass, with
    stuttering steps on both sides. *)
Section Sim.
Context {S1 S2 : Type} (rel : S1 -> S2 -> Prop).

Definition pyM_sim {A} (m1 : pyM S1 A) (m2 : pyM S2 A) : Prop :=
  forall s1 s2, rel s1 s2 -> (m1 s1).1 = (m2 s2).1 /\ rel (m1 s1).2 (m2 s2).2.

(** A statement of one side that returns and keeps the relation. *)
Definition quiet_l (m : pyM S1 unit) : Prop :=
  forall s1 s2, rel s1 s2 -> (m s1).1 = Ok tt /\ rel (m s1).2 s2.
Definition quiet_r (m : pyM S2 unit) : Prop :=
  forall s1 s2, rel s1 s2 -> (m s2).1 = Ok tt /\ rel s1 (m s2).2.

Lemma sim_ret {A} (a : A) : pyM_sim (mret a) (mret a).
Proof. by intros s1 s2. Qed.

Lemma sim_lift {A} (r : res A) : pyM_sim (py_lift r) (py_lift r).
Proof. by intros s1 s2. Qed.

Lemma sim_raise {A} e : pyM_sim (py_raise (A:=A) e) (py_raise e).
Proof. by intros s1 s2. Qed.

Lemma sim_gets {A} (f1 : S1 -> A) (f2 : S2 -> A) :
  (forall s1 s2, rel s1 s2 -> f1 s1 = f2 s2) -> pyM_sim (py_gets f1) (py_gets f2).
Proof. intros Hf s1 s2 Hs. cbn. by rewrite (Hf _ _ Hs). Qed.

Lemma sim_modify (f1 : S1 -> S1) (f2 : S2 -> S2) :
  (forall s1 s2, rel s1 s2 -> rel (f1 s1) (f2 s2)) -> pyM_sim (py_modify f1) (py_modify f2).
Proof. intros Hf s1 s2 Hs. split; [done|]. by apply Hf. Qed.

Lemma sim_bind {A B} (m1 : pyM S1 A) (m2 : pyM S2 A) (f1 : A -> pyM S1 B) (f2 : A -> pyM S2 B) :
  pyM_sim m1 m2 -> (forall a, pyM_sim (f1 a) (f2 a)) -> pyM_sim (mbind f1 m1) (mbind f2 m2).
Proof.
  intros Hm Hf s1 s2 Hs. rewrite !pyM_bind_run. destruct (Hm s1 s2 Hs) as [Hr Hs'].
  destruct (m1 s1) as [[a|e] s1'], (m2 s2) as [r2 s2']; cbn in Hr, Hs'; subst r2; [by apply Hf|done].
Qed.

Lemma sim_try {A} (m1 : pyM S1 A) (m2 : pyM S2 A) h1 h2 :
  pyM_sim m1 m2 -> (forall e, pyM_sim (h1 e) (h2 e)) -> pyM_sim (py_try m1 h1) (py_try m2 h2).
Proof.
  intros Hm Hh s1 s2 Hs. unfold py_try. destruct (Hm s1 s2 Hs) as [Hr Hs'].
  destruct (m1 s1) as [[a|e] s1'], (m2 s2) as [r2 s2']; cbn in Hr, Hs'; subst r2; [done|by apply Hh].
Qed.

Lemma sim_for {A} (f1 : A -> pyM S1 unit) (f2 : A -> pyM S2 unit) xs :
  (forall x, pyM_sim (f1 x) (f2 x)) -> pyM_sim (py_for f1 xs) (py_for f2 xs).
Proof.
  intros Hf. induction xs as [|x xs IH]; cbn [py_for]; [apply sim_ret|].
  apply sim_bind; [apply Hf|intros; apply IH].
Qed.

Lemma sim_skip_l {A} (m : pyM S1 unit) (k1 : pyM S1 A) (k2 : pyM S2 A) :
  quiet_l m -> pyM_sim k1 k2 -> pyM_sim (m;; k1) k2.
Proof.
  intros Hm Hk s1 s2 Hs. rewrite pyM_bind_run. destruct (Hm s1 s2 Hs) as [Hr Hs'].
  destruct (m s1) as [r s1']. cbn in Hr, Hs'. subst r. by apply Hk.
Qed.

Lemma sim_skip_r {A} (m : pyM S2 unit) (k1 : pyM S1 A) (k2 : pyM S2 A) :
  quiet_r m -> pyM_sim k1 k2 -> pyM_sim k1 (m;; k2).
Proof.
  intros Hm Hk s1 s2 Hs. rewrite pyM_bind_run. destruct (Hm s1 s2 Hs) as [Hr Hs'].
  destruct (m s2) as [r s2']. cbn in Hr, Hs'. subst r. by apply Hk.
Qed.

(** A block that ends in drawing on one side: [m;; k] against [m']. *)
Lemma sim_then_quiet_l (m1 : pyM S1 unit) (m2 : pyM S2 unit) (k : pyM S1 unit) :
  pyM_sim m1 m2 -> quiet_l k -> pyM_sim (m1;; k) m2.
Proof.
  intros Hm Hk s1 s2 Hs. rewrite pyM_bind_run. destruct (Hm s1 s2 Hs) as [Hr Hs'].
  destruct (m1 s1) as [[[]|e] s1'], (m2 s2) as [r2 s2']; cbn in Hr, Hs'; subst r2; [|done].
  destruct (Hk _ _ Hs') as [Hk1 Hk2]. destruct (k s1') as [r s3]. cbn in *. by subst r.
Qed.

Lemma sim_then_quiet_r (m1 : pyM S1 unit) (m2 : pyM S2 unit) (k : pyM S2 unit) :
  pyM_sim m1 m2 -> quiet_r k -> pyM_sim m1 (m2;; k).
Proof.
  intros Hm Hk s1 s2 Hs. rewrite pyM_bind_run. destruct (Hm s1 s2 Hs) as [Hr Hs'].
  destruct (m1 s1) as [r1 s1'], (m2 s2) as [[[]|e] s2']; cbn in Hr, Hs'; subst r1; [|done].
  destruct (Hk _ _ Hs') as [Hk1 Hk2]. destruct (k s2') as [r s3]. cbn in *. by subst r.
Qed.
(** Two statements that only draw. *)
Lemma sim_quiet (m1 : pyM S1 unit) (m2 : pyM S2 unit) : quiet_l m1 -> quiet_r m2 -> pyM_sim m1 m2.
Proof.
  intros H1 H2 s1 s2 Hs. destruct (H1 s1 s2 Hs) as [R1 Hs1]. destruct (H2 _ _ Hs1) as [R2 Hs2].
  by rewrite R1, R2.
Qed.

(** A read on one side whose value the relation fixes. *)
Lemma sim_gets_r {A B} (f : S2 -> A) (v : A) (k1 : pyM S1 B) (k2 : A -> pyM S2 B) :
  (forall s1 s2, rel s1 s2 -> f s2 = v) -> pyM_sim k1 (k2 v) -> pyM_sim k1 (x ← py_gets f; k2 x).
Proof. intros Hf Hk s1 s2 Hs. rewrite pyM_bind_run. cbn. rewrite (Hf _ _ Hs). by apply Hk. Qed.

(** A value computed on the left side only to be drawn: [m1] and [m2]
    agree on whether they raise. *)
Lemma sim_bind_discard {A B} (m1 : pyM S1 A) (m2 : pyM S2 unit) (q : A -> pyM S1 unit)
    (k1 : pyM S1 B) (k2 : pyM S2 B) :
  (forall s1 s2, rel s1 s2 -> res_unit (m1 s1).1 = (m2 s2).1 /\ rel (m1 s1).2 (m2 s2).2) ->
  (forall a, quiet_l (q a)) -> pyM_sim k1 k2 ->
  pyM_sim (a ← m1; q a;; k1) (m2;; k2).
Proof.
  intros Hm Hq Hk s1 s2 Hs. rewrite !pyM_bind_run. destruct (Hm s1 s2 Hs) as [Hr Hs'].
  destruct (m1 s1) as [[a|e] s1'], (m2 s2) as [r2 s2']; cbn in Hr, Hs'; subst r2; [|done].
  rewrite pyM_bind_run. destruct (Hq a s1' s2' Hs') as [Hq1 Hq2].
  destruct (q a s1') as [r s3]. cbn in Hq1, Hq2. subst r. by apply Hk.
Qed.
End Sim.

(** Pair the statements of two versions of a handler: drawing statements
    are skipped with the [quiet] facts of [uwepd], the others paired with
    its [pyM_sim] facts; [lem] closes the leaves left. *)
Ltac sim_auto_with step lem :=
  repeat first
    [ solve [eauto with uwepd]
    | solve [lem]
    | progress step
    | apply sim_skip_l; [solve [eauto with uwepd | lem]|]
    | apply sim_skip_r; [solve [eauto with uwepd | lem]|]
    | apply sim_bind; [|intros ?; cbv beta]
    | apply sim_try; [|intros ?; cbv beta]
    | apply sim_for; intros ?; cbv beta
    | apply sim_then_quiet_l; [|solve [eauto with uwepd | lem]]
    | apply sim_then_quiet_r; [|solve [eauto with uwepd | lem]]
    | case_match ].

Ltac sim_auto lem := sim_auto_with fail lem.

#[export] Hint Resolve sim_ret sim_lift sim_raise : uwepd.

(** A loop whose body raises exactly when [g] does, and keeps [core]:
    the loop raises exactly when [res_mapM g] does. *)
Lemma py_for_mapM {S A B C} (core : S -> C) (f : A -> pyM S unit) (g : A -> res B) xs :
  (forall x s, (f x s).1 = res_unit (g x) /\ core (f x s).2 = core s) ->
  forall s, (py_for f xs s).1 = res_unit (res_mapM g xs) /\ core (py_for f xs s).2 = core s.
Proof.
  intros Hf. induction xs as [|x xs IH]; intros s; [done|]. cbn [py_for res_mapM].
  rewrite pyM_bind_run. destruct (Hf x s) as [H1 H2]. destruct (f x s) as [r s1]. cbn in H1, H2 |- *.
  subst r. destruct (g x) as [b|e]; cbn; [|done].
  destruct (IH s1) as [H3 H4]. rewrite H3, H4, H2. by destruct (res_mapM g xs).
Qed.
