(* ===== verification/PyJson.v ===== *)
(** * PyJson: the Python values that [json.load] returns, and the dict and
    list operations the journal code applies to them

    A journal file is read with [json.load] and then manipulated with
    [dict.get], [dict.setdefault], [d[k]], [d[k] = v], [list.append],
    slicing, truthiness tests and iteration.  Python checks the types of
    these operations at run time: [setdefault] on a list raises
    [AttributeError], [msg["role"]] on a string raises [TypeError], a
    missing key raises [KeyError].  This file models a JSON value as the
    Python object [json.load] builds (dicts keep their insertion order) and
    each operation with its run-time type checks.  The JSON codec itself,
    a library the sources only call, is an interface ([JsonCodec]). *)

From S2P Require Import Prelude.
From stdpp Require Import pretty.

(** ** JSON values as Python objects *)

(** Numbers are modelled as integers: no journal the program writes holds a
    fractional number. *)
Inductive json :=
  | JNull
  | JBool (b : bool)
  | JInt (z : Z)
  | JStr (s : string)
  | JList (xs : list json)
  | JDict (kvs : list (string * json)).

(** Induction principle that sees through the nested lists. *)
Section json_ind_nested.
Variable P : json -> Prop.
Hypothesis HNull : P JNull.
Hypothesis HBool : forall b, P (JBool b).
Hypothesis HInt : forall z, P (JInt z).
Hypothesis HStr : forall s, P (JStr s).
Hypothesis HList : forall xs, Forall P xs -> P (JList xs).
Hypothesis HDict : forall kvs, Forall (fun kv => P kv.2) kvs -> P (JDict kvs).

Fixpoint json_ind' (j : json) : P j :=
    match j with
    | JNull => HNull
    | JBool b => HBool b
    | JInt z => HInt z
    | JStr s => HStr s
    | JList xs =>
        HList xs ((fix go (l : list json) : Forall P l :=
                     match l with
                     | [] => Forall_nil_2 _
                     | y :: l' => Forall_cons_2 _ _ _ (json_ind' y) (go l')
                     end) xs)
    | JDict kvs =>
        HDict kvs ((fix go (l : list (string * json)) : Forall (fun kv => P kv.2) l :=
                      match l with
                      | [] => Forall_nil_2 _
                      | kv :: l' => Forall_cons_2 _ _ _ (json_ind' kv.2) (go l')
                      end) kvs)
    end.
End json_ind_nested.

(** A dict that [json.load] can return has pairwise distinct keys (a
    duplicated key in the text keeps its last value). *)
Fixpoint json_wf (j : json) : bool :=
  match j with
  | JList xs => forallb json_wf xs
  | JDict kvs => bool_decide (NoDup kvs.*1) && forallb (fun kv => json_wf kv.2) kvs
  | _ => true
  end.

(** ** Truthiness ([if x:]) *)

Definition py_truthy (j : json) : bool :=
  match j with
  | JNull => false
  | JBool b => b
  | JInt z => negb (Z.eqb z 0)
  | JStr s => negb (String.eqb s "")
  | JList xs => negb (Nat.eqb (length xs) 0)
  | JDict kvs => negb (Nat.eqb (length kvs) 0)
  end.

(** [x == "lit"] for a string literal: only a [str] can be equal to it. *)
Definition py_eq_str (j : json) (s : string) : bool :=
  match j with JStr s' => String.eqb s' s | _ => false end.

(** ** Dicts as insertion-ordered association lists *)

Fixpoint dict_lookup (k : string) (kvs : list (string * json)) : option json :=
  match kvs with
  | [] => None
  | (k', v) :: kvs' => if String.eqb k' k then Some v else dict_lookup k kvs'
  end.

(** [d[k] = v]: an existing key keeps its position, a new key goes last. *)
Fixpoint dict_set (k : string) (v : json) (kvs : list (string * json)) : list (string * json) :=
  match kvs with
  | [] => [(k, v)]
  | (k', v') :: kvs' => if String.eqb k' k then (k', v) :: kvs' else (k', v') :: dict_set k v kvs'
  end.

(** [d.get(k)] and [d.get(k, default)]: only a dict has [get]. *)
Definition py_get_or (d : json) (k : string) (dflt : json) : res json :=
  match d with
  | JDict kvs => Ok (default dflt (dict_lookup k kvs))
  | _ => Raise AttributeError
  end.

Definition py_get (d : json) (k : string) : res json := py_get_or d k JNull.

(** [d[k]] with a string key: [KeyError] on a dict without [k], [TypeError]
    on a list or string (their indices are integers) and on scalars (not
    subscriptable). *)
Definition py_getitem (d : json) (k : string) : res json :=
  match d with
  | JDict kvs => match dict_lookup k kvs with Some v => Ok v | None => Raise KeyError end
  | _ => Raise TypeError
  end.

(** [d[k] = v]: a list or string refuses a string index, a scalar has no
    item assignment; all raise [TypeError]. *)
Definition py_setitem (d : json) (k : string) (v : json) : res json :=
  match d with
  | JDict kvs => Ok (JDict (dict_set k v kvs))
  | _ => Raise TypeError
  end.

(** [d.setdefault(k, v)]: inserts [k] only when it is missing; returns the
    updated dict (the value it also returns is unused by the code). *)
Definition py_setdefault (d : json) (k : string) (v : json) : res json :=
  match d with
  | JDict kvs =>
      match dict_lookup k kvs with
      | Some _ => Ok d
      | None => Ok (JDict (kvs ++ [(k, v)]))
      end
  | _ => Raise AttributeError
  end.

(** [l.append(x)]: only a list has [append]. *)
Definition py_append (l : json) (x : json) : res json :=
  match l with
  | JList xs => Ok (JList (xs ++ [x]))
  | _ => Raise AttributeError
  end.

(** [x[i:]]: lists and strings slice, dicts and scalars raise [TypeError]. *)
Definition py_slice_json (i : Z) (j : json) : res json :=
  match j with
  | JList xs => Ok (JList (py_slice_from i xs))
  | JStr s => Ok (JStr (String.string_of_list_ascii (py_slice_from i (String.list_ascii_of_string s))))
  | _ => Raise TypeError
  end.

(** [for x in j]: a list yields its items, a dict its keys, a string its
    characters; scalars are not iterable. *)
Definition py_iter (j : json) : res (list json) :=
  match j with
  | JList xs => Ok xs
  | JDict kvs => Ok (map (fun kv => JStr kv.1) kvs)
  | JStr s => Ok (map (fun c => JStr (String c EmptyString)) (String.list_ascii_of_string s))
  | _ => Raise TypeError
  end.

(** ** Dict keys: [threads[tid] = label] needs a hashable key *)

(** Python compares dict keys by value, and [True == 1], [False == 0]. *)
Inductive pykey := KNone | KInt (z : Z) | KStr (s : string).

#[export] Instance pykey_eq_dec : EqDecision pykey.
Proof. solve_decision. Defined.

Definition py_hash_key (j : json) : res pykey :=
  match j with
  | JNull => Ok KNone
  | JBool b => Ok (KInt (if b then 1 else 0))
  | JInt z => Ok (KInt z)
  | JStr s => Ok (KStr s)
  | JList _ | JDict _ => Raise TypeError
  end.

(** A Python dict with arbitrary hashable keys, insertion-ordered; the
    first key object inserted stays, its value is overwritten. *)
Definition pydict := list (json * json).

Definition key_is (h : pykey) (k : json) : bool :=
  match py_hash_key k with Ok h' => bool_decide (h' = h) | Raise _ => false end.

Fixpoint pydict_set_hashed (h : pykey) (k v : json) (d : pydict) : pydict :=
  match d with
  | [] => [(k, v)]
  | (k', v') :: d' =>
      if key_is h k' then (k', v) :: d'
      else (k', v') :: pydict_set_hashed h k v d'
  end.

Definition pydict_set (k v : json) (d : pydict) : res pydict :=
  h ← py_hash_key k; Ok (pydict_set_hashed h k v d).

(** [d.get(k, default)] for a hashable key. *)
Fixpoint pydict_lookup (h : pykey) (d : pydict) : option json :=
  match d with
  | [] => None
  | (k', v') :: d' => if key_is h k' then Some v' else pydict_lookup h d'
  end.

Definition pydict_get (k : json) (d : pydict) (dflt : json) : res json :=
  h ← py_hash_key k; Ok (default dflt (pydict_lookup h d)).

(** ** Equality [a == b] between JSON values *)

(** Numbers and booleans compare by value ([True == 1]); dicts compare as
    key-to-value maps, whatever their order. *)
Definition py_num (j : json) : option Z :=
  match j with JBool b => Some (if b then 1 else 0)%Z | JInt z => Some z | _ => None end.

Fixpoint py_eq (a b : json) : bool :=
  match a, b with
  | JNull, JNull => true
  | JStr x, JStr y => String.eqb x y
  | JList xs, JList ys =>
      (fix go (xs ys : list json) : bool :=
         match xs, ys with
         | [], [] => true
         | x :: xs', y :: ys' => py_eq x y && go xs' ys'
         | _, _ => false
         end) xs ys
  | JDict xs, JDict ys =>
      Nat.eqb (length xs) (length ys) &&
      forallb (fun kv => match dict_lookup kv.1 ys with Some w => py_eq kv.2 w | None => false end) xs
  | _, _ =>
      match py_num a, py_num b with Some x, Some y => Z.eqb x y | _, _ => false end
  end.

(** [[k for k, v in d.items() if v == x][0]]: [IndexError] when no value matches. *)
Definition first_key_with_value (d : pydict) (x : json) : res json :=
  match List.filter (fun kv => py_eq kv.2 x) d with
  | kv :: _ => Ok kv.1
  | [] => Raise IndexError
  end.

(** [f"{x}"] for the hashable values a dict key can be; a list or dict is
    never a key (it is unhashable), so that case is left out as an error. *)
Definition py_str (j : json) : res string :=
  match j with
  | JNull => Ok "None"
  | JBool b => Ok (if b then "True" else "False")
  | JInt z => Ok (pretty z)
  | JStr s => Ok s
  | JList _ | JDict _ => Raise TypeError
  end.

(** ** The JSON codec: [json.dump] and [json.load] *)

(** The program only calls the library; what it relies on is that [load]
    reads back what [dump] wrote, that what it reads is a value [json.load]
    can build (no duplicated dict key), and that a truncated (empty) file
    does not parse. *)
Class JsonCodec (F : Type) := {
  json_dump : json -> F;
  json_load : F -> option json;
  empty_file : F;
  json_load_dump : forall j, json_wf j = true -> json_load (json_dump j) = Some j;
  json_load_wf : forall f j, json_load f = Some j -> json_wf j = true;
  json_load_empty : json_load empty_file = None
}.

(** A concrete codec: a file holds either the text [json.dump] produced,
    represented by the value it encodes, or arbitrary other bytes.  Text
    with a duplicated dict key is outside what [dump] writes and does not
    load in this codec. *)
Inductive raw_file :=
  | RawJson (j : json)
  | RawBytes (bytes : string).

#[export] Program Instance raw_codec : JsonCodec raw_file := {|
  json_dump := RawJson;
  json_load f := match f with RawJson j => if json_wf j then Some j else None | RawBytes _ => None end;
  empty_file := RawBytes ""
|}.
Next Obligation. intros j Hj. cbn. by rewrite Hj. Qed.
Next Obligation. intros [j|b] j'; cbn; [destruct (json_wf j) eqn:E; congruence | done]. Qed.
Next Obligation. done. Qed.

(** ** Facts *)

Lemma py_eq_JStr x t : py_eq x (JStr t) = true <-> x = JStr t.
Proof.
  destruct x; cbn; try (split; [done|discriminate]).
  rewrite String.eqb_eq. split; congruence.
Qed.

Lemma pydict_get_str t d dflt :
  pydict_get (JStr t) d dflt = Ok (default dflt (pydict_lookup (KStr t) d)).
Proof. reflexivity. Qed.

Lemma first_key_with_value_none d x :
  Forall (fun kv => py_eq kv.2 x = false) d -> first_key_with_value d x = Raise IndexError.
Proof.
  unfold first_key_with_value. induction 1 as [|kv d Hkv _ IH]; [done|].
  cbn. by rewrite Hkv.
Qed.

(** *** Dict operations keep the other keys and the shape [json.load] builds *)

Lemma dict_lookup_set_ne k k' v kvs :
  k' <> k -> dict_lookup k (dict_set k' v kvs) = dict_lookup k kvs.
Proof.
  intros Hne. induction kvs as [|[k1 v1] kvs IH]; cbn.
  - destruct (String.eqb_spec k' k); congruence.
  - destruct (String.eqb_spec k1 k'); cbn.
    + subst. destruct (String.eqb_spec k' k); congruence.
    + destruct (String.eqb k1 k); [done|]. exact IH.
Qed.

Lemma dict_lookup_snoc_ne k k' v kvs :
  k' <> k -> dict_lookup k (kvs ++ [(k', v)]) = dict_lookup k kvs.
Proof.
  intros Hne. induction kvs as [|[k1 v1] kvs IH]; cbn.
  - destruct (String.eqb_spec k' k); congruence.
  - destruct (String.eqb k1 k); [done|]. exact IH.
Qed.

Lemma dict_lookup_None_keys k kvs : dict_lookup k kvs = None -> k ∉ kvs.*1.
Proof.
  induction kvs as [|[k1 v1] kvs IH]; cbn; [intros _; apply not_elem_of_nil|].
  destruct (String.eqb_spec k1 k); [done|]. intros H. rewrite elem_of_cons. intros [->|Hin]; [done|].
  by apply IH.
Qed.

Lemma dict_lookup_elem k v kvs : dict_lookup k kvs = Some v -> (k, v) ∈ kvs.
Proof.
  induction kvs as [|[k1 v1] kvs IH]; cbn; [done|].
  destruct (String.eqb_spec k1 k) as [->|]; [intros [= ->]; left|intros H; right; by apply IH].
Qed.

Lemma dict_set_keys k v kvs x : x ∈ (dict_set k v kvs).*1 -> x ∈ kvs.*1 \/ x = k.
Proof.
  induction kvs as [|[k1 v1] kvs IH]; cbn.
  - rewrite list_elem_of_singleton. by right.
  - destruct (String.eqb k1 k); cbn; rewrite !elem_of_cons; [tauto|].
    intros [->|Hx]; [tauto|]. destruct (IH Hx); tauto.
Qed.

Lemma dict_set_values k v kvs kv : kv ∈ dict_set k v kvs -> kv ∈ kvs \/ kv.2 = v.
Proof.
  induction kvs as [|[k1 v1] kvs IH]; cbn.
  - rewrite list_elem_of_singleton. intros ->. by right.
  - destruct (String.eqb k1 k); rewrite !elem_of_cons.
    + intros [->|Hx]; [by right|tauto].
    + intros [->|Hx]; [tauto|]. destruct (IH Hx); tauto.
Qed.

Lemma json_wf_dict kvs :
  json_wf (JDict kvs) = true <-> NoDup kvs.*1 /\ Forall (fun kv => json_wf kv.2 = true) kvs.
Proof.
  cbn. rewrite andb_true_iff, bool_decide_eq_true, forallb_forall, Forall_forall.
  setoid_rewrite list_elem_of_In. done.
Qed.

Lemma json_wf_list xs : json_wf (JList xs) = true <-> Forall (fun x => json_wf x = true) xs.
Proof. cbn. rewrite forallb_forall, Forall_forall. setoid_rewrite list_elem_of_In. done. Qed.

Lemma json_wf_lookup k v kvs :
  json_wf (JDict kvs) = true -> dict_lookup k kvs = Some v -> json_wf v = true.
Proof.
  intros [_ Hall]%json_wf_dict Hl. apply dict_lookup_elem in Hl.
  by apply (proj1 (Forall_forall _ _) Hall) in Hl.
Qed.

Lemma json_wf_dict_set k v kvs :
  json_wf (JDict kvs) = true -> json_wf v = true -> json_wf (JDict (dict_set k v kvs)) = true.
Proof.
  intros [Hnd Hall]%json_wf_dict Hv. apply json_wf_dict. split.
  - clear Hall. induction kvs as [|[k1 v1] kvs IH]; cbn; [repeat constructor; set_solver|].
    inversion Hnd as [|? ? Hnin Hnd']; subst.
    destruct (String.eqb_spec k1 k) as [->|Hne]; cbn; [by constructor|].
    constructor; [|by apply IH]. intros [Hin|Heq]%dict_set_keys; [done|congruence].
  - apply Forall_forall. intros kv [Hin|Heq]%dict_set_values; [|by rewrite Heq].
    by apply (proj1 (Forall_forall _ _) Hall).
Qed.

Lemma json_wf_dict_snoc k v kvs :
  json_wf (JDict kvs) = true -> dict_lookup k kvs = None -> json_wf v = true ->
  json_wf (JDict (kvs ++ [(k, v)])) = true.
Proof.
  intros [Hnd Hall]%json_wf_dict Hk Hv. apply json_wf_dict. rewrite fmap_app. split.
  - apply NoDup_app. split; [done|]. split; [|repeat constructor; set_solver].
    intros x Hx ->%list_elem_of_singleton. by apply (dict_lookup_None_keys _ _ Hk).
  - apply Forall_app. split; [done|]. by repeat constructor.
Qed.

Lemma json_wf_slice i xs : json_wf (JList xs) = true -> json_wf (JList (py_slice_from i xs)) = true.
Proof.
  rewrite !json_wf_list. intros H. unfold py_slice_from. by apply Forall_drop.
Qed.

Lemma py_getitem_wf d k v : json_wf d = true -> py_getitem d k = Ok v -> json_wf v = true.
Proof.
  destruct d as [| | | | |kvs]; cbn [py_getitem]; try done.
  intros Hw. destruct (dict_lookup k kvs) eqn:E; [intros [= <-]|done]. by eapply json_wf_lookup.
Qed.

Lemma py_append_wf l x l' : json_wf l = true -> json_wf x = true -> py_append l x = Ok l' ->
  json_wf l' = true.
Proof.
  destruct l as [| | | |xs|]; cbn [py_append]; try done. intros Hl Hx [= <-].
  apply json_wf_list in Hl. apply json_wf_list, Forall_app. split; [done|by repeat constructor].
Qed.

Lemma py_slice_json_wf i j j' : json_wf j = true -> py_slice_json i j = Ok j' -> json_wf j' = true.
Proof. destruct j; cbn [py_slice_json]; try done; intros Hw [= <-]; [done|by apply json_wf_slice]. Qed.

(** [setdefault] and [d[k] = v] leave every other key's value in place. *)
Lemma py_setdefault_lookup d k v d' k' kvs' : k <> k' -> py_setdefault d k v = Ok d' ->
  d' = JDict kvs' -> exists kvs, d = JDict kvs /\ dict_lookup k' kvs' = dict_lookup k' kvs.
Proof.
  destruct d as [| | | | |kvs]; cbn [py_setdefault]; try done. intros Hne.
  destruct (dict_lookup k kvs); intros [= <-] [= <-]; exists kvs; split; [done..|].
  by apply dict_lookup_snoc_ne.
Qed.

Lemma py_setitem_lookup d k v d' k' kvs' : k <> k' -> py_setitem d k v = Ok d' ->
  d' = JDict kvs' -> exists kvs, d = JDict kvs /\ dict_lookup k' kvs' = dict_lookup k' kvs.
Proof.
  destruct d as [| | | | |kvs]; cbn [py_setitem]; try done. intros Hne [= <-] [= <-].
  exists kvs. split; [done|]. by apply dict_lookup_set_ne.
Qed.

Lemma py_setdefault_wf d k v d' : json_wf d = true -> json_wf v = true ->
  py_setdefault d k v = Ok d' -> json_wf d' = true.
Proof.
  destruct d as [| | | | |kvs]; cbn [py_setdefault]; try done. intros Hd Hv.
  destruct (dict_lookup k kvs) eqn:E; intros [= <-]; [done|]. by apply json_wf_dict_snoc.
Qed.

Lemma py_setitem_wf d k v d' : json_wf d = true -> json_wf v = true ->
  py_setitem d k v = Ok d' -> json_wf d' = true.
Proof.
  destruct d as [| | | | |kvs]; cbn [py_setitem]; try done. intros Hd Hv [= <-].
  by apply json_wf_dict_set.
Qed.

Lemma py_setitem_dict d k v d' : py_setitem d k v = Ok d' -> exists kvs, d' = JDict kvs.
Proof. destruct d; cbn [py_setitem]; try done. intros [= <-]. by eexists. Qed.

Lemma py_setdefault_dict d k v d' : py_setdefault d k v = Ok d' -> exists kvs, d' = JDict kvs.
Proof.
  destruct d as [| | | | |kvs]; cbn [py_setdefault]; try done.
  destruct (dict_lookup k kvs); intros [= <-]; by eexists.
Qed.
