(* ===== verification/PyStr.v ===== *)
(** * PyStr: the Python string built-ins the clients call

    [str.strip], [str.lower], [int(s)], [len] and slicing of strings,
    [s * n], and the text an f-string gives a JSON value.  Strings are the
    bytes of their UTF-8 encoding: [len] and [s[:n]] count code points,
    that is the bytes that are not continuation bytes [10xxxxxx].  Only
    ASCII whitespace, ASCII case and ASCII digits are modelled (Python's
    [strip], [lower] and [int] also handle the other Unicode ones); the
    repr of a string inside a container is written ['s'], without the
    escapes Python adds for quotes and control characters. *)

From S2P Require Import Prelude PyJson.
From stdpp Require Import pretty.

(** ** Characters *)

(** [str.isspace] on ASCII: [\t \n \v \f \r], the separators [\x1c]-[\x1f]
    and the space. *)
Definition py_isspace (c : ascii) : bool :=
  let n := nat_of_ascii c in ((9 <=? n) && (n <=? 13)) || ((28 <=? n) && (n <=? 32)).

Definition ascii_lower (c : ascii) : ascii :=
  let n := nat_of_ascii c in if (65 <=? n) && (n <=? 90) then ascii_of_nat (n + 32) else c.

Definition ascii_upper (c : ascii) : ascii :=
  let n := nat_of_ascii c in if (97 <=? n) && (n <=? 122) then ascii_of_nat (n - 32) else c.

Definition digit_of (c : ascii) : option Z :=
  let n := nat_of_ascii c in if (48 <=? n) && (n <=? 57) then Some (Z.of_nat (n - 48)) else None.

(** A UTF-8 continuation byte. *)
Definition is_cont (c : ascii) : bool := let n := nat_of_ascii c in (128 <=? n) && (n <? 192).

(** ** Methods of [str] *)

Fixpoint lstrip (s : string) : string :=
  match s with
  | EmptyString => EmptyString
  | String c s' => if py_isspace c then lstrip s' else s
  end.

Definition py_strip (s : string) : string :=
  String.string_of_list_ascii (rev (String.list_ascii_of_string
    (lstrip (String.string_of_list_ascii (rev (String.list_ascii_of_string (lstrip s))))))).

Fixpoint py_lower (s : string) : string :=
  match s with
  | EmptyString => EmptyString
  | String c s' => String (ascii_lower c) (py_lower s')
  end.

Fixpoint py_upper (s : string) : string :=
  match s with
  | EmptyString => EmptyString
  | String c s' => String (ascii_upper c) (py_upper s')
  end.

(** [len(s)]: the number of code points. *)
Fixpoint py_len_str (s : string) : nat :=
  match s with
  | EmptyString => 0
  | String c s' => (if is_cont c then 0 else 1) + py_len_str s'
  end.

(** [s[:n]]: the first [n] code points, each with its continuation bytes. *)
Fixpoint py_take_str (n : nat) (s : string) : string :=
  match s with
  | EmptyString => EmptyString
  | String c s' =>
      if is_cont c then String c (py_take_str n s')
      else match n with 0 => EmptyString | S n' => String c (py_take_str n' s') end
  end.

(** [s * n] *)
Fixpoint str_repeat (n : nat) (s : string) : string :=
  match n with 0 => EmptyString | S n' => s +:+ str_repeat n' s end.

(** ** [int(s)] *)

(** Decimal digits, with single underscores between digits; [after] says
    whether the previous character was a digit. *)
Fixpoint parse_digits (s : string) (acc : Z) (after : bool) : option Z :=
  match s with
  | EmptyString => if after then Some acc else None
  | String c s' =>
      match digit_of c with
      | Some d => parse_digits s' (10 * acc + d) true
      | None => if after && Ascii.eqb c "_" then parse_digits s' acc false else None
      end
  end.

(** [int(s)] on a string: [None] is the [ValueError]. *)
Definition py_int (s : string) : option Z :=
  match py_strip s with
  | String "+" s' => parse_digits s' 0 false
  | String "-" s' => Z.opp <$> parse_digits s' 0 false
  | s' => parse_digits s' 0 false
  end.

(** ** Formatting values *)

Fixpoint concat_sep (sep : string) (xs : list string) : string :=
  match xs with
  | [] => ""
  | [x] => x
  | x :: xs' => x +:+ sep +:+ concat_sep sep xs'
  end.

Fixpoint py_repr (j : json) : string :=
  match j with
  | JNull => "None"
  | JBool b => if b then "True" else "False"
  | JInt z => pretty z
  | JStr s => "'" +:+ s +:+ "'"
  | JList xs => "[" +:+ concat_sep ", " (map py_repr xs) +:+ "]"
  | JDict kvs => "{" +:+ concat_sep ", " (map (fun kv => "'" +:+ kv.1 +:+ "': " +:+ py_repr kv.2) kvs) +:+ "}"
  end.

(** [f"{x}"], i.e. [str(x)]: a string is itself, anything else its repr. *)
Definition py_fstr (j : json) : string :=
  match j with JStr s => s | _ => py_repr j end.

(** ** Built-ins on JSON values *)

(** [len(x)] *)
Definition py_len (j : json) : res nat :=
  match j with
  | JStr s => Ok (py_len_str s)
  | JList xs => Ok (length xs)
  | JDict kvs => Ok (length kvs)
  | _ => Raise TypeError
  end.

(** [x[i]] with an integer index: lists and strings count from the end for
    a negative index and raise [IndexError] out of range; a dict from JSON
    has string keys only, so [d[i]] raises [KeyError]; scalars are not
    subscriptable.  A string is indexed by byte here, not by code point:
    the clients only subscript the character further with a string key,
    which raises [TypeError] whatever the character is. *)
Definition py_index (j : json) (i : Z) : res json :=
  let norm n := if (i <? 0)%Z then (Z.of_nat n + i)%Z else i in
  match j with
  | JList xs =>
      let k := norm (length xs) in
      if (0 <=? k)%Z then match xs !! Z.to_nat k with Some x => Ok x | None => Raise IndexError end
      else Raise IndexError
  | JStr s =>
      let l := String.list_ascii_of_string s in
      let k := norm (length l) in
      if (0 <=? k)%Z then match l !! Z.to_nat k with Some c => Ok (JStr (String c EmptyString)) | None => Raise IndexError end
      else Raise IndexError
  | JDict _ => Raise KeyError
  | _ => Raise TypeError
  end.

(** [x[:n]] *)
Definition py_slice_to (n : nat) (j : json) : res json :=
  match j with
  | JStr s => Ok (JStr (py_take_str n s))
  | JList xs => Ok (JList (take n xs))
  | _ => Raise TypeError
  end.

(** [x + "..."] with a string right operand: only a string accepts it. *)
Definition py_add_str (j : json) (s : string) : res json :=
  match j with JStr t => Ok (JStr (t +:+ s)) | _ => Raise TypeError end.

(** ** Lemmas *)

Fixpoint all_chars (P : ascii -> bool) (s : string) : bool :=
  match s with EmptyString => true | String c s' => P c && all_chars P s' end.

Definition is_digit (c : ascii) : bool := bool_decide (is_Some (digit_of c)).

Lemma all_chars_rev P s :
  all_chars P (String.string_of_list_ascii (rev (String.list_ascii_of_string s))) = all_chars P s.
Proof.
  assert (H : forall l, all_chars P (String.string_of_list_ascii l) = forallb P l).
  { induction l as [|c l IH]; cbn; [done|]. by rewrite IH. }
  rewrite H. induction s as [|c s IH]; cbn; [done|].
  rewrite forallb_app, IH. cbn. by rewrite andb_true_r, andb_comm.
Qed.

Lemma lstrip_id s : all_chars (fun c => negb (py_isspace c)) s = true -> lstrip s = s.
Proof. destruct s as [|c s]; cbn; [done|]. by destruct (py_isspace c). Qed.

(** [strip] leaves a string without whitespace as it is. *)
Lemma py_strip_id s : all_chars (fun c => negb (py_isspace c)) s = true -> py_strip s = s.
Proof.
  intros H. unfold py_strip. rewrite (lstrip_id s H), lstrip_id by (by rewrite all_chars_rev).
  rewrite String.list_ascii_of_string_of_list_ascii, rev_involutive.
  apply String.string_of_list_ascii_of_string.
Qed.

Lemma py_lower_id s : all_chars (fun c => negb ((65 <=? nat_of_ascii c) && (nat_of_ascii c <=? 90))) s = true ->
  py_lower s = s.
Proof.
  induction s as [|c s IH]; cbn [all_chars py_lower]; [done|]. intros [Hc Hs]%andb_true_iff.
  unfold ascii_lower. apply negb_true_iff in Hc. cbv zeta. rewrite Hc. by rewrite IH.
Qed.

Lemma pretty_N_char_digit d : (d < 10)%N -> digit_of (pretty_N_char d) = Some (Z.of_N d).
Proof.
  intros Hd. assert (d = 0 \/ d = 1 \/ d = 2 \/ d = 3 \/ d = 4 \/ d = 5 \/ d = 6 \/ d = 7 \/ d = 8 \/ d = 9)%N
    as Hcases by lia.
  by repeat destruct Hcases as [->|Hcases]; [..|subst d].
Qed.

(** [int()] reads back the digits [pretty] writes. *)
Lemma parse_digits_pretty x s b :
  (0 < x)%N -> parse_digits (pretty_N_go x s) 0 b = parse_digits s (Z.of_N x) true.
Proof.
  revert s b. induction (N.lt_wf_0 x) as [x _ IH]; intros s b Hx.
  rewrite pretty_N_go_step by done.
  assert (Hmod : (x `mod` 10 < 10)%N) by (apply N.mod_lt; lia).
  destruct (decide (x `div` 10 = 0)%N) as [Hd|Hd].
  - rewrite Hd, pretty_N_go_0. cbn [parse_digits]. rewrite pretty_N_char_digit by done.
    f_equal. pose proof (N.div_mod x 10 ltac:(lia)) as E. rewrite Hd in E. lia.
  - rewrite IH. 2: apply N.div_lt; lia. 2: by apply N.neq_0_lt_0. cbn [parse_digits].
    rewrite pretty_N_char_digit by done. f_equal. pose proof (N.div_mod x 10 ltac:(lia)). lia.
Qed.

Lemma pretty_N_go_chars P x s :
  (forall d, (d < 10)%N -> P (pretty_N_char d) = true) -> all_chars P s = true ->
  all_chars P (pretty_N_go x s) = true.
Proof.
  intros HP. revert s. induction (N.lt_wf_0 x) as [x _ IH]; intros s Hs.
  destruct (decide (x = 0)%N) as [->|Hx]; [by rewrite pretty_N_go_0|].
  rewrite pretty_N_go_step by lia. apply IH; [apply N.div_lt; lia|].
  cbn. rewrite Hs, HP; [done|]. apply N.mod_lt. lia.
Qed.

Lemma pretty_N_go_digits x s : all_chars is_digit s = true -> all_chars is_digit (pretty_N_go x s) = true.
Proof.
  apply pretty_N_go_chars. intros d Hd. unfold is_digit. rewrite pretty_N_char_digit by done.
  by apply bool_decide_eq_true.
Qed.

Lemma all_chars_impl (P Q : ascii -> bool) s :
  (forall c, P c = true -> Q c = true) -> all_chars P s = true -> all_chars Q s = true.
Proof. intros HPQ. induction s as [|c s IH]; cbn; [done|]. intros [Hc Hs]%andb_true_iff. by rewrite HPQ, IH. Qed.

Lemma is_digit_range c : is_digit c = true -> 48 <= nat_of_ascii c <= 57.
Proof.
  unfold is_digit, digit_of. rewrite bool_decide_eq_true.
  destruct ((48 <=? nat_of_ascii c) && (nat_of_ascii c <=? 57)) eqn:E; [|by intros []].
  intros _. apply andb_true_iff in E as [E1 E2]. apply Nat.leb_le in E1, E2. lia.
Qed.

Lemma digits_no_space s : all_chars is_digit s = true -> all_chars (fun c => negb (py_isspace c)) s = true.
Proof.
  apply all_chars_impl. intros c Hc%is_digit_range. unfold py_isspace.
  apply negb_true_iff, orb_false_iff. rewrite !andb_false_iff, !Nat.leb_gt. lia.
Qed.

Lemma digits_no_upper s : all_chars is_digit s = true ->
  all_chars (fun c => negb ((65 <=? nat_of_ascii c) && (nat_of_ascii c <=? 90))) s = true.
Proof.
  apply all_chars_impl. intros c Hc%is_digit_range.
  apply negb_true_iff, andb_false_iff. rewrite !Nat.leb_gt. lia.
Qed.

Lemma pretty_N_go_nonempty x c s : pretty_N_go x (String c s) <> "".
Proof.
  revert c s. induction (N.lt_wf_0 x) as [x _ IH]; intros c s.
  destruct (decide (x = 0)%N) as [->|Hx]; [by rewrite pretty_N_go_0|].
  rewrite pretty_N_go_step by lia. apply IH. apply N.div_lt; lia.
Qed.

(** Typing the number [n] that [f"{n}"] printed gives back [n] through
    [int(s.strip().lower())]. *)
Lemma py_int_pretty n :
  0 < n -> py_lower (py_strip (pretty n)) = pretty n /\ py_int (pretty n) = Some (Z.of_nat n).
Proof.
  intros Hn. change (pretty n) with (pretty_N (N.of_nat n)). unfold pretty_N.
  case_decide; [lia|].
  pose proof (pretty_N_go_digits (N.of_nat n) "" eq_refl) as Hd.
  rewrite (py_strip_id _ (digits_no_space _ Hd)), (py_lower_id _ (digits_no_upper _ Hd)).
  split; [done|]. unfold py_int. rewrite (py_strip_id _ (digits_no_space _ Hd)).
  destruct (pretty_N_go (N.of_nat n) "") as [|c s'] eqn:E.
  { exfalso. rewrite pretty_N_go_step in E by lia. revert E. apply pretty_N_go_nonempty. }
  cbn in Hd. apply andb_true_iff in Hd as [Hc%is_digit_range _].
  assert (Hsign : match String c s' with
                  | String "+" s'' => parse_digits s'' 0 false
                  | String "-" s'' => Z.opp <$> parse_digits s'' 0 false
                  | s'' => parse_digits s'' 0 false
                  end = parse_digits (String c s') 0 false).
  { destruct c as [[] [] [] [] [] [] [] []]; first [reflexivity | vm_compute in Hc; lia]. }
  rewrite Hsign, <- E, parse_digits_pretty by lia. cbn. f_equal. lia.
Qed.

Lemma py_len_str_app s t : py_len_str (s +:+ t) = py_len_str s + py_len_str t.
Proof. induction s as [|c s IH]; simpl; [done|]. rewrite IH. lia. Qed.

Lemma py_len_take n s : py_len_str (py_take_str n s) <= n.
Proof.
  revert n. induction s as [|c s IH]; intros n; cbn; [lia|].
  destruct (is_cont c) eqn:Ec; cbn; rewrite ?Ec; [apply IH|]. destruct n; cbn; rewrite ?Ec; [lia|].
  specialize (IH n). lia.
Qed.

Lemma py_take_len n s : py_len_str s <= n -> py_take_str n s = s.
Proof.
  revert n. induction s as [|c s IH]; intros n; cbn; [done|].
  destruct (is_cont c) eqn:Ec; cbn; intros H; [by rewrite IH|]. destruct n; [lia|]. rewrite IH; [done|lia].
Qed.
