(* ===== verification/FileSystem.v ===== *)
(** * FileSystem: the part of [pathlib] the journal code uses

    Paths are lists of components, as [pathlib] splits them; the state is a
    map from paths to file contents and the set of existing directories.
    The operations are [Path.mkdir(parents=True, exist_ok=True)],
    [Path.exists()], reading with [open("r")], writing with [open("w")]
    (which truncates before [json.dump] writes), [Path.unlink()] and
    [Path.glob(pattern)] in one directory.  Each raises what Python raises
    on the cases the code can reach ([OSError] stands for
    [FileNotFoundError], [IsADirectoryError] and [FileExistsError]). *)

From S2P Require Import Prelude.
From Stdlib Require Import Ascii.

Definition path := list string.

(** [str.split("/")]. *)
Fixpoint split_slash (s : string) : list string :=
  match s with
  | EmptyString => [EmptyString]
  | String c s' =>
      if Ascii.eqb c "/"%char then EmptyString :: split_slash s'
      else match split_slash s' with
           | h :: t => String c h :: t
           | [] => [String c EmptyString]
           end
  end.

(** [p / name] for a relative [name]: [pathlib] splits [name] at ['/'] and
    drops empty and ["."] components. *)
Definition path_div (p : path) (name : string) : path :=
  p ++ filter (fun c => negb (String.eqb c "") && negb (String.eqb c ".")) (split_slash name).

Definition parent (p : path) : path := removelast p.
Definition basename (p : path) : string := default "" (last p).

Section FileSystem.
Context {F : Type}.

Record fs := mk_fs {
    fs_files : gmap path F;
    fs_dirs : gset path
  }.

Definition fs_is_file (p : path) (s : fs) : bool := bool_decide (is_Some (fs_files s !! p)).
Definition fs_is_dir (p : path) (s : fs) : bool := bool_decide (p = [] \/ p ∈ fs_dirs s).

  (** [Path.exists()]. *)
Definition fs_exists (p : path) (s : fs) : bool := fs_is_file p s || fs_is_dir p s.

  (** [Path.mkdir(parents=True, exist_ok=True)]: creates every missing
      ancestor; a regular file in the way raises [FileExistsError]. *)
Definition fs_mkdir_p (p : path) (s : fs) : res fs :=
    let prefixes := map (fun n => take n p) (seq 1 (length p)) in
    if existsb (fun q => fs_is_file q s) prefixes then Raise OSError
    else Ok (mk_fs (fs_files s) (list_to_set prefixes ∪ fs_dirs s)).

  (** Reading the whole file: [None] when [open("r")] fails. *)
Definition fs_read (p : path) (s : fs) : option F := fs_files s !! p.

  (** [open("w")] followed by a complete write: fails on a directory and
      when the parent directory is missing. *)
Definition fs_write (p : path) (c : F) (s : fs) : res fs :=
    if fs_is_dir p s then Raise OSError
    else if fs_is_dir (parent p) s then Ok (mk_fs (<[p := c]> (fs_files s)) (fs_dirs s))
    else Raise OSError.

  (** [Path.unlink()]: only a regular file can be removed. *)
Definition fs_unlink (p : path) (s : fs) : res fs :=
    if fs_is_file p s then Ok (mk_fs (delete p (fs_files s)) (fs_dirs s)) else Raise OSError.

  (** [d.glob(pat)]: the entries of directory [d] whose name matches; the
      order is the one of the directory listing, which the code either
      sorts or treats as arbitrary. *)
Definition fs_glob (d : path) (pat : string -> bool) (s : fs) : list path :=
    filter (fun q => bool_decide (parent q = d) && bool_decide (q <> []) && pat (basename q))
      (elements (dom (fs_files s) ∪ fs_dirs s)).

  (** The state after a successful write, and after removing a file. *)
Definition fs_put (p : path) (c : F) (s : fs) : fs := mk_fs (<[p := c]> (fs_files s)) (fs_dirs s).
Definition fs_remove (p : path) (s : fs) : fs := mk_fs (delete p (fs_files s)) (fs_dirs s).
End FileSystem.
Arguments fs : clear implicits.

(** [fnmatch(name, prefix + "*" + suffix)]. *)
Definition glob_match (prefix suffix : string) (name : string) : bool :=
  String.prefix prefix name &&
  (String.length prefix + String.length suffix <=? String.length name) &&
  String.eqb (String.substring (String.length name - String.length suffix) (String.length suffix) name) suffix.

(** ** Facts about the file-system operations *)

Lemma split_slash_no_slash s : no_slash s = true -> split_slash s = [s].
Proof.
  induction s as [|c s IH]; [done|]. cbn. intros [Hc Hs]%andb_prop.
  apply negb_true_iff in Hc. rewrite Hc, IH by done. done.
Qed.

Lemma path_div_single p s :
  no_slash s = true -> String.eqb s "" = false -> String.eqb s "." = false -> path_div p s = p ++ [s].
Proof. intros H H1 H2. unfold path_div. rewrite split_slash_no_slash by done. cbn. by rewrite H1, H2. Qed.

Section FsFacts.
Context {F : Type}.
Implicit Types (s : fs F) (p q : path) (c : F).

Lemma fs_write_ok p c s :
    fs_is_dir p s = false -> fs_is_dir (parent p) s = true -> fs_write p c s = Ok (fs_put p c s).
  Proof. intros H1 H2. unfold fs_write. by rewrite H1, H2. Qed.

Lemma fs_write_inv p c s s' : fs_write p c s = Ok s' -> s' = fs_put p c s.
  Proof.
    unfold fs_write. destruct (fs_is_dir p s); [done|].
    destruct (fs_is_dir (parent p) s); [|done]. by intros [= <-].
  Qed.

Lemma fs_is_dir_dirs q s1 s2 : fs_dirs s1 = fs_dirs s2 -> fs_is_dir q s1 = fs_is_dir q s2.
  Proof. intros H. unfold fs_is_dir. by rewrite H. Qed.

Lemma fs_is_dir_put q p c s : fs_is_dir q (fs_put p c s) = fs_is_dir q s.
  Proof. done. Qed.

Lemma fs_is_dir_remove q p s : fs_is_dir q (fs_remove p s) = fs_is_dir q s.
  Proof. done. Qed.

Lemma fs_read_put_eq p c s : fs_read p (fs_put p c s) = Some c.
  Proof. apply lookup_insert_eq. Qed.

Lemma fs_read_put_ne q p c s : q <> p -> fs_read q (fs_put p c s) = fs_read q s.
  Proof. intros H. apply lookup_insert_ne. congruence. Qed.

Lemma fs_read_remove_eq p s : fs_read p (fs_remove p s) = None.
  Proof. apply lookup_delete_eq. Qed.

Lemma fs_read_remove_ne q p s : q <> p -> fs_read q (fs_remove p s) = fs_read q s.
  Proof. intros H. apply lookup_delete_ne. congruence. Qed.

Lemma fs_exists_put_eq p c s : fs_exists p (fs_put p c s) = true.
  Proof. unfold fs_exists, fs_is_file. cbn. rewrite lookup_insert_eq. done. Qed.

Lemma fs_exists_put_ne q p c s : q <> p -> fs_exists q (fs_put p c s) = fs_exists q s.
  Proof. intros H. unfold fs_exists, fs_is_file. cbn. by rewrite lookup_insert_ne by congruence. Qed.

Lemma fs_exists_remove_ne q p s : q <> p -> fs_exists q (fs_remove p s) = fs_exists q s.
  Proof. intros H. unfold fs_exists, fs_is_file. cbn. by rewrite lookup_delete_ne by congruence. Qed.

Lemma fs_put_put p c c' s : fs_put p c (fs_put p c' s) = fs_put p c s.
  Proof. unfold fs_put. cbn. by rewrite insert_insert_eq. Qed.

Lemma fs_put_remove p c s : fs_put p c (fs_remove p s) = fs_put p c s.
  Proof. unfold fs_put, fs_remove. cbn. by rewrite insert_delete_eq. Qed.

Lemma fs_write_put_remove p x c s : fs_write p x (fs_put p c s) = fs_write p x (fs_remove p s).
  Proof.
    unfold fs_write. rewrite !fs_is_dir_put, !fs_is_dir_remove.
    destruct (fs_is_dir p s), (fs_is_dir (parent p) s); try done.
    cbn. by rewrite insert_insert_eq, insert_delete_eq.
  Qed.

Lemma fs_is_file_remove p s : fs_is_file p (fs_remove p s) = false.
  Proof. unfold fs_is_file. cbn. by rewrite lookup_delete_eq. Qed.

Lemma fs_read_not_file p s : fs_is_file p s = false -> fs_read p s = None.
  Proof. unfold fs_is_file, fs_read. case_bool_decide as H; [done|]. intros _. by apply eq_None_not_Some. Qed.

Lemma fs_read_file p s c : fs_read p s = Some c -> fs_exists p s = true.
  Proof. unfold fs_read, fs_exists, fs_is_file. intros H. rewrite H. by rewrite bool_decide_eq_true_2. Qed.

Lemma fs_unlink_ok p s : fs_is_file p s = true -> fs_unlink p s = Ok (fs_remove p s).
  Proof. intros H. unfold fs_unlink. by rewrite H. Qed.
End FsFacts.

#[export] Hint Rewrite @fs_is_dir_put @fs_is_dir_remove @fs_read_put_eq @fs_read_remove_eq
  @fs_exists_put_eq @fs_put_put @fs_put_remove : uwepd.

Lemma fs_mkdir_p_idem {F} p (s s1 : fs F) : fs_mkdir_p p s = Ok s1 -> fs_mkdir_p p s1 = Ok s1.
Proof.
  unfold fs_mkdir_p. destruct (existsb _ _) eqn:He; [done|]. intros [= <-].
  cbn. unfold fs_is_file in *. cbn. rewrite He. f_equal. f_equal. set_solver.
Qed.
