(* ===== verification/Journal.v ===== *)
(** * Journal: the file-backed conversation memory

    The helpers at the top of every script ([_memory_dir],
    [_memory_path_for_thread], [_load_memory], [_append_memory]) and the
    stamping of a thread id into a journal ([main] of the command-line
    clients).  A journal is the JSON object
    [{"thread_id": ..., "messages": [{"ts", "role", "text", "message_id"}, ...]}]
    in [memory/conversation_<thread_id>.json].

    The module [Store] translates the code over the Python values of
    [PyJson] and the file system of [FileSystem]; the abstract journal
    ([journal], [journal_append]) is what the spec promises, and the
    refinement theorems show that on every file that holds a journal, or
    holds no valid JSON at all, the code computes the abstract operation.
    [unstamped] (no file holds a journal with a truthy thread id) is kept
    by every append, unlink and directory creation; the page's invariant
    theorem in [AppTurn] rests on it. *)

From S2P Require Import Prelude PyJson FileSystem.

(** ** The abstract journal of the spec *)

Record entry := mk_entry {
  e_ts : string;
  e_role : string;
  e_text : string;
  e_message_id : option string
}.

Record journal := mk_journal {
  j_thread_id : option string;
  j_messages : list entry
}.

Definition empty_journal : journal := mk_journal None [].

(** The trim policy: [None] keeps everything, [Some k] keeps the last [k]. *)
Definition apply_trim (t : option nat) (xs : list entry) : list entry :=
  match t with None => xs | Some k => lastn k xs end.

Definition journal_append (t : option nat) (e : entry) (j : journal) : journal :=
  mk_journal (j_thread_id j) (apply_trim t (j_messages j ++ [e])).

Definition journal_set_thread (tid : string) (j : journal) : journal :=
  mk_journal (Some tid) (j_messages j).

(** ** Journals as JSON *)

Definition opt_json (o : option string) : json :=
  match o with Some x => JStr x | None => JNull end.

(** The dict literal of [_append_memory]. *)
Definition memory_entry (ts role text : string) (message_id : option string) : json :=
  JDict [("ts", JStr ts); ("role", JStr role); ("text", JStr text);
         ("message_id", opt_json message_id)].

Definition entry_json (e : entry) : json :=
  memory_entry (e_ts e) (e_role e) (e_text e) (e_message_id e).

Definition journal_json (j : journal) : json :=
  JDict [("thread_id", opt_json (j_thread_id j));
         ("messages", JList (map entry_json (j_messages j)))].

Definition str_of (j : json) : option string :=
  match j with JStr s => Some s | _ => None end.

Definition opt_str_of (j : json) : option (option string) :=
  match j with JNull => Some None | JStr s => Some (Some s) | _ => None end.

(** Decoding accepts exactly the dicts the code writes. *)
Definition entry_of_json (j : json) : option entry :=
  match j with
  | JDict [(k1, JStr ts); (k2, JStr r); (k3, JStr t); (k4, m)] =>
      if String.eqb k1 "ts" && String.eqb k2 "role" && String.eqb k3 "text"
         && String.eqb k4 "message_id"
      then mid ← opt_str_of m; Some (mk_entry ts r t mid)
      else None
  | _ => None
  end.

Fixpoint entries_of_json (xs : list json) : option (list entry) :=
  match xs with
  | [] => Some []
  | x :: xs' => e ← entry_of_json x; es ← entries_of_json xs'; Some (e :: es)
  end.

Definition journal_of_json (j : json) : option journal :=
  match j with
  | JDict [(k1, t); (k2, JList ms)] =>
      if String.eqb k1 "thread_id" && String.eqb k2 "messages"
      then tid ← opt_str_of t; es ← entries_of_json ms; Some (mk_journal tid es)
      else None
  | _ => None
  end.

(** The slice argument the code writes for a trim policy, and the policies
    the code can express ([xs[-0:]] keeps everything, so [Some 0] is not one). *)
Definition trim_arg (t : option nat) : option Z := option_map (fun k => (- Z.of_nat k)%Z) t.
Definition trim_ok (t : option nat) : Prop := t <> Some 0.

Module Store.
Section Store.
Context {F : Type} `{!JsonCodec F}.

  (** [_memory_dir]: [Path("memory")], created if missing. *)
Definition memory_dir_path : path := ["memory"].

Definition _memory_dir (s : fs F) : res (fs F * path) :=
    s' ← fs_mkdir_p memory_dir_path s; Ok (s', memory_dir_path).

Definition memory_file_name (thread_id : string) : string :=
    "conversation_" +:+ thread_id +:+ ".json".

  (** [_memory_path_for_thread]. *)
Definition _memory_path_for_thread (thread_id : string) (s : fs F) : res (fs F * path) :=
    r ← _memory_dir s; Ok (r.1, path_div r.2 (memory_file_name thread_id)).

  (** [_load_memory]: any failure to open or parse gives the empty journal
      [{"thread_id": None, "messages": []}]. *)
Definition default_memory : json :=
    JDict [("thread_id", JNull); ("messages", JList [])].

Definition _load_memory (mem_path : path) (s : fs F) : json :=
    if fs_exists mem_path s then
      match fs_read mem_path s with
      | Some c => default default_memory (json_load c)
      | None => default_memory
      end
    else default_memory.

  (** [_append_memory], with the trim of the variant: [Some (-20)] for
      [data["messages"] = data["messages"][-20:]], [None] where the
      variant keeps the whole history.  [ts] is the value of
      [datetime.now(timezone.utc).isoformat()] at the call. *)
Definition append_memory_with (trim : option Z) (mem_path : path) (role text : string)
      (message_id : option string) (ts : string) (s : fs F) : res (fs F) :=
    let data := _load_memory mem_path s in
    data ← py_setdefault data "messages" (JList []);
    msgs ← py_getitem data "messages";
    msgs ← py_append msgs (memory_entry ts role text message_id);
    data ← py_setitem data "messages" msgs;
    data ← match trim with
           | None => Ok data
           | Some i =>
               m ← py_getitem data "messages";
               m ← py_slice_json i m;
               py_setitem data "messages" m
           end;
    fs_write mem_path (json_dump data) s.

  (** The trimming variant of [streamlit_mcpclientapp.py] (and of the
      backup pages 3 and 4): [data["messages"] = data["messages"][-20:]]
      before the write. *)
Definition _append_memory := append_memory_with (Some (-20)%Z).

  (** The variant of [client_python.py], [client_v2.py] and the backup
      pages 1 and 2, which keeps the whole history. *)
Definition _append_memory_untrimmed := append_memory_with None.

  (** Stamping a journal with its thread id, before the first message:
      [mem_data = _load_memory(mem_path); mem_data["thread_id"] = thread_id]
      then [json.dump]. *)
Definition stamp_thread_id (mem_path : path) (thread_id : json) (s : fs F) : res (fs F) :=
    mem_data ← py_setitem (_load_memory mem_path s) "thread_id" thread_id;
    fs_write mem_path (json_dump mem_data) s.

  (** The journal part of [delete_thread]:
      [if mem_path.exists(): mem_path.unlink()]. *)
Definition unlink_memory (mem_path : path) (s : fs F) : res (fs F) :=
    if fs_exists mem_path s then fs_unlink mem_path s else Ok s.

  (** A run of appends, one per entry, as the interaction loop issues them. *)
Fixpoint append_entries (t : option nat) (mem_path : path) (es : list entry) (s : fs F)
      : res (fs F) :=
    match es with
    | [] => Ok s
    | e :: es' =>
        s' ← append_memory_with (trim_arg t) mem_path
               (e_role e) (e_text e) (e_message_id e) (e_ts e) s;
        append_entries t mem_path es' s'
    end.

  (** The abstract journal a file stands for: an absent, unreadable or
      unparsable file is the empty journal; a file holding another JSON
      value is not a journal ([None]). *)
Definition journal_view (mem_path : path) (s : fs F) : option journal :=
    if fs_exists mem_path s then
      match fs_read mem_path s with
      | Some c =>
          match json_load c with
          | Some j => journal_of_json j
          | None => Some empty_journal
          end
      | None => Some empty_journal
      end
    else Some empty_journal.
  (** A journal [get_all_threads] lists: a dict whose ["thread_id"] is
      truthy ([if thread_id:]). *)
Definition tid_stamped (data : json) : bool :=
    match data with
    | JDict kvs => py_truthy (default JNull (dict_lookup "thread_id" kvs))
    | _ => false
    end.

  (** No file of the store parses to a stamped journal. *)
Definition unstamped (s : fs F) : Prop :=
    forall p c v, fs_files s !! p = Some c -> json_load c = Some v -> tid_stamped v = false.

  (** The journal schema: every file of the store that parses holds a
      journal, a dict with a ["thread_id"] and a list of ["messages"] whose
      entries carry [ts], [role], [text] and [message_id]. *)
Definition journals_typed (s : fs F) : Prop :=
    forall p c v, fs_files s !! p = Some c -> json_load c = Some v -> is_Some (journal_of_json v).
End Store.

(** ** Decoding and encoding journals *)

Lemma opt_str_of_opt_json o : opt_str_of (opt_json o) = Some o.
Proof. by destruct o. Qed.

Lemma entries_of_json_map es : entries_of_json (map entry_json es) = Some es.
Proof.
  induction es as [|[ts r t m] es IH]; [done|].
  cbn. rewrite opt_str_of_opt_json. cbn. by rewrite IH.
Qed.

Lemma journal_of_json_json j : journal_of_json (journal_json j) = Some j.
Proof.
  destruct j as [tid es]. cbn. rewrite opt_str_of_opt_json. cbn.
  by rewrite entries_of_json_map.
Qed.

Lemma opt_str_of_inv x o : opt_str_of x = Some o -> x = opt_json o.
Proof. destruct x; cbn; intros; simplify_eq; done. Qed.

Lemma entry_of_json_inv x e : entry_of_json x = Some e -> x = entry_json e.
Proof.
  destruct x as [| | | |?|kvs]; try discriminate.
  destruct kvs as [|[k1 [| | | ts | |]] [|[k2 [| | | r | |]] [|[k3 [| | | t | |]] [|[k4 m] [|]]]]];
    try discriminate.
  cbn. destruct (String.eqb_spec k1 "ts"), (String.eqb_spec k2 "role"),
    (String.eqb_spec k3 "text"), (String.eqb_spec k4 "message_id"); try discriminate.
  subst. destruct (opt_str_of m) as [mid|] eqn:Hm; [|discriminate].
  intros [= <-]. by rewrite (opt_str_of_inv _ _ Hm).
Qed.

Lemma entries_of_json_inv xs es : entries_of_json xs = Some es -> xs = map entry_json es.
Proof.
  revert es. induction xs as [|x xs IH]; intros es; cbn; [by intros [= <-]|].
  destruct (entry_of_json x) as [e|] eqn:He; [|discriminate]. cbn.
  destruct (entries_of_json xs) as [es'|] eqn:Hes; [|discriminate].
  intros [= <-]. cbn. by rewrite (entry_of_json_inv _ _ He), (IH es').
Qed.

Lemma journal_of_json_inv x j : journal_of_json x = Some j -> x = journal_json j.
Proof.
  destruct x as [| | | |?|kvs]; try discriminate.
  destruct kvs as [|[k1 t] [|[k2 [| | | | ms |]] [|]]]; try discriminate.
  cbn. destruct (String.eqb_spec k1 "thread_id"), (String.eqb_spec k2 "messages");
    try discriminate.
  subst. destruct (opt_str_of t) as [tid|] eqn:Ht; [|discriminate]. cbn.
  destruct (entries_of_json ms) as [es|] eqn:Hes; [|discriminate].
  intros [= <-]. by rewrite (opt_str_of_inv _ _ Ht), (entries_of_json_inv _ _ Hes).
Qed.

Lemma entry_json_wf e : json_wf (entry_json e) = true.
Proof. by destruct e as [ts r t [m|]]. Qed.

Lemma journal_json_wf j : json_wf (journal_json j) = true.
Proof.
  assert (Hes : forall es, forallb json_wf (map entry_json es) = true).
  { induction es as [|e es IH]; [done|]. cbn [map forallb]. by rewrite entry_json_wf, IH. }
  destruct j as [[tid|] es]; cbn; by rewrite Hes.
Qed.

#[export] Hint Resolve journal_json_wf entry_json_wf : uwepd.

Lemma lastn_map {A B} (f : A -> B) k xs : lastn k (map f xs) = map f (lastn k xs).
Proof. unfold lastn. by rewrite length_map, <- fmap_drop. Qed.

Lemma slice_entries k es :
  0 < k -> py_slice_from (- Z.of_nat k) (map entry_json es) = map entry_json (lastn k es).
Proof. intros Hk. by rewrite py_slice_from_neg, lastn_map. Qed.

Lemma apply_trim_snoc t xs x : apply_trim t (apply_trim t xs ++ [x]) = apply_trim t (xs ++ [x]).
Proof. destruct t; cbn; [apply lastn_snoc | done]. Qed.

Lemma apply_trim_app t xs ys : apply_trim t (apply_trim t xs ++ ys) = apply_trim t (xs ++ ys).
Proof. destruct t; cbn; [apply lastn_app_lastn | done]. Qed.

Lemma apply_trim_idem t xs : apply_trim t (apply_trim t xs) = apply_trim t xs.
Proof. destruct t; cbn; [apply lastn_lastn | done]. Qed.

#[export] Hint Rewrite apply_trim_snoc apply_trim_app apply_trim_idem : uwepd.


Section StoreFacts.
Context {F : Type} `{!JsonCodec F}.
Implicit Types (s : fs F) (p : path).

Lemma load_memory_view p s j : journal_view p s = Some j -> _load_memory p s = journal_json j.
  Proof.
    unfold journal_view, _load_memory.
    destruct (fs_exists p s); [|by intros [= <-]].
    destruct (fs_read p s) as [c|]; [|by intros [= <-]].
    destruct (json_load c) as [x|]; cbn; [apply journal_of_json_inv | by intros [= <-]].
  Qed.

Lemma append_memory_with_journal t p role text mid ts s j :
    trim_ok t -> journal_view p s = Some j ->
    append_memory_with (trim_arg t) p role text mid ts s =
    fs_write p (json_dump (journal_json (journal_append t (mk_entry ts role text mid) j))) s.
  Proof.
    intros Ht Hv. unfold append_memory_with. rewrite (load_memory_view _ _ _ Hv).
    destruct j as [tid es].
    cbn [py_setdefault py_getitem py_append py_setitem py_slice_json dict_lookup dict_set
         journal_json mbind res_bind String.eqb Ascii.eqb Bool.eqb fst snd].
    destruct t as [k|]; cbn [trim_arg option_map py_getitem py_setitem py_slice_json
         dict_lookup dict_set mbind res_bind String.eqb Ascii.eqb Bool.eqb journal_append
         apply_trim j_messages j_thread_id].
    all: change [memory_entry ts role text mid] with (map entry_json [mk_entry ts role text mid]);
      rewrite <- map_app.
    - rewrite slice_entries by (destruct k; [done|lia]). done.
    - done.
  Qed.

Lemma memory_path_eq t s s1 :
  no_slash t = true -> fs_mkdir_p memory_dir_path s = Ok s1 ->
  _memory_path_for_thread t s = Ok (s1, ["memory"; memory_file_name t]).
Proof.
  intros Ht Hm. unfold _memory_path_for_thread, _memory_dir. rewrite Hm. cbn [mbind res_bind fst snd].
  unfold memory_file_name. rewrite path_div_single; [done| |done|done].
  rewrite !no_slash_app. by rewrite Ht.
Qed.

Lemma journal_view_put p c s j :
    json_load c = Some (journal_json j) -> journal_view p (fs_put p c s) = Some j.
  Proof.
    intros Hc. unfold journal_view. rewrite fs_exists_put_eq, fs_read_put_eq, Hc.
    apply journal_of_json_json.
  Qed.

Lemma journal_view_dump p s j : journal_view p (fs_put p (json_dump (journal_json j)) s) = Some j.
  Proof. apply journal_view_put, json_load_dump, journal_json_wf. Qed.

Lemma journal_view_put_ne q p c s : q <> p -> journal_view q (fs_put p c s) = journal_view q s.
  Proof. intros H. unfold journal_view. by rewrite fs_exists_put_ne, fs_read_put_ne. Qed.

Lemma load_memory_corrupt p s c :
    fs_read p s = Some c -> json_load c = None -> _load_memory p s = default_memory.
  Proof. intros Hr Hc. unfold _load_memory. rewrite Hr, Hc. by destruct (fs_exists p s). Qed.

Lemma load_memory_absent p s : fs_read p s = None -> _load_memory p s = default_memory.
  Proof. intros Hr. unfold _load_memory. rewrite Hr. by destruct (fs_exists p s). Qed.

  (** One append, from the store's point of view. *)
Lemma append_memory_with_step t p role text mid ts s j :
    trim_ok t -> journal_view p s = Some j ->
    fs_is_dir p s = false -> fs_is_dir (parent p) s = true ->
    exists s', append_memory_with (trim_arg t) p role text mid ts s = Ok s' /\
      journal_view p s' = Some (journal_append t (mk_entry ts role text mid) j) /\
      fs_dirs s' = fs_dirs s /\ (forall q, q <> p -> fs_read q s' = fs_read q s).
  Proof.
    intros Ht Hv Hd Hpd. rewrite (append_memory_with_journal _ _ _ _ _ _ _ j Ht Hv).
    rewrite fs_write_ok by done. eexists; split; [done|].
    split; [apply journal_view_dump|]. split; [done|]. intros q Hq. by apply fs_read_put_ne.
  Qed.
Lemma memory_entry_wf ts role text mid : json_wf (memory_entry ts role text mid) = true.
Proof. exact (entry_json_wf (mk_entry ts role text mid)). Qed.

Lemma load_memory_wf p s : json_wf (_load_memory p s) = true.
Proof.
  unfold _load_memory. destruct (fs_exists p s); [|done].
  destruct (fs_read p s) as [c|]; [|done].
  destruct (json_load c) as [v|] eqn:E; cbn; [by eapply json_load_wf|done].
Qed.

Lemma unstamped_put p d s :
  unstamped s -> json_wf d = true -> tid_stamped d = false -> unstamped (fs_put p (json_dump d) s).
Proof.
  intros Hu Hw Ht q c v. cbn. destruct (decide (q = p)) as [->|Hne].
  - rewrite lookup_insert_eq. intros [= <-]. rewrite json_load_dump by done. by intros [= <-].
  - rewrite lookup_insert_ne by done. apply Hu.
Qed.

Lemma unstamped_files s s' : fs_files s' ⊆ fs_files s -> unstamped s -> unstamped s'.
Proof. intros Hsub Hu q c v Hq. apply (Hu q). by eapply lookup_weaken. Qed.

Lemma load_memory_unstamped p s : unstamped s -> tid_stamped (_load_memory p s) = false.
Proof.
  intros Hu. unfold _load_memory. destruct (fs_exists p s); [|done].
  destruct (fs_read p s) as [c|] eqn:Hr; [|done].
  destruct (json_load c) as [v|] eqn:E; cbn; [by eapply Hu|done].
Qed.

Lemma tid_stamped_setdefault d k v d' :
  k <> "thread_id" -> py_setdefault d k v = Ok d' -> tid_stamped d' = tid_stamped d.
Proof.
  intros Hk H. destruct (py_setdefault_dict _ _ _ _ H) as [kvs' ->].
  destruct (py_setdefault_lookup _ _ _ _ "thread_id" kvs' Hk H eq_refl) as (kvs & -> & E).
  cbn. by rewrite E.
Qed.

Lemma tid_stamped_setitem d k v d' :
  k <> "thread_id" -> py_setitem d k v = Ok d' -> tid_stamped d' = tid_stamped d.
Proof.
  intros Hk H. destruct (py_setitem_dict _ _ _ _ H) as [kvs' ->].
  destruct (py_setitem_lookup _ _ _ _ "thread_id" kvs' Hk H eq_refl) as (kvs & -> & E).
  cbn. by rewrite E.
Qed.

  (** An append writes back the loaded dict with only ["messages"] changed. *)
Lemma append_memory_with_unstamped tr p role text mid ts s s' :
  unstamped s -> append_memory_with tr p role text mid ts s = Ok s' -> unstamped s'.
Proof.
  intros Hu. unfold append_memory_with.
  pose proof (load_memory_wf p s) as W0. pose proof (load_memory_unstamped p s Hu) as T0.
  revert W0 T0. generalize (_load_memory p s) as d0. intros d0 W0 T0.
  intros (d1 & H1 & (m & Hm & (m1 & Hm1 & (d2 & H2 & (d3 & H3 & Hw)%bind_eq_Ok)%bind_eq_Ok)%bind_eq_Ok)%bind_eq_Ok)%bind_eq_Ok.
  pose proof (py_setdefault_wf _ _ (JList []) _ W0 eq_refl H1) as W1.
  pose proof (py_append_wf _ _ _ (py_getitem_wf _ _ _ W1 Hm) (memory_entry_wf _ _ _ _) Hm1) as Wm1.
  pose proof (py_setitem_wf _ _ _ _ W1 Wm1 H2) as W2.
  assert (T2 : tid_stamped d2 = false).
  { by rewrite (tid_stamped_setitem _ "messages" _ _ ltac:(done) H2), (tid_stamped_setdefault _ "messages" _ _ ltac:(done) H1). }
  assert (json_wf d3 = true /\ tid_stamped d3 = false) as [W3 T3].
  { destruct tr as [i|]; [|by injection H3 as <-].
    apply bind_eq_Ok in H3 as (m2 & Hm2 & (m3 & Hm3 & H4)%bind_eq_Ok).
    split; [|by rewrite (tid_stamped_setitem _ "messages" _ _ ltac:(done) H4)].
    eapply py_setitem_wf, H4; [done|]. by eapply py_slice_json_wf, Hm3; eapply py_getitem_wf. }
  apply fs_write_inv in Hw as ->. by apply unstamped_put.
Qed.

Lemma unlink_memory_unstamped p s s' : unstamped s -> unlink_memory p s = Ok s' -> unstamped s'.
Proof.
  unfold unlink_memory, fs_unlink. intros Hu.
  destruct (fs_exists p s); [destruct (fs_is_file p s)|]; intros; res_simpl; subst; [|done].
  eapply unstamped_files, Hu. cbn. apply delete_subseteq.
Qed.

Lemma mkdir_p_files p s s' : fs_mkdir_p p s = Ok s' -> fs_files s' = fs_files s.
Proof. unfold fs_mkdir_p. case_match; [done|]. by intros [= <-]. Qed.

Lemma memory_path_unstamped t s s' q : unstamped s -> _memory_path_for_thread t s = Ok (s', q) -> unstamped s'.
Proof.
  unfold _memory_path_for_thread, _memory_dir. intros Hu.
  destruct (fs_mkdir_p memory_dir_path s) as [s1|] eqn:E; cbn; [|done]. intros [= <- _].
  eapply unstamped_files, Hu. by rewrite (mkdir_p_files _ _ _ E).
Qed.
Lemma stamp_thread_id_eq p tid s j :
  journal_view p s = Some j ->
  stamp_thread_id p (JStr tid) s = fs_write p (json_dump (journal_json (journal_set_thread tid j))) s.
Proof. intros Hv. unfold stamp_thread_id. rewrite (load_memory_view _ _ _ Hv). by destruct j. Qed.

Lemma unlink_memory_spec p s :
    fs_is_dir p s = false ->
    exists s', unlink_memory p s = Ok s' /\ journal_view p s' = Some empty_journal /\
      _load_memory p s' = default_memory /\ unlink_memory p s' = Ok s'.
  Proof.
    intros Hd. unfold unlink_memory, journal_view, _load_memory.
    destruct (fs_exists p s) eqn:He.
    - assert (Hf : fs_is_file p s = true) by (unfold fs_exists in He; rewrite Hd in He; by destruct (fs_is_file p s)).
      rewrite fs_unlink_ok by done. eexists; split; [done|].
      assert (He' : fs_exists p (fs_remove p s) = false)
        by (unfold fs_exists; by rewrite fs_is_file_remove, fs_is_dir_remove, Hd).
      by rewrite He'.
    - eexists; split; [done|]. by rewrite He.
  Qed.

Lemma memory_dir_is_dir s s1 : fs_mkdir_p memory_dir_path s = Ok s1 -> fs_is_dir ["memory"] s1 = true.
Proof.
  unfold fs_mkdir_p. case_match; [done|]. intros [= <-].
  unfold fs_is_dir. apply bool_decide_eq_true. cbn. set_solver.
Qed.

  (** [_append_memory] on a journal file, as a write of the appended journal. *)
Lemma append_memory_put p role text mid ts s j :
  journal_view p s = Some j -> fs_is_dir p s = false -> fs_is_dir (parent p) s = true ->
  _append_memory p role text mid ts s =
  Ok (fs_put p (json_dump (journal_json (journal_append (Some 20) (mk_entry ts role text mid) j))) s).
Proof.
  intros Hv Hd Hp. unfold _append_memory.
  rewrite (append_memory_with_journal (Some 20) _ _ _ _ _ _ j); [|done|done]. by apply fs_write_ok.
Qed.
Lemma typed_put p j s :
  journals_typed s -> journals_typed (fs_put p (json_dump (journal_json j)) s).
Proof.
  intros Hs q c v. cbn. destruct (decide (q = p)) as [->|Hne].
  - rewrite lookup_insert_eq. intros [= <-]. rewrite json_load_dump by apply journal_json_wf.
    intros [= <-]. rewrite journal_of_json_json. by eexists.
  - rewrite lookup_insert_ne by done. apply Hs.
Qed.

Lemma typed_files s s' : fs_files s' ⊆ fs_files s -> journals_typed s -> journals_typed s'.
Proof. intros Hsub Hs q c v Hq. apply (Hs q). by eapply lookup_weaken. Qed.

Lemma typed_view p s : journals_typed s -> is_Some (journal_view p s).
Proof.
  intros Hs. unfold journal_view. destruct (fs_exists p s); [|by eexists].
  destruct (fs_read p s) as [c|] eqn:Hr; [|by eexists].
  destruct (json_load c) as [v|] eqn:E; [by eapply Hs|by eexists].
Qed.

  (** The trimming append writes a journal back, whatever the file held. *)
Lemma append_memory_typed p role text mid ts s s' :
  journals_typed s -> _append_memory p role text mid ts s = Ok s' -> journals_typed s'.
Proof.
  intros Hs. destruct (typed_view p s Hs) as [j Hv]. unfold _append_memory.
  rewrite (append_memory_with_journal (Some 20) _ _ _ _ _ _ j); [|done|done].
  intros ->%fs_write_inv. by apply typed_put.
Qed.

Lemma unlink_memory_typed p s s' : journals_typed s -> unlink_memory p s = Ok s' -> journals_typed s'.
Proof.
  unfold unlink_memory, fs_unlink. intros Hs.
  destruct (fs_exists p s); [destruct (fs_is_file p s)|]; intros; res_simpl; subst; [|done].
  eapply typed_files, Hs. cbn. apply delete_subseteq.
Qed.

Lemma memory_path_typed t s s' q : journals_typed s -> _memory_path_for_thread t s = Ok (s', q) -> journals_typed s'.
Proof.
  unfold _memory_path_for_thread, _memory_dir. intros Hs.
  destruct (fs_mkdir_p memory_dir_path s) as [s1|] eqn:E; cbn; [|done]. intros [= <- _].
  eapply typed_files, Hs. by rewrite (mkdir_p_files _ _ _ E).
Qed.
End StoreFacts.

Section StoreClaims.
Context {F : Type} `{!JsonCodec F}.
Implicit Types (s : fs F) (p : path).

  (** C2. Refinement of the trimming [_append_memory]: on a file that holds
      a journal (or is missing or unparsable, the empty journal), the code
      writes back exactly the abstract journal with the new entry appended
      and the history cut to its last 20 entries. *)
Theorem append_memory_refines p role text mid ts s j :
    journal_view p s = Some j ->
    _append_memory p role text mid ts s =
    fs_write p (json_dump (journal_json
      (journal_append (Some 20) (mk_entry ts role text mid) j))) s.
  Proof. intros Hv. exact (append_memory_with_journal (Some 20) p role text mid ts s j ltac:(done) Hv). Qed.

  (** C11. Any run of appends succeeds and leaves the journal with its
      previous messages followed by the new entries, in append order, cut
      to the last [k] when the policy keeps [k]: the length is
      [min(N + old, k)] and the retained entries are the most recent. *)
Theorem append_entries_journal t p es s j :
    trim_ok t -> journal_view p s = Some j ->
    fs_is_dir p s = false -> fs_is_dir (parent p) s = true ->
    apply_trim t (j_messages j) = j_messages j ->
    exists s', append_entries t p es s = Ok s' /\
      journal_view p s' = Some (mk_journal (j_thread_id j) (apply_trim t (j_messages j ++ es))).
  Proof.
    revert s j. induction es as [|[ts r tx m] es IH]; intros s j Ht Hv Hd Hpd Htrim.
    - exists s. split; [done|]. destruct j as [tid ms]. cbn in *. by rewrite app_nil_r, Htrim.
    - destruct (append_memory_with_step t p r tx m ts s j) as (s1 & Hs1 & Hv1 & Hdirs & _); [done..|].
      cbn. rewrite Hs1. cbn [mbind res_bind].
      destruct (IH s1 _ Ht Hv1) as (s' & Hs' & Hv'); [by rewrite (fs_is_dir_dirs _ _ _ Hdirs) | by rewrite (fs_is_dir_dirs _ _ _ Hdirs) | apply apply_trim_idem|].
      exists s'. split; [done|]. rewrite Hv'. cbn. by rewrite apply_trim_app, <- app_assoc.
  Qed.

  (** C20. An unparsable journal file behaves exactly like a missing one:
      appending to it gives the same result (value and file system) as
      appending after the file was removed. *)
Theorem append_corrupt_as_missing tr p role text mid ts s c :
    json_load c = None ->
    append_memory_with tr p role text mid ts (fs_put p c s) =
    append_memory_with tr p role text mid ts (fs_remove p s).
  Proof.
    intros Hc. unfold append_memory_with.
    rewrite (load_memory_corrupt p _ c) by (done || apply fs_read_put_eq).
    rewrite load_memory_absent by apply fs_read_remove_eq.
    cbn [default_memory py_setdefault py_getitem py_append py_setitem dict_lookup dict_set
         mbind res_bind String.eqb Ascii.eqb Bool.eqb].
    destruct tr as [i|]; cbn [py_getitem py_setitem py_slice_json dict_lookup dict_set
         mbind res_bind String.eqb Ascii.eqb Bool.eqb]; apply fs_write_put_remove.
  Qed.

  (** C21. Deleting a journal ([delete_thread]'s [exists]/[unlink]) never
      raises on a path that is not a directory, leaves the empty journal
      behind, and is idempotent. *)
Theorem unlink_memory_empties p s :
    fs_is_dir p s = false ->
    exists s', unlink_memory p s = Ok s' /\ journal_view p s' = Some empty_journal /\
      _load_memory p s' = default_memory /\ unlink_memory p s' = Ok s'.
  Proof. apply unlink_memory_spec. Qed.

  (** C19. A journal file that parses but is not a JSON object (a list, a
      string, a number, [null]) makes [_append_memory] raise
      [AttributeError] at [data.setdefault]: such a file is not treated as
      an empty journal. *)
Theorem append_memory_non_dict_raises tr p role text mid ts s c v :
    fs_read p s = Some c -> json_load c = Some v -> (forall kvs, v <> JDict kvs) ->
    append_memory_with tr p role text mid ts s = Raise AttributeError.
  Proof.
    intros Hr Hc Hv. unfold append_memory_with, _load_memory.
    rewrite (fs_read_file _ _ _ Hr), Hr, Hc. cbn [default].
    destruct v; try done. by destruct (Hv kvs).
  Qed.

  (** C26. [_memory_path_for_thread] is injective on thread ids without a
      ['/'], the only ones the service issues. *)
Theorem memory_path_injective t1 t2 s1 s2 s1' s2' p :
    no_slash t1 = true -> no_slash t2 = true ->
    _memory_path_for_thread t1 s1 = Ok (s1', p) -> _memory_path_for_thread t2 s2 = Ok (s2', p) ->
    t1 = t2.
  Proof.
    intros H1 H2. unfold _memory_path_for_thread, _memory_dir.
    destruct (fs_mkdir_p memory_dir_path s1), (fs_mkdir_p memory_dir_path s2); try done.
    cbn [mbind res_bind fst snd]. intros [= _ Hp1] [= _ Hp2]. rewrite <- Hp2 in Hp1.
    unfold memory_file_name in Hp1.
    rewrite !path_div_single in Hp1 by (rewrite ?no_slash_app; cbn; rewrite ?H1, ?H2; done).
    injection Hp1 as Hp1. rewrite !string_app_nil_l in Hp1.
    by apply string_app_inj_r in Hp1.
  Qed.

  (** Without that restriction the mapping is not injective: the ids
      ["a/b"] and ["a//b"] share one journal file. *)
Lemma memory_path_collision s :
    _memory_path_for_thread "a/b" s = _memory_path_for_thread "a//b" s.
  Proof. unfold _memory_path_for_thread. by destruct (_memory_dir s). Qed.

  (** C25. Stamping refines [journal_set_thread]: the messages are kept and
      the thread id is set, on every journal file. *)
Theorem stamp_thread_id_refines p tid s j :
    journal_view p s = Some j ->
    stamp_thread_id p (JStr tid) s = fs_write p (json_dump (journal_json (journal_set_thread tid j))) s.
  Proof. apply stamp_thread_id_eq. Qed.
End StoreClaims.
End Store.

(** ** Witnesses: the claims at concrete stores *)

Module JournalWitnesses.
Import Store.

Definition mem_dir_only : fs raw_file := mk_fs ∅ {[ ["memory"] ]}.
Definition t1_path : path := ["memory"; "conversation_t1.json"].
Definition hello : entry := mk_entry "T1" "user" "Hello" (Some "m1").
Definition hi_there : entry := mk_entry "T2" "assistant" "Hi there" (Some "m2").

Lemma append_memory_refines_witness :
  journal_view t1_path mem_dir_only = Some empty_journal /\
  _append_memory t1_path "user" "Hello" (Some "m1") "T1" mem_dir_only =
  fs_write t1_path (json_dump (journal_json
    (journal_append (Some 20) hello empty_journal))) mem_dir_only.
Proof. split; [vm_compute; reflexivity|]. apply append_memory_refines. vm_compute. reflexivity. Defined.

(** The spec's scenario: [Hello] then [Hi there] on a new location. *)
Lemma append_entries_journal_witness :
  exists s', append_entries (Some 20) t1_path [hello; hi_there] mem_dir_only = Ok s' /\
    journal_view t1_path s' = Some (mk_journal None (apply_trim (Some 20) ([] ++ [hello; hi_there]))).
Proof.
  apply (append_entries_journal (Some 20) t1_path [hello; hi_there] mem_dir_only empty_journal);
    [done | vm_compute; reflexivity | vm_compute; reflexivity | vm_compute; reflexivity | done].
Defined.

Lemma append_corrupt_as_missing_witness :
  json_load (RawBytes "{") = None /\
  _append_memory t1_path "user" "Hello" (Some "m1") "T1" (fs_put t1_path (RawBytes "{") mem_dir_only) =
  _append_memory t1_path "user" "Hello" (Some "m1") "T1" (fs_remove t1_path mem_dir_only).
Proof. split; [reflexivity|]. apply append_corrupt_as_missing. reflexivity. Defined.

Lemma unlink_memory_empties_witness :
  fs_is_dir t1_path (fs_put t1_path (RawJson (journal_json (mk_journal (Some "t1") [hello]))) mem_dir_only) = false /\
  exists s', unlink_memory t1_path (fs_put t1_path (RawJson (journal_json (mk_journal (Some "t1") [hello]))) mem_dir_only) = Ok s' /\
    journal_view t1_path s' = Some empty_journal /\ _load_memory t1_path s' = default_memory /\
    unlink_memory t1_path s' = Ok s'.
Proof. split; [vm_compute; reflexivity|]. apply unlink_memory_empties. vm_compute. reflexivity. Defined.

Lemma append_memory_non_dict_raises_witness :
  _append_memory t1_path "user" "Hello" (Some "m1") "T1" (fs_put t1_path (RawJson (JList [])) mem_dir_only)
  = Raise AttributeError.
Proof. apply (append_memory_non_dict_raises _ _ _ _ _ _ _ (RawJson (JList [])) (JList [])); [vm_compute; reflexivity | reflexivity | done]. Defined.

Lemma memory_path_injective_witness : "t1" = "t1".
Proof.
  eapply (memory_path_injective "t1" "t1" mem_dir_only mem_dir_only);
    [reflexivity | reflexivity | vm_compute; reflexivity | vm_compute; reflexivity].
Defined.

Lemma stamp_thread_id_refines_witness :
  stamp_thread_id t1_path (JStr "t1") mem_dir_only =
  fs_write t1_path (json_dump (journal_json (journal_set_thread "t1" empty_journal))) mem_dir_only.
Proof. apply stamp_thread_id_refines. vm_compute. reflexivity. Defined.
End JournalWitnesses.
