(* ===== verification/Directory.v ===== *)
(** * Directory: the resumable-conversation listing

    [get_all_threads] of [streamlit_mcpclientapp.py]: scan
    [memory/conversation_*.json] in reverse path order, load each file with
    the fail-open [_load_memory], and map every journal with a thread id
    and at least one message to the text of its first user message (or
    ["Chat"]).  The result is a Python dict keyed by thread id, so a later
    file with the same id overwrites the label in place.

    The abstract listing ([listing_of]) is the spec's Thread Directory;
    [get_all_threads_refines] shows the code computes it on every store
    whose conversation files hold journals (or nothing parsable). *)

From S2P Require Import Prelude PyJson FileSystem Journal.
Import Store.

(** ** Path order: [sorted(paths, reverse=True)] *)

(** [PurePosixPath.__lt__] compares the lists of parts; parts compare as
    strings, by code point (which is byte order on UTF-8). *)
Fixpoint path_leb (p q : path) : bool :=
  match p, q with
  | [], _ => true
  | _ :: _, [] => false
  | a :: p', b :: q' => if String.eqb a b then path_leb p' q' else String.ltb a b
  end.

Definition path_ge (p q : path) : Prop := path_leb q p = true.

#[export] Instance path_ge_dec : RelDecision path_ge.
Proof. intros p q. unfold path_ge. apply _. Defined.

Definition sorted_desc (ps : list path) : list path := merge_sort path_ge ps.

(** ** [get_all_threads] *)

(** [next((msg["text"] for msg in mem_data["messages"] if msg["role"] == "user"), "Chat")] *)
Definition is_user_msg (msg : json) : res bool :=
  r ← py_getitem msg "role"; Ok (py_eq_str r "user").

Definition msg_text (msg : json) : res json := py_getitem msg "text".

Definition first_user_message (mem_data : json) : res json :=
  msgs ← py_getitem mem_data "messages";
  it ← py_iter msgs;
  py_next is_user_msg msg_text (JStr "Chat") it.

(** One iteration of the loop over the journal files. *)
Definition thread_step {F} `{!JsonCodec F} (s : fs F) (threads : pydict) (mem_file : path)
    : res pydict :=
  let mem_data := _load_memory mem_file s in
  thread_id ← py_get mem_data "thread_id";
  if py_truthy thread_id then
    msgs ← py_get mem_data "messages";
    if py_truthy msgs then
      label ← first_user_message mem_data;
      pydict_set thread_id label threads
    else Ok threads
  else Ok threads.

Definition conversation_glob : string -> bool := glob_match "conversation_" ".json".

(** [get_all_threads]: [_memory_dir()] creates the directory if missing,
    hence the new file system in the result. *)
Definition get_all_threads {F} `{!JsonCodec F} (s : fs F) : res (fs F * pydict) :=
  r ← _memory_dir s;
  let files := sorted_desc (fs_glob r.2 conversation_glob r.1) in
  threads ← res_foldl (thread_step r.1) [] files;
  Ok (r.1, threads).

(** ** The abstract listing of the spec *)

Definition label_of (j : journal) : string :=
  match List.find (fun e => String.eqb (e_role e) "user") (j_messages j) with
  | Some e => e_text e
  | None => "Chat"
  end.

(** A journal is listed when it has a (non-empty) thread id and messages. *)
Definition listed (j : journal) : option (string * string) :=
  match j_thread_id j with
  | Some t => if String.eqb t "" then None
              else match j_messages j with [] => None | _ => Some (t, label_of j) end
  | None => None
  end.

(** Dict assignment on string keys: an existing key keeps its position. *)
Fixpoint listing_set (t l : string) (d : list (string * string)) : list (string * string) :=
  match d with
  | [] => [(t, l)]
  | (t', l') :: d' => if String.eqb t' t then (t', l) :: d' else (t', l') :: listing_set t l d'
  end.

Definition listing_of (js : list journal) : list (string * string) :=
  foldl (fun d j => match listed j with Some (t, l) => listing_set t l d | None => d end) [] js.

Definition listing_json (d : list (string * string)) : pydict :=
  map (fun tl => (JStr tl.1, JStr tl.2)) d.

(** [listing.get(t)] on the abstract listing. *)
Definition listing_lookup (t : string) (d : list (string * string)) : option string :=
  snd <$> List.find (fun tl => String.eqb tl.1 t) d.

(** The hashes of a dict's keys: distinct in every Python dict. *)
Definition pydict_keys (d : pydict) : list (res pykey) := map (fun kv => py_hash_key kv.1) d.

(** A conversation of [n] turns, as the interaction loop journals it. *)
Definition turn_entries (n : string) : list entry :=
  [mk_entry ("T" +:+ n) "user" ("q" +:+ n) (Some ("u" +:+ n));
   mk_entry ("T" +:+ n) "assistant" ("a" +:+ n) (Some ("m" +:+ n))].

Definition eleven_turns : list entry :=
  flat_map turn_entries ["1"; "2"; "3"; "4"; "5"; "6"; "7"; "8"; "9"; "10"; "11"].

Definition t1_path : path := ["memory"; "conversation_t1.json"].

(** ** The code computes the abstract listing *)

(** The directory exists after a listing, so a second listing changes
    nothing and lists the same threads. *)
Lemma get_all_threads_idem {F} `{!JsonCodec F} (s s' : fs F) d :
  get_all_threads s = Ok (s', d) -> get_all_threads s' = Ok (s', d).
Proof.
  unfold get_all_threads, _memory_dir.
  destruct (fs_mkdir_p memory_dir_path s) as [s1|e] eqn:E; cbn; [|done].
  destruct (res_foldl (thread_step s1) [] _) as [t|e] eqn:Et; cbn; [|done]. intros [= <- <-].
  rewrite (fs_mkdir_p_idem _ _ _ E). cbn. by rewrite Et.
Qed.

Lemma get_all_threads_files {F} `{!JsonCodec F} (s s' : fs F) d :
  get_all_threads s = Ok (s', d) -> fs_files s' = fs_files s.
Proof.
  unfold get_all_threads, _memory_dir.
  destruct (fs_mkdir_p memory_dir_path s) as [s1|e] eqn:E; cbn; [|done].
  destruct (res_foldl (thread_step s1) [] _); cbn; [|done]. intros [= <- _]. exact (mkdir_p_files _ _ _ E).
Qed.

Lemma py_next_entries ms :
  py_next is_user_msg msg_text (JStr "Chat") (map entry_json ms)
  = Ok (JStr (label_of (mk_journal None ms))).
Proof.
  unfold label_of. cbn [j_messages].
  induction ms as [|[ts r t m] ms IH]; [done|]. cbn [map List.find e_role e_text py_next].
  assert (Hu : is_user_msg (entry_json (mk_entry ts r t m)) = Ok (String.eqb r "user")) by reflexivity.
  rewrite Hu. destruct (String.eqb r "user"); [reflexivity | exact IH].
Qed.

Lemma first_user_message_journal j : first_user_message (journal_json j) = Ok (JStr (label_of j)).
Proof. destruct j as [tid ms]. unfold first_user_message. cbn -[py_next]. apply py_next_entries. Qed.

Lemma key_is_str t t' : key_is (KStr t) (JStr t') = String.eqb t' t.
Proof.
  unfold key_is. cbn. destruct (String.eqb_spec t' t) as [->|Hne].
  - by rewrite bool_decide_eq_true_2.
  - rewrite bool_decide_eq_false_2; [done|]. by intros [= ?].
Qed.

Lemma pydict_set_listing t l d :
  pydict_set (JStr t) (JStr l) (listing_json d) = Ok (listing_json (listing_set t l d)).
Proof.
  unfold pydict_set. cbn [py_hash_key mbind res_bind]. f_equal.
  induction d as [|[t' l'] d IH]; [done|]. cbn [listing_json map pydict_set_hashed listing_set fst snd].
  rewrite key_is_str. destruct (String.eqb t' t); [done|]. cbn [listing_json map fst snd]. f_equal. exact IH.
Qed.

Definition listing_step (d : list (string * string)) (j : journal) : list (string * string) :=
  match listed j with Some (t, l) => listing_set t l d | None => d end.

Lemma thread_step_journal {F} `{!JsonCodec F} (s : fs F) d p j :
  journal_view p s = Some j ->
  thread_step s (listing_json d) p = Ok (listing_json (listing_step d j)).
Proof.
  intros Hv. unfold thread_step, listing_step, listed. rewrite (load_memory_view _ _ _ Hv).
  destruct j as [[t|] ms]; cbn [py_get py_get_or journal_json dict_lookup String.eqb Ascii.eqb
    Bool.eqb default from_option id mbind res_bind opt_json py_truthy j_thread_id j_messages]; [|done].
  destruct (String.eqb t ""); cbn [negb]; [done|].
  destruct ms as [|e ms]; [done|]. cbn [length Nat.eqb negb id].
  rewrite first_user_message_journal. cbn [mbind res_bind]. apply pydict_set_listing.
Qed.

Lemma res_foldl_thread_step {F} `{!JsonCodec F} (s : fs F) ps js d :
  mapM (fun p => journal_view p s) ps = Some js ->
  res_foldl (thread_step s) (listing_json d) ps = Ok (listing_json (foldl listing_step d js)).
Proof.
  revert js d. induction ps as [|p ps IH]; intros js d Hm; cbn in Hm.
  - by injection Hm as <-.
  - destruct (journal_view p s) as [j|] eqn:Hv; [|done]. cbn in Hm.
    destruct (mapM (fun p => journal_view p s) ps) as [js'|] eqn:Hm'; [|done].
    injection Hm as <-. cbn. rewrite (thread_step_journal _ _ _ _ Hv). by apply IH.
Qed.

Lemma pydict_keys_set h k v d x :
  x ∈ pydict_keys (pydict_set_hashed h k v d) -> x ∈ pydict_keys d \/ x = py_hash_key k.
Proof.
  induction d as [|[k' v'] d IH]; cbn.
  - rewrite list_elem_of_singleton. by right.
  - destruct (key_is h k'); cbn; rewrite !elem_of_cons; [tauto|].
    intros [->|Hx]; [tauto|]. destruct (IH Hx); tauto.
Qed.

Lemma pydict_set_nodup k v d d' :
  NoDup (pydict_keys d) -> pydict_set k v d = Ok d' -> NoDup (pydict_keys d').
Proof.
  unfold pydict_set. destruct (py_hash_key k) as [h|] eqn:Hk; [|done]. cbn.
  intros Hnd [= <-]. revert Hnd. induction d as [|[k' v'] d IH]; cbn; intros Hnd.
  - constructor; [apply not_elem_of_nil|constructor].
  - inversion Hnd as [|? ? Hnin Hnd']; subst.
    destruct (key_is h k') eqn:Hkey; cbn; [done|].
    constructor; [|by apply IH].
    intros [Hin|Heq]%pydict_keys_set; [done|]. rewrite Hk in Heq.
    unfold key_is in Hkey. rewrite Heq, bool_decide_eq_true_2 in Hkey; done.
Qed.

Lemma thread_step_keys {F} `{!JsonCodec F} (s : fs F) acc p acc' :
  NoDup (pydict_keys acc) -> thread_step s acc p = Ok acc' -> NoDup (pydict_keys acc').
Proof.
  intros Hnd. unfold thread_step.
  destruct (py_get _ "thread_id") as [tid|]; [|done]. cbn [mbind res_bind].
  destruct (py_truthy tid); [|by intros [= <-]].
  destruct (py_get _ "messages") as [ms|]; [|done]. cbn [mbind res_bind].
  destruct (py_truthy ms); [|by intros [= <-]].
  destruct (first_user_message _) as [l|]; [|done]. cbn [mbind res_bind].
  by apply pydict_set_nodup.
Qed.

Lemma pydict_lookup_listing t d :
  pydict_lookup (KStr t) (listing_json d) = JStr <$> listing_lookup t d.
Proof.
  unfold listing_lookup. induction d as [|[t' l] d IH]; [done|].
  cbn [listing_json map pydict_lookup List.find fst snd]. rewrite key_is_str.
  destruct (String.eqb t' t); [done|]. exact IH.
Qed.

(** On an unstamped store, no journal passes the [if thread_id:] test. *)
Lemma thread_step_unstamped {F} `{!JsonCodec F} (s : fs F) acc p acc' :
  unstamped s -> thread_step s acc p = Ok acc' -> acc' = acc.
Proof.
  intros Hu. unfold thread_step. pose proof (load_memory_unstamped p s Hu) as T.
  destruct (_load_memory p s) as [| | | | |kvs]; cbn [py_get py_get_or mbind res_bind]; try done.
  cbn in T. rewrite T. by intros [= <-].
Qed.

Lemma get_all_threads_unstamped {F} `{!JsonCodec F} (s s' : fs F) d :
  unstamped s -> get_all_threads s = Ok (s', d) -> d = [] /\ fs_files s' = fs_files s.
Proof.
  intros Hu. unfold get_all_threads, _memory_dir.
  destruct (fs_mkdir_p memory_dir_path s) as [s1|] eqn:E; cbn [mbind res_bind fst snd]; [|done].
  pose proof (mkdir_p_files _ _ _ E) as Hf.
  destruct (res_foldl _ _ _) as [r|] eqn:Hr; [|done]. intros [= <- <-]. split; [|done].
  eapply res_foldl_const, Hr. intros a x a'. apply thread_step_unstamped.
  by eapply unstamped_files, Hu; rewrite Hf.
Qed.

(** [get_all_threads] on a store whose conversation files hold journals. *)
Lemma get_all_threads_listing {F} `{!JsonCodec F} (s s' : fs F) js :
  _memory_dir s = Ok (s', memory_dir_path) ->
  mapM (fun p => journal_view p s') (sorted_desc (fs_glob memory_dir_path conversation_glob s')) = Some js ->
  get_all_threads s = Ok (s', listing_json (listing_of js)).
Proof.
  intros Hd Hm. unfold get_all_threads. rewrite Hd. cbn [mbind res_bind fst snd].
  assert (H := res_foldl_thread_step s' _ js [] Hm). cbn [listing_json map] in H. by rewrite H.
Qed.

Section DirectoryClaims.
Context {F : Type} `{!JsonCodec F}.
Implicit Types (s : fs F).

(** C4. Refinement of [get_all_threads]: when every conversation file
    holds a journal (or nothing parsable), the result is the spec's
    listing of those journals, in reverse path order: one entry per
    thread id with a non-empty id and at least one message, labelled with
    its first user message or ["Chat"]. *)
Theorem get_all_threads_refines s s' js :
  _memory_dir s = Ok (s', memory_dir_path) ->
  mapM (fun p => journal_view p s') (sorted_desc (fs_glob memory_dir_path conversation_glob s')) = Some js ->
  get_all_threads s = Ok (s', listing_json (listing_of js)).
Proof. apply get_all_threads_listing. Qed.

(** C15. One conversation file that parses to a JSON value other than an
    object makes the whole listing fail: [get_all_threads] raises. *)
Theorem get_all_threads_bad_file s s' p c v :
  _memory_dir s = Ok (s', memory_dir_path) ->
  p ∈ fs_glob memory_dir_path conversation_glob s' ->
  fs_read p s' = Some c -> json_load c = Some v -> (forall kvs, v <> JDict kvs) ->
  is_ok (get_all_threads s) = false.
Proof.
  intros Hd Hp Hr Hc Hv. unfold get_all_threads. rewrite Hd. cbn [mbind res_bind fst snd].
  assert (Hf : is_ok (res_foldl (thread_step s') [] (sorted_desc (fs_glob memory_dir_path conversation_glob s'))) = false).
  { apply (res_foldl_raise _ _ _ p).
    - unfold sorted_desc. by rewrite merge_sort_Permutation.
    - intros a. unfold thread_step, _load_memory. rewrite (fs_read_file _ _ _ Hr), Hr, Hc.
      cbn [default]. destruct v; try done. by destruct (Hv kvs). }
  by destruct (res_foldl _ _ _).
Qed.

(** A listing has one entry per thread id: whatever the files hold, the
    keys of the dict [get_all_threads] returns are pairwise distinct (as
    Python compares them). *)
Lemma get_all_threads_keys_unique s s' d :
  get_all_threads s = Ok (s', d) -> NoDup (pydict_keys d).
Proof.
  unfold get_all_threads. destruct (_memory_dir s) as [[s1 dir]|]; [|done].
  cbn [mbind res_bind fst snd].
  destruct (res_foldl _ _ _) as [ds|] eqn:Hf; [|done]. intros [= _ <-].
  revert Hf. generalize (sorted_desc (fs_glob dir conversation_glob s1)) as ps.
  assert (Hnd : NoDup (pydict_keys [])) by constructor. revert Hnd.
  generalize (@nil (json * json)) as acc.
  intros acc Hnd ps. revert acc Hnd. induction ps as [|p ps IH]; intros acc Hnd Hf; cbn in Hf.
  - by injection Hf as <-.
  - destruct (thread_step s1 acc p) as [acc'|] eqn:Hs; [|done].
    apply (IH acc'); [|done]. by apply (thread_step_keys s1 acc p).
Qed.

(** C16. The label of a conversation drifts once the journal is full:
    appending to a journal of 20 entries through [_append_memory] drops
    its oldest entry, and the label [get_all_threads] reads back from the
    file is the first user message of the remaining 20 entries, so the
    conversation's first question no longer names it. *)
Theorem label_drifts_after_trim p s j e :
  journal_view p s = Some j -> fs_is_dir p s = false -> fs_is_dir (parent p) s = true ->
  length (j_messages j) = 20 ->
  exists s', _append_memory p (e_role e) (e_text e) (e_message_id e) (e_ts e) s = Ok s' /\
    first_user_message (_load_memory p s') =
      Ok (JStr (label_of (mk_journal (j_thread_id j) (tail (j_messages j) ++ [e])))).
Proof.
  intros Hv Hd Hp Hl. eexists. split; [by apply (append_memory_put _ _ _ _ _ _ j)|].
  rewrite (load_memory_view _ _ _ (journal_view_dump _ _ _)), first_user_message_journal.
  destruct e as [ts role text mid]. unfold journal_append, apply_trim, lastn, label_of. cbn [j_messages].
  rewrite length_app, Hl. destruct (j_messages j); [done|]. done.
Qed.
End DirectoryClaims.

(** ** Witnesses *)

Module DirectoryWitnesses.

Definition j_hello : journal :=
  mk_journal (Some "tA") [mk_entry "T1" "user" "Hello" (Some "m1"); mk_entry "T2" "assistant" "Hi there" (Some "m2")].
Definition j_azure : journal :=
  mk_journal (Some "tB") [mk_entry "T3" "user" "What is Azure?" (Some "m3")].

(** The spec's scenario: two journals, first user messages ["Hello"] and
    ["What is Azure?"], and a file outside the pattern. *)
Definition two_journals : fs raw_file :=
  mk_fs (<[["memory"; "conversation_tA.json"] := RawJson (journal_json j_hello)]>
        (<[["memory"; "conversation_tB.json"] := RawJson (journal_json j_azure)]>
        (<[["memory"; "notes.txt"] := RawBytes "x"]> ∅))) {[ ["memory"] ]}.

Definition with_bad_file : fs raw_file :=
  mk_fs (<[["memory"; "conversation_bad.json"] := RawJson (JList [])]> (fs_files two_journals))
        (fs_dirs two_journals).

Lemma get_all_threads_refines_witness :
  exists s', get_all_threads two_journals = Ok (s', listing_json (listing_of [j_azure; j_hello])).
Proof.
  eexists. apply get_all_threads_refines; [vm_compute; reflexivity|]. vm_compute. reflexivity.
Defined.

Lemma get_all_threads_bad_file_witness : is_ok (get_all_threads with_bad_file) = false.
Proof.
  eapply (get_all_threads_bad_file with_bad_file _ ["memory"; "conversation_bad.json"]
            (RawJson (JList [])) (JList [])).
  - vm_compute. reflexivity.
  - apply (bool_decide_unpack _). vm_compute. reflexivity.
  - vm_compute. reflexivity.
  - reflexivity.
  - intros kvs. discriminate.
Defined.

(** Ten turns fill the journal; the eleventh question drops ["q1"] and
    the conversation is listed as ["q2"]. *)
Definition ten_turns_fs : fs raw_file :=
  fs_put t1_path (json_dump (journal_json (mk_journal (Some "t1")
    (flat_map turn_entries ["1"; "2"; "3"; "4"; "5"; "6"; "7"; "8"; "9"; "10"]))))
    (mk_fs ∅ {[ ["memory"] ]}).

Lemma label_drifts_after_trim_witness :
  exists s', _append_memory t1_path "user" "q11" (Some "u11") "T11" ten_turns_fs = Ok s' /\
    first_user_message (_load_memory t1_path s') = Ok (JStr "q2").
Proof.
  destruct (label_drifts_after_trim t1_path ten_turns_fs
              (mk_journal (Some "t1") (flat_map turn_entries ["1"; "2"; "3"; "4"; "5"; "6"; "7"; "8"; "9"; "10"]))
              (mk_entry "T11" "user" "q11" (Some "u11")))
    as [s' [H1 H2]]; [vm_compute; reflexivity | vm_compute; reflexivity | vm_compute; reflexivity | reflexivity |].
  exists s'. split; [exact H1|]. rewrite H2. reflexivity.
Defined.
End DirectoryWitnesses.
