(* ===== verification/Session.v ===== *)
(** * Session: the Streamlit session state and its callbacks

    [streamlit_mcpclientapp.py] keeps its state in [st.session_state]:
    the chat shown ([messages]), the radio selection ([selected_chat]), the
    activity log ([log_messages]) and the active remote thread
    ([thread_id], absent for a new chat).  The callbacks [start_new_chat],
    [set_active_thread], [delete_thread], [handle_chat_selection] and
    [delete_selected_chat_callback] mutate it together with the journal
    files.

    A callback is a statement of [pyM] over a [world]: session, file
    system, remote service state [R] (used by the interaction turn) and the
    notifications shown ([st.error], [st.warning], [st.toast]).  An
    exception leaves the world as the statements before it made it. *)

From S2P Require Import Prelude PyJson FileSystem Journal Directory.
Import Store.

Definition placeholder : string := "--- Start a new chat ---".

(** An entry of [log_messages]: a kind (["info"], ["success"], ...) and
    its content, a text, a text ending in an exception's message, or the
    run-step details of [_log_run_steps]. *)
Inductive log_content :=
  | LText (text : string)
  | LTextExn (prefix : string) (e : exn)
  | LRunSteps (details : json).

Record session := mk_session {
  ss_messages : list (json * json);
  ss_selected_chat : json;
  ss_log : list (string * log_content);
  ss_thread_id : option json
}.

(** The initialisation block of the script (a fresh browser session). *)
Definition initial_session : session := mk_session [] (JStr placeholder) [] None.

Inductive ui_msg :=
  | UiError (text : string)
  | UiErrorExn (prefix : string) (e : exn)
  | UiWarningExn (prefix : string) (e : exn)
  | UiToast (text : string).

Record world (F R : Type) := mk_world {
  w_ss : session;
  w_fs : fs F;
  w_remote : R;
  w_ui : list ui_msg
}.
Arguments mk_world {F R}.
Arguments w_ss {F R}.
Arguments w_fs {F R}.
Arguments w_remote {F R}.
Arguments w_ui {F R}.

Definition set_messages (ms : list (json * json)) (ss : session) : session :=
  mk_session ms (ss_selected_chat ss) (ss_log ss) (ss_thread_id ss).
Definition set_selected (x : json) (ss : session) : session :=
  mk_session (ss_messages ss) x (ss_log ss) (ss_thread_id ss).
Definition set_log (l : list (string * log_content)) (ss : session) : session :=
  mk_session (ss_messages ss) (ss_selected_chat ss) l (ss_thread_id ss).
Definition set_thread (t : option json) (ss : session) : session :=
  mk_session (ss_messages ss) (ss_selected_chat ss) (ss_log ss) t.

(** What the chat column shows for a journal entry. *)
Definition entry_view (e : entry) : json * json := (JStr (e_role e), JStr (e_text e)).

Section App.
Context {F R : Type} `{!JsonCodec F}.
Notation app := (pyM (world F R)).

Definition get_ss : app session := py_gets w_ss.

Definition modify_ss (f : session -> session) : app unit :=
  py_modify (fun w => mk_world (f (w_ss w)) (w_fs w) (w_remote w) (w_ui w)).

Definition show (m : ui_msg) : app unit :=
  py_modify (fun w => mk_world (w_ss w) (w_fs w) (w_remote w) (w_ui w ++ [m])).

(** A file-system operation of the journal code, run on the world's files. *)
Definition on_fs {A} (f : fs F -> res (fs F * A)) : app A :=
  fun w => match f (w_fs w) with
           | Ok (s', a) => (Ok a, mk_world (w_ss w) s' (w_remote w) (w_ui w))
           | Raise e => (Raise e, w)
           end.

Definition on_fs_ (f : fs F -> res (fs F)) : app unit :=
  on_fs (fun s => s' ← f s; Ok (s', tt)).

Definition read_fs {A} (f : fs F -> A) : app A := py_gets (fun w => f (w_fs w)).

(** [start_new_chat]. *)
Definition start_new_chat : app unit :=
  modify_ss (fun _ => mk_session [] (JStr placeholder) [] None).

(** [{"role": msg["role"], "content": msg["text"]}]. *)
Definition message_view (msg : json) : res (json * json) :=
  r ← py_getitem msg "role"; t ← py_getitem msg "text"; Ok (r, t).

(** [set_active_thread]. *)
Definition set_active_thread (thread_id : json) : app unit :=
  modify_ss (set_thread (Some thread_id));;
  tid ← py_lift (py_str thread_id);
  mem_path ← on_fs (_memory_path_for_thread tid);
  mem_data ← read_fs (_load_memory mem_path);
  msgs ← py_lift (py_get_or mem_data "messages" (JList []));
  it ← py_lift (py_iter msgs);
  ms ← py_lift (res_mapM message_view it);
  modify_ss (set_messages ms);;
  threads ← on_fs get_all_threads;
  sel ← py_lift (pydict_get thread_id threads (JStr placeholder));
  modify_ss (set_selected sel).

(** [delete_thread]: the path is computed outside the [try]. *)
Definition delete_thread (thread_id : json) : app unit :=
  tid ← py_lift (py_str thread_id);
  mem_path ← on_fs (_memory_path_for_thread tid);
  py_try
    (on_fs_ (unlink_memory mem_path);;
     cur ← py_gets (fun w => ss_thread_id (w_ss w));
     if py_eq (default JNull cur) thread_id then start_new_chat else mret tt)
    (fun e => show (UiErrorExn "Error deleting thread: " e)).

(** [handle_chat_selection]: the thread is found back from its label. *)
Definition handle_chat_selection : app unit :=
  sel ← py_gets (fun w => ss_selected_chat (w_ss w));
  if py_eq sel (JStr placeholder) then start_new_chat
  else
    saved ← on_fs get_all_threads;
    tid ← py_lift (first_key_with_value saved sel);
    set_active_thread tid.

(** [delete_selected_chat_callback]. *)
Definition delete_selected_chat_callback : app unit :=
  sel ← py_gets (fun w => ss_selected_chat (w_ss w));
  if py_eq sel (JStr placeholder) then show (UiToast "No chat selected to delete.")
  else
    saved ← on_fs get_all_threads;
    tid ← py_lift (first_key_with_value saved sel);
    delete_thread tid.

(** The history column's widgets: the radio stores the chosen option in
    [selected_chat] before its [on_change] callback runs; the delete button
    is disabled while the placeholder is selected. *)
Inductive history_event :=
  | SelectChat (label : json)
  | ClickNewChat
  | ClickDeleteSelected.

Definition history_step (ev : history_event) : app unit :=
  match ev with
  | SelectChat l => modify_ss (set_selected l);; handle_chat_selection
  | ClickNewChat => start_new_chat
  | ClickDeleteSelected =>
      sel ← py_gets (fun w => ss_selected_chat (w_ss w));
      if py_eq sel (JStr placeholder) then mret tt else delete_selected_chat_callback
  end.
End App.

(** Two conversations that both started with ["Hello"]. *)
Definition hello_a : journal := mk_journal (Some "tA") [mk_entry "T1" "user" "Hello" (Some "m1")].
Definition hello_b : journal := mk_journal (Some "tB") [mk_entry "T2" "user" "Hello" (Some "m2")].
Definition tA_path : path := ["memory"; "conversation_tA.json"].
Definition tB_path : path := ["memory"; "conversation_tB.json"].
Definition two_hello : fs raw_file :=
  mk_fs (<[tA_path := RawJson (journal_json hello_a)]> (<[tB_path := RawJson (journal_json hello_b)]> ∅))
        {[ ["memory"] ]}.

(** ** Facts *)

Ltac run_app :=
  unfold on_fs_, mbind, pyM_bind, on_fs, read_fs, py_gets, modify_ss, py_modify, py_lift, py_try, show;
  cbn [w_fs w_ss w_remote w_ui py_str].

Lemma message_views ms : res_mapM message_view (map entry_json ms) = Ok (map entry_view ms).
Proof. induction ms as [|e ms IH]; [done|]. cbn [map res_mapM]. rewrite IH. by destruct e. Qed.

Section SessionClaims.
Context {F R : Type} `{!JsonCodec F}.
Implicit Types (w : world F R).

(** C6. Resuming a conversation ([set_active_thread]) makes its thread
    active, shows exactly the journal's messages in order as
    role/content pairs, keeps the log, and selects the thread's label in
    the listing (the placeholder if it is not listed). *)
Theorem set_active_thread_resumes w t s1 j js :
  no_slash t = true ->
  fs_mkdir_p memory_dir_path (w_fs w) = Ok s1 ->
  journal_view ["memory"; memory_file_name t] s1 = Some j ->
  mapM (fun p => journal_view p s1) (sorted_desc (fs_glob memory_dir_path conversation_glob s1)) = Some js ->
  set_active_thread (JStr t) w =
    (Ok tt, mk_world (mk_session (map entry_view (j_messages j))
                        (JStr (default placeholder (listing_lookup t (listing_of js))))
                        (ss_log (w_ss w)) (Some (JStr t)))
                     s1 (w_remote w) (w_ui w)).
Proof.
  intros Ht Hm Hv Hjs. unfold set_active_thread.
  unfold mbind, pyM_bind, on_fs, read_fs, py_gets, modify_ss, py_modify, py_lift.
  cbn [w_fs w_ss w_remote w_ui py_str].
  rewrite (memory_path_eq _ _ _ Ht Hm). cbn [w_fs w_ss w_remote w_ui].
  rewrite (load_memory_view _ _ _ Hv).
  destruct j as [tid ms]. cbn [py_get_or journal_json dict_lookup String.eqb Ascii.eqb Bool.eqb
    default from_option id py_iter j_messages].
  rewrite message_views.
  rewrite (get_all_threads_listing s1 s1 js); [| |done].
  - cbn [w_ss w_fs w_remote w_ui set_selected set_messages set_thread ss_messages ss_selected_chat
      ss_log ss_thread_id].
    rewrite pydict_get_str, pydict_lookup_listing. by destruct (listing_lookup t _).
  - unfold _memory_dir. rewrite (fs_mkdir_p_idem _ _ _ Hm). done.
Qed.

(** C13. A selected label that no listed conversation carries any more
    (for instance after the label drifted, C16) makes
    [handle_chat_selection] raise [IndexError] at [[...][0]]. *)
Theorem stale_selection_raises w s' d :
  py_eq (ss_selected_chat (w_ss w)) (JStr placeholder) = false ->
  get_all_threads (w_fs w) = Ok (s', d) ->
  Forall (fun kv => py_eq kv.2 (ss_selected_chat (w_ss w)) = false) d ->
  fst (handle_chat_selection w) = Raise IndexError.
Proof.
  intros Hp Hg Hd. unfold handle_chat_selection. run_app. rewrite Hp, Hg. cbn.
  by rewrite first_key_with_value_none.
Qed.

(** C14. Deleting the active conversation removes its journal (an absent
    one is no error), resets the session to a new chat, and shows no
    error. *)
Theorem delete_thread_active w t s1 :
  no_slash t = true -> fs_mkdir_p memory_dir_path (w_fs w) = Ok s1 ->
  fs_is_dir ["memory"; memory_file_name t] s1 = false ->
  ss_thread_id (w_ss w) = Some (JStr t) ->
  exists w', delete_thread (JStr t) w = (Ok tt, w') /\
    journal_view ["memory"; memory_file_name t] (w_fs w') = Some empty_journal /\
    w_ss w' = mk_session [] (JStr placeholder) [] None /\ w_ui w' = w_ui w.
Proof.
  intros Ht Hm Hd Hcur. destruct (unlink_memory_spec _ _ Hd) as (s2 & Hu & Hv & _).
  unfold delete_thread. run_app. rewrite (memory_path_eq _ _ _ Ht Hm). cbn [w_fs w_ss w_remote w_ui].
  rewrite Hu. cbn [res_bind w_fs w_ss w_remote w_ui]. rewrite Hcur. cbn [default from_option id].
  rewrite (proj2 (py_eq_JStr _ _) eq_refl). unfold start_new_chat. run_app.
  eexists. split; [reflexivity|]. done.
Qed.
(** The file-system operations leave the session alone. *)
Lemma on_fs_keeps_ss {A} (f : fs F -> res (fs F * A)) (P : session -> Prop) :
  pyM_preserves (fun w => P (w_ss w)) (on_fs (R:=R) f).
Proof. intros w Hw. unfold on_fs. by destruct (f (w_fs w)) as [[]|]. Qed.

(** [set_active_thread] makes its thread the active one before any
    statement that can raise, so the thread stays active whatever follows. *)
Lemma set_active_thread_thread t w : ss_thread_id (w_ss (set_active_thread t w).2) = Some t.
Proof.
  unfold set_active_thread. erewrite pyM_bind_ok by reflexivity.
  match goal with |- ss_thread_id (w_ss (?m ?w1).2) = _ =>
    enough (Hm : pyM_preserves (fun w => ss_thread_id (w_ss w) = Some t) m) by (apply Hm; reflexivity) end.
  preserves_auto ltac:(first [apply (on_fs_keeps_ss _ (fun ss => ss_thread_id ss = Some t)) | apply preserves_modify; by intros ?]).
Qed.

(** Removing one journal leaves every other file as it was. *)
Lemma unlink_memory_other p q (s s' : fs F) : unlink_memory p s = Ok s' -> q <> p -> fs_read q s' = fs_read q s.
Proof.
  unfold unlink_memory, fs_unlink, fs_read. intros Hu Hq.
  repeat case_match; simplify_eq; cbn [fs_files]; [|done]. by rewrite lookup_delete_ne.
Qed.

(** [delete_thread] touches no file but the thread's own journal. *)
Lemma delete_thread_other t q w :
  no_slash t = true -> q <> ["memory"; memory_file_name t] ->
  fs_read q (w_fs (delete_thread (JStr t) w).2) = fs_read q (w_fs w).
Proof.
  intros Ht Hq. unfold delete_thread. run_app.
  destruct (fs_mkdir_p memory_dir_path (w_fs w)) as [s1|e] eqn:Hm.
  - rewrite (memory_path_eq _ _ _ Ht Hm). cbn [fst snd w_fs w_ss w_remote w_ui].
    assert (E : fs_read q s1 = fs_read q (w_fs w)) by (unfold fs_read; by rewrite (mkdir_p_files _ _ _ Hm)).
    destruct (unlink_memory _ s1) as [s2|e] eqn:Hu; cbn; [|exact E].
    rewrite <- E, <- (unlink_memory_other _ _ _ _ Hu Hq).
    by destruct (py_eq _ _); [unfold start_new_chat; run_app|].
  - unfold _memory_path_for_thread, _memory_dir. by rewrite Hm.
Qed.

End SessionClaims.

(** ** Witnesses *)

Module SessionWitnesses.

Definition w_hello (tid : option json) (sel : json) : world raw_file unit :=
  mk_world (mk_session [] sel [] tid) two_hello tt [].

(** Eleven turns through [_append_memory]: the label has drifted to ["q2"]. *)
Definition drifted : fs raw_file :=
  match (s1 ← stamp_thread_id t1_path (JStr "t1") (mk_fs ∅ {[ ["memory"] ]});
         append_entries (Some 20) t1_path eleven_turns s1) with
  | Ok s => s
  | Raise _ => mk_fs ∅ ∅
  end.

Lemma set_active_thread_resumes_witness :
  exists w', set_active_thread (JStr "tA") (w_hello None (JStr placeholder)) = (Ok tt, w').
Proof.
  eexists. eapply set_active_thread_resumes;
    [reflexivity | vm_compute; reflexivity | vm_compute; reflexivity | vm_compute; reflexivity].
Defined.


Lemma stale_selection_raises_witness :
  fst (handle_chat_selection (mk_world (mk_session [] (JStr "q1") [] None) drifted tt [])) = Raise IndexError.
Proof.
  eapply stale_selection_raises; [vm_compute; reflexivity | vm_compute; reflexivity |].
  vm_compute. repeat constructor.
Defined.

Lemma delete_thread_active_witness :
  exists w', delete_thread (JStr "tA") (w_hello (Some (JStr "tA")) (JStr "Hello")) = (Ok tt, w') /\
    journal_view ["memory"; memory_file_name "tA"] (w_fs w') = Some empty_journal /\
    w_ss w' = mk_session [] (JStr placeholder) [] None /\ w_ui w' = [].
Proof.
  eapply delete_thread_active; [reflexivity | vm_compute; reflexivity | vm_compute; reflexivity | reflexivity].
Defined.
End SessionWitnesses.
