(* ===== verification/Remote.v ===== *)
(** * Remote: the hosted agent service, at its boundary

    The scripts call an [AgentsClient]: [threads.create], [create_agent],
    [messages.create], [runs.create_and_process] (which blocks until the
    run is terminal), [messages.list] in descending order,
    [run_steps.list] and [delete_agent].  The service is an external
    collaborator: [AgentsService] states the calls as the code uses them,
    each able to raise, over an abstract service state.  The two readings
    of a message list both front ends make, the latest assistant text and
    the newest assistant id, are here too.  [Scripted] is a
    reference service whose runs follow a script (status, replies, steps),
    used to run the interaction loop on concrete scenarios. *)

From S2P Require Import Prelude PyJson.
From stdpp Require Import pretty.

Record run := mk_run { run_id : string; run_status : string; run_last_error : string }.

(** A message as [messages.list] returns it: id, role and the values of
    its text segments ([m.text_messages[i].text.value]). *)
Record rmessage := mk_rmessage { rm_id : string; rm_role : string; rm_texts : list string }.

(** A run step; [step.get("step_details", {})] is its details object. *)
Record run_step := mk_step { step_id : string; step_status : string; step_details : json }.

Record agent := mk_agent { agent_id : string; agent_name : string }.

Class AgentsService (R : Type) := {
  threads_create : R -> res (string * R);
  create_agent : string -> string -> string -> R -> res (agent * R);
  messages_create : string -> string -> string -> R -> res (string * R);
  runs_create_and_process : string -> string -> R -> res (run * R);
  messages_list_desc : string -> R -> res (list rmessage);
  run_steps_list : string -> string -> R -> res (list run_step);
  delete_agent : string -> R -> res R
}.

(** The first message, newest first, with role [assistant] and at least
    one text segment; its last segment. *)
Fixpoint latest_assistant_text (msgs : list rmessage) : option string :=
  match msgs with
  | [] => None
  | m :: ms =>
      if String.eqb (rm_role m) "assistant" then
        match last (rm_texts m) with Some t => Some t | None => latest_assistant_text ms end
      else latest_assistant_text ms
  end.

(** [next((m.id for m in msgs if m.role == "assistant"), None)]. *)
Definition first_assistant_id (msgs : list rmessage) : option string :=
  rm_id <$> List.find (fun m => String.eqb (rm_role m) "assistant") msgs.

(** ** A scripted reference service *)

(** What the next run does: its terminal status and error, the messages it
    adds to the thread (oldest first) and its steps.  [None] in the script
    makes the run call raise. *)
Record outcome := mk_outcome {
  oc_status : string;
  oc_error : string;
  oc_replies : list (string * list string);
  oc_steps : list (string * json)
}.

Record scripted := mk_scripted {
  sc_counter : nat;
  sc_threads : gmap string (list rmessage);
  sc_steps : gmap string (list run_step);
  sc_agents : gset string;
  sc_script : list (option outcome);
  sc_delete_fails : bool
}.

Module Scripted.
Definition fresh (prefix : string) (r : scripted) : string * scripted :=
  (prefix +:+ pretty (sc_counter r),
   mk_scripted (S (sc_counter r)) (sc_threads r) (sc_steps r) (sc_agents r) (sc_script r)
     (sc_delete_fails r)).

Definition with_threads (th : gmap string (list rmessage)) (r : scripted) : scripted :=
  mk_scripted (sc_counter r) th (sc_steps r) (sc_agents r) (sc_script r) (sc_delete_fails r).

Definition post (t role : string) (texts : list string) (r : scripted) : res (string * scripted) :=
  match sc_threads r !! t with
  | Some ms =>
      let '(id, r') := fresh "msg_" r in
      Ok (id, with_threads (<[t := mk_rmessage id role texts :: ms]> (sc_threads r')) r')
  | None => Raise ServiceError
  end.

Fixpoint post_all (t : string) (replies : list (string * list string)) (r : scripted)
    : res scripted :=
  match replies with
  | [] => Ok r
  | (role, texts) :: rs => p ← post t role texts r; post_all t rs p.2
  end.

Definition threads_create (r : scripted) : res (string * scripted) :=
  let '(id, r') := fresh "thread_" r in Ok (id, with_threads (<[id := []]> (sc_threads r')) r').

Definition create_agent (model name instr : string) (r : scripted) : res (agent * scripted) :=
  let '(id, r') := fresh "asst_" r in
  Ok (mk_agent id name,
      mk_scripted (sc_counter r') (sc_threads r') (sc_steps r') ({[id]} ∪ sc_agents r')
        (sc_script r') (sc_delete_fails r')).

Definition runs_create_and_process (t a : string) (r : scripted) : res (run * scripted) :=
  if bool_decide (a ∈ sc_agents r) then
    match sc_script r with
    | Some o :: rest =>
        let '(rid, r1) := fresh "run_" r in
        r2 ← post_all t (oc_replies o) r1;
        let steps := map (fun st => mk_step st.1 "completed" st.2) (oc_steps o) in
        Ok (mk_run rid (oc_status o) (oc_error o),
            mk_scripted (sc_counter r2) (sc_threads r2) (<[rid := steps]> (sc_steps r2))
              (sc_agents r2) rest (sc_delete_fails r2))
    | _ => Raise ServiceError
    end
  else Raise ServiceError.

Definition delete_agent (a : string) (r : scripted) : res scripted :=
  if sc_delete_fails r then Raise ServiceError
  else Ok (mk_scripted (sc_counter r) (sc_threads r) (sc_steps r) (sc_agents r ∖ {[a]})
             (sc_script r) (sc_delete_fails r)).
End Scripted.

#[export] Instance scripted_service : AgentsService scripted := {|
  threads_create := Scripted.threads_create;
  create_agent := Scripted.create_agent;
  messages_create t role content r := Scripted.post t role [content] r;
  runs_create_and_process := Scripted.runs_create_and_process;
  messages_list_desc t r := match sc_threads r !! t with Some ms => Ok ms | None => Raise ServiceError end;
  run_steps_list t rid r := match sc_steps r !! rid with Some st => Ok st | None => Raise ServiceError end;
  delete_agent := Scripted.delete_agent
|}.

(** A service with a script and no state yet. *)
Definition scripted_init (script : list (option outcome)) : scripted :=
  mk_scripted 0 ∅ ∅ ∅ script false.
