(* ===== verification/Cli.v ===== *)
(** * Cli: the command-line clients

    [client_python.py]: list the saved conversations
    ([_list_saved_threads]), offer them in a menu
    ([_choose_thread_interactive]), create an agent, resume the chosen
    thread or create one, stamp the journal with the thread id, then read
    lines from standard input until an exit word or end of input, posting
    each non-blank line, journalling it, running the agent, printing its
    steps and its latest reply and journalling that reply; finally delete
    the agent.  [client_v2.py] is the same loop without the menu, always on
    a new thread.

    The state is [cli]: the files, the service, the lines written to
    standard output ([print(s)] writes the element [s]; [input(p)] writes
    [p]), and a clock.  Standard input is the list of lines still to be
    read; [input()] at its end raises [EOFError].  The chat loop recurses
    on that list, so it stops on every input. *)

From S2P Require Import Prelude PyJson PyStr FileSystem Journal Directory Remote.
From stdpp Require Import pretty.
Import Store.

Definition nl : string := String (ascii_of_nat 10) EmptyString.

(** ["-" * 50] *)
Definition dashes : string := str_repeat 50 "-".

(** ** [_list_saved_threads] *)

(** [(tid, p, created_ts, last_role, last_text_snippet)] *)
Record saved := mk_saved {
  sv_tid : json;
  sv_path : path;
  sv_created : json;
  sv_role : json;
  sv_snippet : json
}.

(** [last_text[:57] + "..."] when the text is longer than 60. *)
Definition snippet_of (last_text : json) : res json :=
  if py_truthy last_text then
    n ← py_len last_text;
    if 60 <? n then a ← py_slice_to 57 last_text; py_add_str a "..." else Ok last_text
  else Ok last_text.

(** The body of the loop over the files, for one file. *)
Definition saved_of {F} `{!JsonCodec F} (s : fs F) (p : path) : res (option saved) :=
  let data := _load_memory p s in
  tid ← py_get data "thread_id";
  msgs ← py_get_or data "messages" (JList []);
  created_ts ← (if py_truthy msgs then m0 ← py_index msgs 0; py_getitem m0 "ts" else Ok JNull);
  last ← (if py_truthy msgs then
            m1 ← py_index msgs (-1); r ← py_getitem m1 "role";
            m2 ← py_index msgs (-1); t ← py_getitem m2 "text"; Ok (r, t)
          else Ok (JNull, JNull));
  snippet ← snippet_of last.2;
  Ok (if py_truthy tid then Some (mk_saved tid p created_ts last.1 snippet) else None).

(** [key=lambda x: x[2] or ""] *)
Definition sort_key (it : saved) : json :=
  if py_truthy (sv_created it) then sv_created it else JStr "".

Definition key_str (j : json) : option string := match j with JStr s => Some s | _ => None end.

Definition key_num (j : json) : option Z :=
  match j with JInt z => Some z | JBool b => Some (if b then 1 else 0)%Z | _ => None end.

(** [a] may precede [b] in the descending order. *)
Definition saved_ge_str (a b : saved) : Prop :=
  String.leb (default "" (key_str (sort_key b))) (default "" (key_str (sort_key a))) = true.
Definition saved_ge_num (a b : saved) : Prop :=
  (default 0 (key_num (sort_key b)) <=? default 0 (key_num (sort_key a)))%Z = true.

#[export] Instance saved_ge_str_dec : RelDecision saved_ge_str.
Proof. intros a b. unfold saved_ge_str. apply _. Defined.
#[export] Instance saved_ge_num_dec : RelDecision saved_ge_num.
Proof. intros a b. unfold saved_ge_num. apply _. Defined.

(** [items.sort(key=..., reverse=True)]: a stable sort, newest first.
    Strings compare with strings and numbers with numbers; any other pair
    of keys raises [TypeError] as soon as the sort compares them, which it
    does for every element of a list of two or more (ordering two lists
    element-wise is not modelled: such keys raise here). *)
Definition sort_saved (items : list saved) : res (list saved) :=
  if length items <=? 1 then Ok items
  else if forallb (fun it => bool_decide (is_Some (key_str (sort_key it)))) items
  then Ok (merge_sort saved_ge_str items)
  else if forallb (fun it => bool_decide (is_Some (key_num (sort_key it)))) items
  then Ok (merge_sort saved_ge_num items)
  else Raise TypeError.

Definition _list_saved_threads {F} `{!JsonCodec F} (s : fs F) : res (fs F * list saved) :=
  r ← _memory_dir s;
  items ← res_mapM (saved_of r.1) (fs_glob r.2 conversation_glob r.1);
  sorted ← sort_saved (omap id items);
  Ok (r.1, sorted).

(** The entry of the resume menu a journal stands for: its thread id
    when truthy, its first timestamp, its last role and the preview of its
    last text. *)
Definition snippet_str (t : string) : string :=
  if 60 <? py_len_str t then py_take_str 57 t +:+ "..." else t.

Definition journal_item (p : path) (j : journal) : option saved :=
  let es := j_messages j in
  if py_truthy (opt_json (j_thread_id j)) then
    Some (mk_saved (opt_json (j_thread_id j)) p
            (match es with e :: _ => JStr (e_ts e) | [] => JNull end)
            (match last es with Some e => JStr (e_role e) | None => JNull end)
            (match last es with Some e => JStr (snippet_str (e_text e)) | None => JNull end))
  else None.

(** ** The menu *)

(** [f"[{i}] thread={tid}  started={when}  last={who}: {preview}"];
    [(role or "?").upper()] needs a string. *)
Definition menu_line (i : nat) (it : saved) : res string :=
  let when := if py_truthy (sv_created it) then sv_created it else JStr "unknown time" in
  who ← (match (if py_truthy (sv_role it) then sv_role it else JStr "?") with
         | JStr r => Ok (py_upper r)
         | _ => Raise AttributeError
         end);
  let preview := if py_truthy (sv_snippet it) then sv_snippet it else JStr "<empty>" in
  Ok ("[" +:+ pretty i +:+ "] thread=" +:+ py_fstr (sv_tid it) +:+ "  started=" +:+ py_fstr when
      +:+ "  last=" +:+ who +:+ ": " +:+ py_fstr preview).

(** What a menu answer selects: [None] for a new conversation, and whether
    the answer was invalid (which prints a notice). *)
Definition menu_choice (saved : list saved) (line : string) : option json * bool :=
  let choice := py_lower (py_strip line) in
  if bool_decide (choice ∈ ["n"; ""]) then (None, false)
  else match py_int choice with
       | Some k =>
           let idx := (k - 1)%Z in
           if (0 <=? idx)%Z && (idx <? Z.of_nat (length saved))%Z then
             match saved !! Z.to_nat idx with
             | Some it => (Some (sv_tid it), false)
             | None => (None, true)
             end
           else (None, true)
       | None => (None, true)
       end.

(** The run steps [_log_run_steps] prints without raising: the tool calls
    iterate into dicts ([call.get] needs one). *)
Definition call_printable (call : json) : bool := match call with JDict _ => true | _ => false end.

Definition step_printable (st : run_step) : bool :=
  match py_get_or (step_details st) "tool_calls" (JList []) with
  | Ok tc =>
      if py_truthy tc then
        match py_iter tc with Ok it => forallb call_printable it | Raise _ => false end
      else true
  | Raise _ => false
  end.

(** ** The program's state *)

Record cli (F R : Type) := mk_cli {
  c_fs : fs F;
  c_remote : R;
  c_out : list string;
  c_clock : nat
}.
Arguments mk_cli {F R}.
Arguments c_fs {F R}.
Arguments c_remote {F R}.
Arguments c_out {F R}.
Arguments c_clock {F R}.

(** The instructions of [client_python.py]'s agent. *)
Definition cli_instructions : string :=
  "You are a helpful AI Agent for Tony." +:+ nl +:+
  "If you use the MCP, greet with 'Hello Tony' and state that you are using MCP." +:+ nl +:+
  "You have access to an MCP server called `microsoft.docs.mcp` which lets you " +:+
  "search the latest Microsoft documentation. Use MCP tools when helpful." +:+ nl +:+
  "**Contextual Statement Requirement**: When an answer is based on MCP, begin with " +:+
  "'I am using the MCP to fetch this information.'".

(** [client_python.py] lines 130-131: both settings must be non-empty. *)
Definition cli_config (env : gmap string string) : res (string * string) :=
  match env !! "PROJECT_ENDPOINT", env !! "MODEL_DEPLOYMENT_NAME" with
  | Some ep, Some md => if String.eqb ep "" || String.eqb md "" then Raise ValueError else Ok (ep, md)
  | _, _ => Raise ValueError
  end.

Section Cli.
Context {F R : Type} `{!JsonCodec F} `{!AgentsService R}.
(** [datetime.utcnow().isoformat()] at the [n]-th reading of the clock. *)
Variable iso : nat -> string.
Notation cliM := (pyM (cli F R)).

Definition cprint (s : string) : cliM unit :=
  py_modify (fun c => mk_cli (c_fs c) (c_remote c) (c_out c ++ [s]) (c_clock c)).

Definition c_on_fs {A} (f : fs F -> res (fs F * A)) : cliM A :=
  fun c => match f (c_fs c) with
           | Ok (s', a) => (Ok a, mk_cli s' (c_remote c) (c_out c) (c_clock c))
           | Raise e => (Raise e, c)
           end.

Definition c_on_fs_ (f : fs F -> res (fs F)) : cliM unit := c_on_fs (fun s => s' ← f s; Ok (s', tt)).

Definition c_on_remote {A} (f : R -> res (A * R)) : cliM A :=
  fun c => match f (c_remote c) with
           | Ok (a, r') => (Ok a, mk_cli (c_fs c) r' (c_out c) (c_clock c))
           | Raise e => (Raise e, c)
           end.

Definition c_on_remote_ (f : R -> res R) : cliM unit := c_on_remote (fun r => r' ← f r; Ok (tt, r')).

Definition c_read_remote {A} (f : R -> res A) : cliM A := fun c => (f (c_remote c), c).

(** [datetime.utcnow().isoformat() + "Z"] *)
Definition c_now : cliM string :=
  fun c => (Ok (iso (c_clock c) +:+ "Z"), mk_cli (c_fs c) (c_remote c) (c_out c) (S (c_clock c))).

(** [_append_memory] of the clients: the clock is read inside it. *)
Definition cli_append (mem_path : path) (role text : string) (mid : option string) : cliM unit :=
  ts ← c_now; c_on_fs_ (_append_memory_untrimmed mem_path role text mid ts).

(** [_choose_thread_interactive]; returns the choice and the unread input. *)
Definition _choose_thread_interactive (stdin : list string) : cliM (option json * list string) :=
  saved ← c_on_fs _list_saved_threads;
  match saved with
  | [] => mret (None, stdin)
  | _ :: _ =>
      cprint (nl +:+ "Saved conversations:");;
      py_for (fun '(i, it) => l ← py_lift (menu_line i it); cprint l) (zip (seq 1 (length saved)) saved);;
      cprint "[N] New conversation";;
      cprint "Select a number to resume, or 'N' for new: ";;
      match stdin with
      | [] => py_raise EOFError
      | line :: rest =>
          let '(choice, invalid) := menu_choice saved line in
          (if invalid then cprint "Invalid choice; starting a new conversation." else mret tt);;
          mret (choice, rest)
      end
  end.

(** [_log_run_steps] *)
Definition print_call (call : json) : cliM unit :=
  i ← py_lift (py_get call "id"); cprint ("    Tool Call ID: " +:+ py_fstr i);;
  t ← py_lift (py_get call "type"); cprint ("    Type: " +:+ py_fstr t);;
  n ← py_lift (py_get call "name"); cprint ("    Name: " +:+ py_fstr n).

Definition print_step (step : run_step) : cliM unit :=
  cprint ("Step " +:+ step_id step +:+ " status: " +:+ step_status step);;
  tool_calls ← py_lift (py_get_or (step_details step) "tool_calls" (JList []));
  (if py_truthy tool_calls then
     cprint "  MCP Tool calls:";; it ← py_lift (py_iter tool_calls); py_for print_call it
   else mret tt);;
  cprint "".

Definition cli_log_run_steps (thread_id run_id : string) : cliM unit :=
  steps ← c_read_remote (run_steps_list thread_id run_id); py_for print_step steps.

(** [_print_latest_assistant] *)
Definition cli_print_latest_assistant (thread_id : string) : cliM string :=
  msgs ← c_read_remote (messages_list_desc thread_id);
  match latest_assistant_text msgs with
  | Some t => cprint (nl +:+ "ASSISTANT:" +:+ nl +:+ t +:+ nl +:+ dashes);; mret t
  | None => cprint (nl +:+ "ASSISTANT: <no text found>" +:+ nl +:+ dashes);; mret ""
  end.

(** One non-blank line of the loop ([client_python.py] lines 208-235). *)
Definition cli_turn (thread_id : string) (mem_path : path) (ag : agent) (user_input : string)
    : cliM unit :=
  mid ← c_on_remote (messages_create thread_id "user" user_input);
  cli_append mem_path "user" user_input (Some mid);;
  rn ← c_on_remote (runs_create_and_process thread_id (agent_id ag));
  cprint (nl +:+ "Run ID: " +:+ run_id rn);;
  cprint ("Run completed with status: " +:+ run_status rn);;
  (if String.eqb (run_status rn) "failed" then cprint ("Run failed: " +:+ run_last_error rn)
   else mret tt);;
  cli_log_run_steps thread_id (run_id rn);;
  assistant_text ← cli_print_latest_assistant thread_id;
  if String.eqb assistant_text "" then mret tt
  else
    msgs ← c_read_remote (messages_list_desc thread_id);
    cli_append mem_path "assistant" assistant_text (first_assistant_id msgs).

(** The words that end the loop. *)
Definition exit_words : list string := ["exit"; "quit"; "q"].

(** [while True:] over the lines of standard input. *)
Fixpoint chat_loop (thread_id : string) (mem_path : path) (ag : agent) (stdin : list string)
    : cliM unit :=
  match stdin with
  | [] => cprint (nl +:+ "YOU: ");; cprint (nl +:+ nl +:+ "Exiting chat.")
  | line :: rest =>
      cprint (nl +:+ "YOU: ");;
      let user_input := py_strip line in
      if bool_decide (py_lower user_input ∈ exit_words) then cprint "Goodbye!"
      else if String.eqb user_input "" then chat_loop thread_id mem_path ag rest
      else cli_turn thread_id mem_path ag user_input;; chat_loop thread_id mem_path ag rest
  end.

(** The [finally] clause: the agent exists, so it is deleted. *)
Definition delete_agent_finally (ag : agent) : cliM unit :=
  py_try (c_on_remote_ (delete_agent (agent_id ag));; cprint (nl +:+ "Deleted agent"))
         (fun e => cprint (nl +:+ "Warning: could not delete agent (" +:+ exn_text e +:+ ")")).

(** The part of [main] under [with agents_client:], given the thread to
    resume ([client_python.py] lines 154-244). *)
Definition cli_session (model : string) (existing : option json) (stdin : list string)
    : cliM unit :=
  ag ← c_on_remote (create_agent model "my-mcp-agent" cli_instructions);
  py_finally
    (cprint (nl +:+ "Agent and Thread Info");;
     cprint ("Created agent, ID: " +:+ agent_id ag);;
     cprint "MCP Server: mslearn at https://learn.microsoft.com/api/mcp";;
     thread_id ← (if py_truthy (default JNull existing) then
                    let t := default JNull existing in
                    cprint ("Resuming existing thread, ID: " +:+ py_fstr t);; mret t
                  else
                    tid ← c_on_remote threads_create;
                    cprint ("Created new thread, ID: " +:+ tid);; mret (JStr tid));
     mem_path ← c_on_fs (_memory_path_for_thread (py_fstr thread_id));
     c_on_fs_ (stamp_thread_id mem_path thread_id);;
     cprint (nl +:+ "Type your questions. Type 'exit' to quit.");;
     cprint dashes;;
     chat_loop (py_fstr thread_id) mem_path ag stdin)
    (delete_agent_finally ag).

(** [main] of [client_python.py]; [env] is the environment after
    [load_dotenv()]. *)
Definition cli_main (env : gmap string string) (stdin : list string) : cliM unit :=
  cfg ← py_lift (cli_config env);
  choice ← _choose_thread_interactive stdin;
  cli_session cfg.2 choice.1 choice.2.

(** ** [client_v2.py] *)

(** Its [_memory_path_for_thread], which creates the directory inline. *)
Definition v2_memory_path_for_thread (thread_id : string) (s : fs F) : res (fs F * path) :=
  s' ← fs_mkdir_p ["memory"] s; Ok (s', path_div ["memory"] ("conversation_" +:+ thread_id +:+ ".json")).

Definition v2_instructions : string :=
  "You are a helpful AI Agent for Tony." +:+ nl +:+
  "If you use the MCP, greet with 'Hello Tony' and state that you are using MCP." +:+ nl +:+
  "You have access to an MCP server called `microsoft.docs.mcp` which lets you " +:+
  "search the latest Microsoft documentation. Use MCP tools when helpful." +:+
  "**Contextual Statement Requirement**: The agent must include a brief context statement whenever it provides an answer based on MCP." +:+
  "- Example: Whenever you utilize the MCP for a response, please precede your answer with 'I am using the MCP to fetch this information.'".

(** [main] of [client_v2.py]: always a new thread. *)
Definition v2_main (env : gmap string string) (stdin : list string) : cliM unit :=
  cfg ← py_lift (cli_config env);
  ag ← c_on_remote (create_agent cfg.2 "my-mcp-agent" v2_instructions);
  py_finally
    (cprint (nl +:+ "Agent and Thread Info");;
     cprint ("Created agent, ID: " +:+ agent_id ag);;
     cprint "MCP Server: mslearn at https://learn.microsoft.com/api/mcp";;
     tid ← c_on_remote threads_create;
     cprint ("Created thread, ID: " +:+ tid);;
     mem_path ← c_on_fs (v2_memory_path_for_thread tid);
     c_on_fs_ (stamp_thread_id mem_path (JStr tid));;
     cprint (nl +:+ "Type your questions. Type 'exit' to quit.");;
     cprint dashes;;
     chat_loop tid mem_path ag stdin)
    (delete_agent_finally ag).

(** [m] returns normally and only writes to standard output. *)
Definition output_only {A} (a : A) (m : cliM A) : Prop :=
  forall c, exists out, m c = (Ok a, mk_cli (c_fs c) (c_remote c) (c_out c ++ out) (c_clock c)).

(** The journal at [p] carries thread id [tid] and starts with [pre]. *)
Definition journal_grows (p : path) (tid : string) (pre : list entry) (c : cli F R) : Prop :=
  exists es, journal_view p (c_fs c) = Some (mk_journal (Some tid) (pre ++ es)).
End Cli.

(** ** The listing and the menu *)

Lemma snippet_of_str t :
  snippet_of (JStr t) =
  Ok (JStr (if 60 <? py_len_str t then py_take_str 57 t +:+ "..." else t)).
Proof.
  unfold snippet_of. destruct (py_truthy (JStr t)) eqn:Ht; cbn [py_len mbind res_bind].
  - by destruct (60 <? py_len_str t).
  - cbn in Ht. apply negb_false_iff, String.eqb_eq in Ht as ->. done.
Qed.

(** On a file holding a journal, the loop body of [_list_saved_threads]
    computes the journal's menu entry. *)
Lemma saved_of_journal {F} `{!JsonCodec F} (s : fs F) p j :
  journal_view p s = Some j -> saved_of s p = Ok (journal_item p j).
Proof.
  intros Hv. unfold saved_of, journal_item. rewrite (load_memory_view _ _ _ Hv).
  destruct j as [otid es].
  cbn [journal_json py_get py_get_or dict_lookup String.eqb Ascii.eqb Bool.eqb default from_option id
       j_thread_id j_messages mbind res_bind].
  destruct es as [|e0 es0] eqn:Hes; cbn [py_truthy map length Nat.eqb negb].
  - cbn [mbind res_bind snippet_of py_truthy]. cbn -[py_truthy]. done.
  - destruct (exists_last (l:=e0 :: es0) ltac:(done)) as (es' & el & Hl).
    assert (Hidx : py_index (JList (map entry_json (e0 :: es0))) (-1) = Ok (entry_json el)).
    { rewrite Hl, map_app. cbn [py_index]. rewrite length_app, length_map. cbn [length map].
      replace (if (-1 <? 0)%Z then (Z.of_nat (length es' + 1) + -1)%Z else (-1)%Z)
        with (Z.of_nat (length es')) by (cbn; lia).
      rewrite (proj2 (Z.leb_le 0 _)) by lia. rewrite Nat2Z.id, lookup_app_r by (rewrite length_map; lia).
      by rewrite length_map, Nat.sub_diag. }
    cbn [map] in Hidx. rewrite Hidx.
    change (py_index (JList (entry_json e0 :: map entry_json es0)) 0) with (Ok (A:=json) (entry_json e0)).
    rewrite Hl, last_snoc. destruct e0 as [ts0 r0 t0 m0], el as [ts r t m].
    cbn -[snippet_of py_truthy]. rewrite snippet_of_str. done.
Qed.

#[export] Instance saved_ge_str_total : Total saved_ge_str.
Proof. intros a b. unfold saved_ge_str. destruct (String.leb_total (default "" (key_str (sort_key b))) (default "" (key_str (sort_key a)))); auto. Qed.

Lemma journal_item_key p j it : journal_item p j = Some it -> is_Some (key_str (sort_key it)).
Proof.
  unfold journal_item. case_match; [|done]. intros [= <-]. unfold sort_key. cbn [sv_created].
  destruct (j_messages j); cbn; [done|]. by case_match.
Qed.

(** Items whose keys are all strings are sorted by [merge_sort]. *)
Lemma sort_saved_strings items :
  Forall (fun it => is_Some (key_str (sort_key it))) items -> sort_saved items = Ok (merge_sort saved_ge_str items).
Proof.
  intros Hk. unfold sort_saved. destruct items as [|a [|b items]]; [done|done|].
  cbn [length Nat.leb]. replace (forallb _ _) with true; [done|].
  symmetry. apply forallb_forall. intros x Hx%list_elem_of_In. apply bool_decide_eq_true.
  by eapply Forall_forall in Hk.
Qed.

Lemma menu_choice_some saved line t b :
  menu_choice saved line = (Some t, b) -> exists it, it ∈ saved /\ t = sv_tid it.
Proof.
  unfold menu_choice. case_bool_decide; [done|]. destruct (py_int _) as [k|]; [|done].
  case_match; [|done]. destruct (saved !! _) as [it|] eqn:E; [|done]. intros [= <- _].
  exists it. split; [by eapply list_elem_of_lookup_2|done].
Qed.

Section CliListing.
(** C29. Refinement of [_list_saved_threads]: when every conversation
    file holds a journal (or nothing parsable), the menu lists exactly one
    entry per journal with a truthy thread id ([journal_item]), ordered
    newest first by first timestamp. *)
Theorem list_saved_threads_refines {F} `{!JsonCodec F} (s s' : fs F) (js : list journal) :
  _memory_dir s = Ok (s', memory_dir_path) ->
  mapM (fun p => journal_view p s') (fs_glob memory_dir_path conversation_glob s') = Some js ->
  exists items, _list_saved_threads s = Ok (s', items) /\
    items ≡ₚ omap id (zip_with journal_item (fs_glob memory_dir_path conversation_glob s') js) /\
    Sorted saved_ge_str items.
Proof.
  intros Hd Hm. unfold _list_saved_threads. rewrite Hd. cbn [mbind res_bind fst snd].
  rewrite (res_mapM_mapM _ _ journal_item _ _ (saved_of_journal s') Hm). cbn [mbind res_bind].
  rewrite sort_saved_strings.
  - eexists; split; [done|]. split; [apply merge_sort_Permutation|apply Sorted_merge_sort; exact saved_ge_str_total].
  - apply Forall_forall. intros it (o & Hin & Ho)%list_elem_of_omap. cbn in Ho. subst o.
    apply elem_of_zip_with in Hin as (p & j & Hij & _ & _). by eapply journal_item_key.
Qed.

(** C23. The menu reads back the numbers it prints: answering with the
    number shown in front of the [k]-th saved conversation (counting from 1)
    resumes that conversation's thread, without the invalid-choice notice. *)
Theorem menu_number_selects saved k it :
  saved !! k = Some it -> menu_choice saved (pretty (S k)) = (Some (sv_tid it), false).
Proof.
  intros Hk. destruct (py_int_pretty (S k) ltac:(lia)) as [Hl Hi]. unfold menu_choice. rewrite Hl.
  rewrite bool_decide_false.
  2: { intros Hin. apply elem_of_cons in Hin as [E|E%list_elem_of_singleton]; rewrite E in Hi; discriminate. }
  rewrite Hi. pose proof (lookup_lt_Some _ _ _ Hk).
  replace (Z.of_nat (S k) - 1)%Z with (Z.of_nat k) by lia.
  replace ((0 <=? Z.of_nat k)%Z && (Z.of_nat k <? Z.of_nat (length saved))%Z) with true
    by (symmetry; apply andb_true_iff; split; [apply Z.leb_le|apply Z.ltb_lt]; lia).
  by rewrite Nat2Z.id, Hk.
Qed.

(** C28. The menu preview is bounded: the snippet of a last message is at
    most 60 code points long ([text[:57] + "..."] beyond 60), and a text of
    at most 60 code points is shown whole. *)
Theorem snippet_bounded t :
  exists t', snippet_of (JStr t) = Ok (JStr t') /\ py_len_str t' <= 60 /\
             (py_len_str t <= 60 -> t' = t).
Proof.
  rewrite snippet_of_str. eexists; split; [done|].
  destruct (Nat.ltb_spec 60 (py_len_str t)) as [H|H].
  - split; [|lia]. rewrite py_len_str_app. pose proof (py_len_take 57 t).
    change (py_len_str "...") with 3. lia.
  - split; [lia|done].
Qed.
End CliListing.

(** ** The journal of a session only grows, and keeps its thread id *)

Section Grows.
Context {F R : Type} `{!JsonCodec F} `{!AgentsService R}.
Variable iso : nat -> string.
Context (p : path) (tid : string) (pre : list entry).
Notation I := (@journal_grows F R _ p tid pre).

Lemma cprint_grows s : pyM_preserves I (cprint s).
Proof. by intros c. Qed.

Lemma c_read_remote_grows {A} (f : R -> res A) : pyM_preserves I (c_read_remote f).
Proof. by intros c. Qed.

Lemma c_on_remote_grows {A} (f : R -> res (A * R)) : pyM_preserves I (c_on_remote f).
Proof. intros c Hc. unfold c_on_remote. by destruct (f _) as [[]|]. Qed.

Lemma c_on_remote__grows (f : R -> res R) : pyM_preserves I (c_on_remote_ f).
Proof. apply c_on_remote_grows. Qed.

Lemma cli_append_grows role text mid : pyM_preserves I (cli_append iso p role text mid).
Proof.
  intros c [es Hv]. unfold cli_append, c_now, c_on_fs_, c_on_fs, mbind, pyM_bind. cbn [c_fs].
  unfold _append_memory_untrimmed. change (@None Z) with (trim_arg None).
  rewrite (append_memory_with_journal None _ _ _ _ _ _ _ ltac:(done) Hv).
  destruct (fs_write _ _ _) as [s'|] eqn:Hw; cbn [mbind res_bind fst snd c_fs]; [|by exists es].
  apply fs_write_inv in Hw as ->. exists (es ++ [mk_entry (iso (c_clock c) +:+ "Z") role text mid]).
  cbn [c_fs]. rewrite journal_view_dump. cbn. by rewrite app_assoc.
Qed.
End Grows.

#[export] Hint Resolve cprint_grows c_read_remote_grows c_on_remote_grows c_on_remote__grows
  cli_append_grows : uwepd.

Section GrowsLoop.
Context {F R : Type} `{!JsonCodec F} `{!AgentsService R}.
Variable iso : nat -> string.

Lemma cli_turn_grows p tid pre thread_id ag u :
  pyM_preserves (@journal_grows F R _ p tid pre) (cli_turn iso thread_id p ag u).
Proof.
  unfold cli_turn, cli_log_run_steps, cli_print_latest_assistant, print_step, print_call.
  preserves_auto idtac.
Qed.

Lemma chat_loop_grows p tid pre thread_id ag stdin :
  pyM_preserves (@journal_grows F R _ p tid pre) (chat_loop iso thread_id p ag stdin).
Proof.
  induction stdin as [|l ls IH]; cbn [chat_loop]; preserves_auto ltac:(apply IH).
Qed.

Lemma delete_agent_finally_grows p tid pre ag :
  pyM_preserves (@journal_grows F R _ p tid pre) (delete_agent_finally ag).
Proof. unfold delete_agent_finally. preserves_auto idtac. Qed.

(** [try: m finally: fin] ends in the invariant when [m] does and [fin]
    keeps it. *)
Lemma py_finally_ends {S A} (I : S -> Prop) (m : pyM S A) fin s :
  I (m s).2 -> pyM_preserves I fin -> I (py_finally m fin s).2.
Proof.
  intros Hm Hf. unfold py_finally. destruct (m s) as [r s1]. specialize (Hf s1 Hm).
  destruct (fin s1) as [[] s2]; done.
Qed.
End GrowsLoop.

Ltac cstep :=
  cbn [c_fs c_remote c_out c_clock py_fstr default from_option id mret pyM_ret py_modify
       mbind res_bind py_truthy negb String.eqb fst snd].

Section SessionClaims.
Context {F R : Type} `{!JsonCodec F} `{!AgentsService R}.
Variable iso : nat -> string.

(** C5. A conversation the command-line client starts stays resumable,
    whatever the service answers and whatever is typed: after the session
    ends (normally or by an exception), the thread's journal carries the
    thread id and every message it held, and [_list_saved_threads] lists
    it under that id.  (The Streamlit app never writes the id, C1.) *)
Theorem cli_session_resumable model stdin (c : cli F R) ag r1 tid r2 s1 j :
  tid <> "" -> no_slash tid = true ->
  create_agent model "my-mcp-agent" cli_instructions (c_remote c) = Ok (ag, r1) ->
  threads_create r1 = Ok (tid, r2) ->
  fs_mkdir_p memory_dir_path (c_fs c) = Ok s1 ->
  journal_view ["memory"; memory_file_name tid] s1 = Some j ->
  fs_is_dir ["memory"; memory_file_name tid] s1 = false ->
  let c' := (cli_session iso model None stdin c).2 in
  exists es it,
    journal_view ["memory"; memory_file_name tid] (c_fs c') = Some (mk_journal (Some tid) (j_messages j ++ es)) /\
    saved_of (c_fs c') ["memory"; memory_file_name tid] = Ok (Some it) /\ sv_tid it = JStr tid.
Proof.
  intros Hne Hns Ha Ht Hm Hv Hd c'.
  assert (Hg : journal_grows ["memory"; memory_file_name tid] tid (j_messages j) c').
  { unfold c', cli_session. unfold mbind at 1, pyM_bind at 1, c_on_remote at 1. rewrite Ha.
    apply py_finally_ends; [|apply delete_agent_finally_grows].
    unfold mbind, pyM_bind, cprint, c_on_remote, c_on_fs_, c_on_fs. cstep. rewrite Ht. cstep.
    rewrite (memory_path_eq _ _ _ Hns Hm). cstep.
    rewrite (stamp_thread_id_eq _ _ _ _ Hv), fs_write_ok by (done || by eapply memory_dir_is_dir). cstep.
    apply chat_loop_grows. exists []. cbn. rewrite journal_view_dump, app_nil_r. by destruct j. }
  destruct Hg as [es Hes]. exists es. eexists. split; [done|].
  rewrite (saved_of_journal _ _ _ Hes). unfold journal_item. cbn [opt_json j_thread_id py_truthy].
  rewrite (proj2 (String.eqb_neq _ _) Hne). split; [done|]. done.
Qed.

(** C10. The client deletes its agent on every path: once [create_agent]
    has returned, the last thing the session does to the service is
    [delete_agent(agent.id)] (its failure only prints a warning), whether
    the chat loop ended normally or raised.  (The app skips the deletion
    when the run raises, C9.) *)
Theorem cli_session_deletes_agent model existing stdin (c : cli F R) ag r1 :
  create_agent model "my-mcp-agent" cli_instructions (c_remote c) = Ok (ag, r1) ->
  exists rb, c_remote (cli_session iso model existing stdin c).2 =
             match delete_agent (agent_id ag) rb with Ok r => r | Raise _ => rb end.
Proof.
  intros Ha. unfold cli_session. unfold mbind at 1, pyM_bind at 1, c_on_remote at 1. rewrite Ha.
  unfold py_finally.
  lazymatch goal with |- context [match ?m with (_, _) => _ end] => destruct m as [r cb] end.
  exists (c_remote cb).
  unfold delete_agent_finally, py_try, c_on_remote_, c_on_remote, mbind, pyM_bind, cprint.
  destruct (delete_agent (agent_id ag) (c_remote cb)); cstep; done.
Qed.

Lemma cli_config_missing env :
  (forall ep md, env !! "PROJECT_ENDPOINT" = Some ep -> env !! "MODEL_DEPLOYMENT_NAME" = Some md ->
     ep = "" \/ md = "") -> cli_config env = Raise ValueError.
Proof.
  intros H. unfold cli_config.
  destruct (env !! "PROJECT_ENDPOINT") as [ep|], (env !! "MODEL_DEPLOYMENT_NAME") as [md|]; try done.
  destruct (H ep md) as [->| ->]; [done|done|done|]. by rewrite orb_true_r.
Qed.

(** C32. Both command-line clients stop at a missing or empty
    [PROJECT_ENDPOINT] or [MODEL_DEPLOYMENT_NAME] before anything else:
    [main] raises [ValueError] with no file, service call, output or
    clock reading, whatever standard input holds. *)
Theorem cli_config_fatal env stdin (c : cli F R) :
  (forall ep md, env !! "PROJECT_ENDPOINT" = Some ep -> env !! "MODEL_DEPLOYMENT_NAME" = Some md ->
     ep = "" \/ md = "") ->
  cli_main iso env stdin c = (Raise ValueError, c) /\ v2_main iso env stdin c = (Raise ValueError, c).
Proof.
  intros H. unfold cli_main, v2_main. rewrite !pyM_bind_run. cbn [py_lift].
  by rewrite (cli_config_missing env H).
Qed.
End SessionClaims.

(** ** Statements that only print *)

Section Output.
Context {F R : Type} `{!JsonCodec F} `{!AgentsService R}.

Lemma output_only_cprint s : output_only (F:=F) (R:=R) tt (cprint s).
Proof. intros c. by exists [s]. Qed.

Lemma output_only_ret {A} (a : A) : output_only (F:=F) (R:=R) a (mret a).
Proof. intros c. exists []. by destruct c; rewrite app_nil_r. Qed.

Lemma output_only_bind {A B} (a : A) (b : B) m (f : A -> pyM (cli F R) B) :
  output_only a m -> output_only b (f a) -> output_only b (mbind f m).
Proof.
  intros Hm Hf c. destruct (Hm c) as [o1 E1]. rewrite pyM_bind_run, E1.
  destruct (Hf (mk_cli (c_fs c) (c_remote c) (c_out c ++ o1) (c_clock c))) as [o2 E2].
  rewrite E2. exists (o1 ++ o2). cbn. by rewrite app_assoc.
Qed.

Lemma output_only_lift {A} (a : A) : output_only (F:=F) (R:=R) a (py_lift (Ok a)).
Proof. apply output_only_ret. Qed.

Lemma output_only_for {A} (f : A -> pyM (cli F R) unit) xs :
  (forall x, x ∈ xs -> output_only tt (f x)) -> output_only tt (py_for f xs).
Proof.
  induction xs as [|x xs IH]; intros Hf; cbn [py_for]; [apply output_only_ret|].
  apply (output_only_bind tt); [apply Hf; left|]. apply IH. intros y Hy. apply Hf. by right.
Qed.

Lemma print_call_output call : call_printable call = true -> output_only (F:=F) (R:=R) tt (print_call call).
Proof.
  destruct call as [| | | | |kvs]; try done. intros _. unfold print_call, py_get, py_get_or.
  repeat (apply (output_only_bind tt) || apply output_only_bind with (a := default JNull (dict_lookup _ kvs)));
    first [apply output_only_lift | apply output_only_cprint].
Qed.

Lemma print_step_output st : step_printable st = true -> output_only (F:=F) (R:=R) tt (print_step st).
Proof.
  unfold step_printable, print_step. cbv beta. intros Hp.
  destruct (py_get_or (step_details st) "tool_calls" (JList [])) as [tc|] eqn:E; [|done].
  apply (output_only_bind tt); [apply output_only_cprint|].
  apply (output_only_bind tc); [apply output_only_lift|].
  apply (output_only_bind tt); [|apply output_only_cprint].
  destruct (py_truthy tc); [|apply output_only_ret].
  destruct (py_iter tc) as [it|]; [|done].
  apply (output_only_bind tt); [apply output_only_cprint|]. apply (output_only_bind it); [apply output_only_lift|].
  apply output_only_for. intros x Hx. apply print_call_output. by eapply (proj1 (forallb_forall _ _)) in Hp;
    [|apply list_elem_of_In].
Qed.

Lemma log_run_steps_output thread_id rid steps (c : cli F R) :
  run_steps_list thread_id rid (c_remote c) = Ok steps -> Forall (fun st => step_printable st = true) steps ->
  exists out, cli_log_run_steps thread_id rid c = (Ok tt, mk_cli (c_fs c) (c_remote c) (c_out c ++ out) (c_clock c)).
Proof.
  intros Hs Hp. unfold cli_log_run_steps. rewrite pyM_bind_run. unfold c_read_remote. rewrite Hs.
  apply output_only_for. intros x Hx. apply print_step_output. by eapply Forall_forall in Hp.
Qed.
End Output.

Section TurnClaims.
Context {F R : Type} `{!JsonCodec F} `{!AgentsService R}.
Variable iso : nat -> string.

(** C7. One line of the command-line chat, whatever the run's status: the
    line is journalled as a user entry, then the latest assistant text of
    the thread (if non-empty) is journalled as the reply, with the id of
    the newest assistant message; the history is never trimmed.  The
    status is only printed: after a run that ends ["failed"] the client
    still journals the thread's latest reply, which is then a reply to an
    earlier question. *)
Theorem cli_turn_journal thread_id p ag u (c : cli F R) j mid r1 rn r2 steps msgs :
  journal_view p (c_fs c) = Some j -> fs_is_dir p (c_fs c) = false ->
  fs_is_dir (parent p) (c_fs c) = true ->
  messages_create thread_id "user" u (c_remote c) = Ok (mid, r1) ->
  runs_create_and_process thread_id (agent_id ag) r1 = Ok (rn, r2) ->
  run_steps_list thread_id (run_id rn) r2 = Ok steps ->
  Forall (fun st => step_printable st = true) steps ->
  messages_list_desc thread_id r2 = Ok msgs ->
  let '(r, c') := cli_turn iso thread_id p ag u c in
  r = Ok tt /\ c_remote c' = r2 /\
  journal_view p (c_fs c') =
    Some (let j1 := journal_append None (mk_entry (iso (c_clock c) +:+ "Z") "user" u (Some mid)) j in
          match latest_assistant_text msgs with
          | Some t =>
              if String.eqb t "" then j1
              else journal_append None
                     (mk_entry (iso (S (c_clock c)) +:+ "Z") "assistant" t (first_assistant_id msgs)) j1
          | None => j1
          end).
Proof.
  intros Hv Hd Hpd Hmc Hr Hs Hp Hl.
  unfold cli_turn, cli_print_latest_assistant, cli_append, c_now, c_on_fs_, c_on_fs, c_on_remote,
    c_read_remote, cprint, mbind, pyM_bind, py_modify.
  cstep. rewrite Hmc. cstep.
  unfold _append_memory_untrimmed. change (@None Z) with (trim_arg None).
  rewrite (append_memory_with_journal None _ _ _ _ _ _ j), fs_write_ok by done. cstep.
  rewrite Hr. cstep.
  destruct (String.eqb (run_status rn) "failed"); unfold mret, pyM_ret; cstep;
  (lazymatch goal with
   | |- context [cli_log_run_steps ?a ?b ?c3] =>
       destruct (log_run_steps_output a b steps c3 ltac:(by cbn) Hp) as [out ->]
   end); cstep; rewrite Hl; cstep.
  all: destruct (latest_assistant_text msgs) as [t|]; cstep; [destruct (String.eqb t "") eqn:Et; cstep|].
  all: try solve [split; [done|split; [done|apply journal_view_dump]]].
  all: rewrite Hl; cstep;
    rewrite (append_memory_with_journal None _ _ _ _ _ _ _ ltac:(done) (journal_view_dump _ _ _)), fs_write_ok
      by (by rewrite fs_is_dir_put); cstep;
    split; [done|split; [done|apply journal_view_dump]].
Qed.

(** C24. The loop reads no line after an exit word: whatever follows the
    first line that strips and lower-cases to [exit], [quit] or [q] is
    never posted, run or journalled. *)
Theorem chat_loop_stops_at_exit thread_id p ag pre w post :
  bool_decide (py_lower (py_strip w) ∈ exit_words) = true ->
  chat_loop iso (F:=F) (R:=R) thread_id p ag (pre ++ w :: post) = chat_loop iso thread_id p ag (pre ++ [w]).
Proof.
  intros Hw. induction pre as [|l pre IH]; cbn [app chat_loop].
  - by rewrite Hw.
  - by rewrite IH.
Qed.
End TurnClaims.

(** ** Scenarios on the scripted service *)

Module CliScenarios.
Definition iso0 (n : nat) : string := "2025-06-01T00:00:0" +:+ pretty n.
Definition search_call : json :=
  JDict [("id", JStr "c1"); ("type", JStr "mcp"); ("name", JStr "microsoft_docs_search")].
Definition ok_run : outcome :=
  mk_outcome "completed" "" [("assistant", ["Hi there"])] [("step_1", JDict [("tool_calls", JList [search_call])])].
Definition failed_run : outcome := mk_outcome "failed" "rate limit" [] [].

Definition c0 (script : list (option outcome)) : cli raw_file scripted :=
  mk_cli (mk_fs ∅ ∅) (scripted_init script) [] 0.

(** The values a session on [c0 script] obtains before its loop. *)
Section Start.
Variable script : list (option outcome).
Definition ag0 := res_default (mk_agent "" "", c_remote (c0 script))
  (create_agent "gpt-4o" "my-mcp-agent" cli_instructions (c_remote (c0 script))).
Definition tid0 := res_default ("", ag0.2) (threads_create ag0.2).
Definition p0 : path := ["memory"; memory_file_name tid0.1].
Definition s0 := res_default (c_fs (c0 script)) (fs_mkdir_p memory_dir_path (c_fs (c0 script))).
Definition j0 := default empty_journal (journal_view p0 s0).
End Start.

(** A world in the middle of a session: agent and thread created, the
    journal stamped and empty. *)
Definition mid_session (script : list (option outcome)) : cli raw_file scripted :=
  mk_cli (fs_put (p0 script) (json_dump (journal_json (mk_journal (Some (tid0 script).1) [])))
            (s0 script))
         (tid0 script).2 [] 0.

Definition items : list saved :=
  [mk_saved (JStr "thread_9") ["memory"; "conversation_thread_9.json"] (JStr "T9") (JStr "assistant") (JStr "Hi");
   mk_saved (JStr "thread_4") ["memory"; "conversation_thread_4.json"] (JStr "T4") (JStr "user") (JStr "Hello")].

(** Two stamped journals. *)
Definition two_journals : fs raw_file :=
  mk_fs (<[["memory"; "conversation_t1.json"] :=
            json_dump (journal_json (mk_journal (Some "t1") [mk_entry "2025-01-01" "user" "Old" None]))]>
         (<[["memory"; "conversation_t2.json"] :=
            json_dump (journal_json (mk_journal (Some "t2") [mk_entry "2025-02-01" "user" "New" None]))]> ∅))
        {[ ["memory"] ]}.

Lemma list_saved_threads_refines_witness :
  exists items, _list_saved_threads two_journals = Ok (two_journals, items) /\
    items ≡ₚ omap id (zip_with journal_item (fs_glob memory_dir_path conversation_glob two_journals)
                        [mk_journal (Some "t2") [mk_entry "2025-02-01" "user" "New" None];
                         mk_journal (Some "t1") [mk_entry "2025-01-01" "user" "Old" None]]) /\
    Sorted saved_ge_str items.
Proof.
  apply (list_saved_threads_refines two_journals two_journals); vm_compute; reflexivity.
Defined.

Lemma menu_number_selects_witness :
  items !! 1 = Some (mk_saved (JStr "thread_4") ["memory"; "conversation_thread_4.json"] (JStr "T4") (JStr "user") (JStr "Hello")) /\
  menu_choice items (pretty 2) = (Some (JStr "thread_4"), false).
Proof.
  split; [reflexivity|].
  apply (menu_number_selects items 1
    (mk_saved (JStr "thread_4") ["memory"; "conversation_thread_4.json"] (JStr "T4") (JStr "user") (JStr "Hello"))).
  reflexivity.
Defined.

Lemma cli_session_resumable_witness :
  let c' := (cli_session iso0 "gpt-4o" None ["Hello"; "exit"] (c0 [Some ok_run])).2 in
  exists es it,
    journal_view (p0 [Some ok_run]) (c_fs c') =
      Some (mk_journal (Some (tid0 [Some ok_run]).1) (j_messages (j0 [Some ok_run]) ++ es)) /\
    saved_of (c_fs c') (p0 [Some ok_run]) = Ok (Some it) /\ sv_tid it = JStr (tid0 [Some ok_run]).1.
Proof.
  apply (cli_session_resumable iso0 "gpt-4o" ["Hello"; "exit"] (c0 [Some ok_run])
    (ag0 [Some ok_run]).1 (ag0 [Some ok_run]).2 (tid0 [Some ok_run]).1 (tid0 [Some ok_run]).2
    (s0 [Some ok_run]) (j0 [Some ok_run]));
  vm_compute; first [reflexivity | discriminate].
Defined.

Lemma cli_session_deletes_agent_witness :
  (exists rb, c_remote (cli_session iso0 "gpt-4o" None ["Hello"; "exit"] (c0 [Some ok_run])).2 =
     match delete_agent (agent_id (ag0 [Some ok_run]).1) rb with Ok r => r | Raise _ => rb end) /\
  agent_id (ag0 [Some ok_run]).1 ∉
    sc_agents (c_remote (cli_session iso0 "gpt-4o" None ["Hello"; "exit"] (c0 [Some ok_run])).2).
Proof.
  split.
  - apply (cli_session_deletes_agent iso0 "gpt-4o" None ["Hello"; "exit"] (c0 [Some ok_run])
      (ag0 [Some ok_run]).1 (ag0 [Some ok_run]).2). vm_compute. reflexivity.
  - apply (bool_decide_unpack (agent_id (ag0 [Some ok_run]).1 ∉
      sc_agents (c_remote (cli_session iso0 "gpt-4o" None ["Hello"; "exit"] (c0 [Some ok_run])).2))).
    vm_compute. reflexivity.
Defined.

Lemma chat_loop_stops_at_exit_witness :
  chat_loop iso0 (F:=raw_file) (R:=scripted) "thread_1" (p0 []) (ag0 []).1 (["Hello"] ++ " Quit " :: ["Never sent"]) =
  chat_loop iso0 "thread_1" (p0 []) (ag0 []).1 (["Hello"] ++ [" Quit "]).
Proof. apply chat_loop_stops_at_exit. vm_compute. reflexivity. Defined.

(** A first line answered, then a second whose run fails. *)
Definition sc_fail := [Some ok_run; Some failed_run].
Definition ag1 := (ag0 sc_fail).1.
Definition tid1 := (tid0 sc_fail).1.
Definition c1 := (cli_turn iso0 tid1 (p0 sc_fail) ag1 "Hello" (mid_session sc_fail)).2.
Definition j1 := default empty_journal (journal_view (p0 sc_fail) (c_fs c1)).
Definition mid1 := res_default ("", c_remote c1) (messages_create tid1 "user" "Again" (c_remote c1)).
Definition rn1 := res_default (mk_run "" "" "", mid1.2) (runs_create_and_process tid1 (agent_id ag1) mid1.2).
Definition steps1 := res_default [] (run_steps_list tid1 (run_id rn1.1) rn1.2).
Definition msgs1 := res_default [] (messages_list_desc tid1 rn1.2).

Lemma cli_turn_journal_witness :
  run_status (fst rn1) = "failed" /\ latest_assistant_text msgs1 = Some "Hi there" /\
  (let '(r, c') := cli_turn iso0 tid1 (p0 sc_fail) ag1 "Again" c1 in
  r = Ok tt /\ c_remote c' = (snd rn1) /\
  journal_view (p0 sc_fail) (c_fs c') =
    Some (let j' := journal_append None (mk_entry (iso0 (c_clock c1) +:+ "Z") "user" "Again" (Some (fst mid1))) j1 in
          match latest_assistant_text msgs1 with
          | Some t =>
              if String.eqb t "" then j'
              else journal_append None
                     (mk_entry (iso0 (S (c_clock c1)) +:+ "Z") "assistant" t (first_assistant_id msgs1)) j'
          | None => j'
          end)).
Proof.
  split; [vm_compute; reflexivity|]. split; [vm_compute; reflexivity|].
  apply (cli_turn_journal iso0 tid1 (p0 sc_fail) ag1 "Again" c1 j1 mid1.1 mid1.2 rn1.1 rn1.2 steps1 msgs1);
    try (vm_compute; reflexivity).
  apply (bool_decide_unpack (Forall (fun st => step_printable st = true) steps1)). vm_compute. reflexivity.
Defined.
(** An empty [MODEL_DEPLOYMENT_NAME]. *)
Lemma cli_config_fatal_witness :
  let env : gmap string string := {[ "PROJECT_ENDPOINT" := "https://example"; "MODEL_DEPLOYMENT_NAME" := "" ]} in
  cli_main iso0 env ["1"] (c0 []) = (Raise ValueError, c0 []) /\
  v2_main iso0 env ["1"] (c0 []) = (Raise ValueError, c0 []).
Proof.
  apply (cli_config_fatal iso0). intros ep md Hep Hmd. right. vm_compute in Hmd. congruence.
Defined.
End CliScenarios.
