(* ===== verification/BackupPage.v ===== *)
(** * BackupPage: the first version of the Streamlit page

    [src/backup/streamlit_mcpclient.py] is the earliest copy of the page:
    a text input and a Send button, no history column.  Every run of the
    script (every rerun Streamlit makes) checks the configuration, creates
    a thread and a stamped journal the first time ([st.session_state]
    holds only ["thread_id"]), then creates an agent; only when Send was
    pressed with a question does it post, run, journal and delete that
    agent.  The state is the session's thread id, the files, the service
    and the widgets drawn.  Its journal helpers are the CLI's (the
    untrimmed [_append_memory]), modelled in [Journal].

    The theorems: a rerun without a question leaves the agent it created
    registered (C33); the first run stamps the new thread's journal, and
    the stamp survives the rest of the run whatever the service answers
    (C34), which the current page never does (C1). *)

From S2P Require Import Prelude PyJson PyStr FileSystem Journal Remote Cli.
Import Store.

(** The widgets the script draws. *)
Inductive p1_widget :=
  | P1Title (text : string)
  | P1Write (text : string)
  | P1Error (text : string)
  | P1Expander (label body : string)
  | P1Success (text : string)
  | P1Warning (text : string).

Record page1 (F R : Type) := mk_page1 {
  p1_tid : option string;          (** [st.session_state["thread_id"]] *)
  p1_fs : fs F;
  p1_remote : R;
  p1_out : list p1_widget
}.
Arguments mk_page1 {F R}.
Arguments p1_tid {F R}.
Arguments p1_fs {F R}.
Arguments p1_remote {F R}.
Arguments p1_out {F R}.

(** The lines of one step in [_log_run_steps]; the [.get] calls raise
    [AttributeError] on a value that is not a dict. *)
Definition b1_call_lines (call : json) : res (list string) :=
  i ← py_get call "id"; t ← py_get call "type"; n ← py_get call "name";
  Ok ["    Tool Call ID: " +:+ py_fstr i; "    Type: " +:+ py_fstr t; "    Name: " +:+ py_fstr n].

Definition b1_step_lines (step : run_step) : res (list string) :=
  tool_calls ← py_get_or (step_details step) "tool_calls" (JList []);
  let head := ["Step " +:+ step_id step +:+ " status: " +:+ step_status step] in
  if py_truthy tool_calls then
    it ← py_iter tool_calls;
    calls ← res_mapM b1_call_lines it;
    Ok (head ++ ["  MCP Tool calls:"] ++ concat calls)
  else Ok head.

Definition b1_instructions : string :=
  "You are a helpful AI Agent for Tony." +:+ nl +:+
  "If you use the MCP, greet with 'Hello Tony' and state that you are using MCP." +:+ nl +:+
  "You have access to an MCP server called `microsoft.docs.mcp` which lets you " +:+
  "search the latest Microsoft documentation. Use MCP tools when helpful." +:+ nl +:+
  "**Contextual Statement Requirement**: When an answer is based on MCP, begin with " +:+
  "'I am using the MCP to fetch this information.'".

Section Page1.
Context {F R : Type} `{!JsonCodec F} `{!AgentsService R}.
Notation pageM := (pyM (page1 F R)).

Definition p1_emit (x : p1_widget) : pageM unit :=
  py_modify (fun w => mk_page1 (p1_tid w) (p1_fs w) (p1_remote w) (p1_out w ++ [x])).

Definition p1_on_fs {A} (f : fs F -> res (fs F * A)) : pageM A :=
  fun w => match f (p1_fs w) with
           | Ok (s', a) => (Ok a, mk_page1 (p1_tid w) s' (p1_remote w) (p1_out w))
           | Raise e => (Raise e, w)
           end.

Definition p1_on_fs_ (f : fs F -> res (fs F)) : pageM unit := p1_on_fs (fun s => s' ← f s; Ok (s', tt)).

Definition p1_on_remote {A} (f : R -> res (A * R)) : pageM A :=
  fun w => match f (p1_remote w) with
           | Ok (a, r') => (Ok a, mk_page1 (p1_tid w) (p1_fs w) r' (p1_out w))
           | Raise e => (Raise e, w)
           end.

Definition p1_on_remote_ (f : R -> res R) : pageM unit := p1_on_remote (fun r => r' ← f r; Ok (tt, r')).

Definition p1_read_remote {A} (f : R -> res A) : pageM A := fun w => (f (p1_remote w), w).

Definition p1_set_tid (t : string) : pageM unit :=
  py_modify (fun w => mk_page1 (Some t) (p1_fs w) (p1_remote w) (p1_out w)).

(** [_log_run_steps]: the lines joined with newlines. *)
Definition b1_log_run_steps (thread_id run_id : string) : pageM string :=
  run_steps ← p1_read_remote (run_steps_list thread_id run_id);
  logs ← py_lift (res_mapM b1_step_lines run_steps);
  mret (concat_sep nl (concat logs)).

(** [_print_latest_assistant]. *)
Definition b1_print_latest_assistant (thread_id : string) : pageM string :=
  msgs ← p1_read_remote (messages_list_desc thread_id);
  mret (default "" (latest_assistant_text msgs)).

(** [if "thread_id" not in st.session_state: ... else: ...] (lines 100-109):
    the journal path, with a new thread and its stamped journal the first
    time. *)
Definition b1_ensure_thread : pageM path :=
  cur ← py_gets p1_tid;
  match cur with
  | None =>
      thread ← p1_on_remote threads_create;
      p1_set_tid thread;;
      mem_path ← p1_on_fs (_memory_path_for_thread thread);
      p1_on_fs_ (stamp_thread_id mem_path (JStr thread));;
      mret mem_path
  | Some t => p1_on_fs (_memory_path_for_thread t)
  end.

(** The [if submit and user_input:] block (lines 128-166). *)
Definition b1_turn (thread_id : string) (mem_path : path) (ag : agent) (user_input ts_u ts_a : string)
    : pageM unit :=
  user_msg ← p1_on_remote (messages_create thread_id "user" user_input);
  p1_on_fs_ (_append_memory_untrimmed mem_path "user" user_input (Some user_msg) ts_u);;
  rn ← p1_on_remote (runs_create_and_process thread_id (agent_id ag));
  p1_emit (P1Write ("Run ID: " +:+ run_id rn));;
  p1_emit (P1Write ("Run completed with status: " +:+ run_status rn));;
  (if String.eqb (run_status rn) "failed" then p1_emit (P1Error ("Run failed: " +:+ run_last_error rn))
   else mret tt);;
  logs ← b1_log_run_steps thread_id (run_id rn);
  (if String.eqb logs "" then mret tt else p1_emit (P1Expander "Run Steps & MCP Tool Calls" logs));;
  assistant_text ← b1_print_latest_assistant thread_id;
  (if String.eqb assistant_text "" then mret tt
   else
     p1_emit (P1Success assistant_text);;
     msgs ← p1_read_remote (messages_list_desc thread_id);
     p1_on_fs_ (_append_memory_untrimmed mem_path "assistant" assistant_text (first_assistant_id msgs) ts_a));;
  py_try (p1_on_remote_ (delete_agent (agent_id ag)))
         (fun e => p1_emit (P1Warning ("Could not delete agent: " +:+ exn_text e))).

(** One run of the script: [env] is the environment after [load_dotenv()],
    [submit] the button, [user_input] the text box, [ts_u] and [ts_a] the
    clock at the two appends. *)
Definition b1_script_run (env : gmap string string) (submit : bool) (user_input ts_u ts_a : string)
    : pageM unit :=
  p1_emit (P1Title "Azure AI Agent Chat");;
  p1_emit (P1Write "Ask a question and get a response from your Azure AI Agent (with MCP Tool).");;
  match cli_config env with
  | Raise _ => p1_emit (P1Error "PROJECT_ENDPOINT and MODEL_DEPLOYMENT_NAME must be set in your .env file.")
  | Ok (_, model) =>
      mem_path ← b1_ensure_thread;
      ag ← p1_on_remote (create_agent model "my-mcp-agent" b1_instructions);
      if submit && negb (String.eqb user_input "") then
        thread_id ← py_gets (fun w => default "" (p1_tid w));
        b1_turn thread_id mem_path ag user_input ts_u ts_a
      else mret tt
  end.
End Page1.

(** ** The journal of the session's thread keeps its stamp *)

Section Page1Facts.
Context {F R : Type} `{!JsonCodec F} `{!AgentsService R}.

(** The session holds [tid] and the journal at [p] carries [tid] and
    starts with [pre]. *)
Definition b1_grows (p : path) (tid : string) (pre : list entry) (w : page1 F R) : Prop :=
  p1_tid w = Some tid /\ exists es, journal_view p (p1_fs w) = Some (mk_journal (Some tid) (pre ++ es)).

Lemma b1_ensure_thread_old (w : page1 F R) t s1 p :
  p1_tid w = Some t -> _memory_path_for_thread t (p1_fs w) = Ok (s1, p) ->
  b1_ensure_thread w = (Ok p, mk_page1 (p1_tid w) s1 (p1_remote w) (p1_out w)).
Proof.
  intros Ht Hp. unfold b1_ensure_thread, py_gets, p1_on_fs. rewrite pyM_bind_run. cbn [fst snd].
  rewrite Ht. cbv beta iota. by rewrite Hp, Ht.
Qed.

Lemma b1_ensure_thread_new (w : page1 F R) t r0 s1 j :
  p1_tid w = None -> threads_create (p1_remote w) = Ok (t, r0) -> no_slash t = true ->
  fs_mkdir_p memory_dir_path (p1_fs w) = Ok s1 ->
  journal_view ["memory"; memory_file_name t] s1 = Some j ->
  fs_is_dir ["memory"; memory_file_name t] s1 = false ->
  b1_ensure_thread w =
    (Ok ["memory"; memory_file_name t],
     mk_page1 (Some t) (fs_put ["memory"; memory_file_name t] (json_dump (journal_json (journal_set_thread t j))) s1)
       r0 (p1_out w)).
Proof.
  intros Ht Hc Hns Hm Hv Hd. pose proof (memory_dir_is_dir _ _ Hm) as Hpd.
  unfold b1_ensure_thread, py_gets. rewrite pyM_bind_run. cbn [fst snd]. rewrite Ht. cbv beta iota.
  unfold p1_on_remote at 1. rewrite pyM_bind_run, Hc. cbv beta iota.
  unfold p1_set_tid, py_modify. rewrite pyM_bind_run. cbv beta iota.
  unfold p1_on_fs at 1. rewrite pyM_bind_run. cbn [p1_fs]. rewrite (memory_path_eq _ _ _ Hns Hm).
  cbv beta iota. unfold p1_on_fs_, p1_on_fs. rewrite pyM_bind_run. cbn [p1_fs].
  by rewrite (stamp_thread_id_eq _ _ _ j Hv), fs_write_ok.
Qed.

Section Grows.
Context (p : path) (tid : string) (pre : list entry).
Notation I := (b1_grows p tid pre).

Lemma p1_emit_grows x : pyM_preserves I (p1_emit x).
Proof. by intros w. Qed.

Lemma p1_read_remote_grows {A} (f : R -> res A) : pyM_preserves I (p1_read_remote f).
Proof. by intros w. Qed.

Lemma p1_on_remote_grows {A} (f : R -> res (A * R)) : pyM_preserves I (p1_on_remote f).
Proof. intros w Hw. unfold p1_on_remote. by destruct (f _) as [[]|]. Qed.

Lemma p1_on_remote__grows (f : R -> res R) : pyM_preserves I (p1_on_remote_ f).
Proof. apply p1_on_remote_grows. Qed.

Lemma p1_append_grows role text mid ts :
  pyM_preserves I (p1_on_fs_ (_append_memory_untrimmed p role text mid ts)).
Proof.
  intros w [Ht [es Hv]]. unfold p1_on_fs_, p1_on_fs.
  unfold _append_memory_untrimmed. change (@None Z) with (trim_arg None).
  rewrite (append_memory_with_journal None _ _ _ _ _ _ _ ltac:(done) Hv).
  destruct (fs_write _ _ _) as [s'|] eqn:Hw; cbn [mbind res_bind fst snd]; [|by split; [|exists es]].
  apply fs_write_inv in Hw as ->. split; [done|]. exists (es ++ [mk_entry ts role text mid]).
  cbn [p1_fs]. rewrite journal_view_dump. cbn. by rewrite app_assoc.
Qed.
End Grows.

#[local] Hint Resolve p1_emit_grows p1_read_remote_grows p1_on_remote_grows p1_on_remote__grows
  p1_append_grows : uwepd.

Lemma b1_turn_grows p tid pre thread_id ag u ts_u ts_a :
  pyM_preserves (b1_grows p tid pre) (b1_turn thread_id p ag u ts_u ts_a).
Proof. unfold b1_turn, b1_log_run_steps, b1_print_latest_assistant. preserves_auto idtac. Qed.

(** What follows the thread's set-up in a run, on journal [p]. *)
Lemma b1_chat_grows p tid pre model submit u ts_u ts_a :
  pyM_preserves (b1_grows p tid pre)
    (ag ← p1_on_remote (create_agent model "my-mcp-agent" b1_instructions);
     if submit && negb (String.eqb u "") then
       thread_id ← py_gets (fun w => default "" (p1_tid w));
       b1_turn thread_id p ag u ts_u ts_a
     else mret tt).
Proof.
  apply preserves_bind; [eauto with uwepd|intros ag]. destruct (submit && _); [|apply preserves_ret].
  apply preserves_bind; [apply preserves_gets|intros thread_id]. apply b1_turn_grows.
Qed.
End Page1Facts.

(** ** Claims *)

Section Page1Claims.
Context {F R : Type} `{!JsonCodec F} `{!AgentsService R}.

(** C33. Every rerun of the first page without a submitted question (the
    Send button not pressed, or an empty text box), in a session that
    already has its thread, creates an agent and never deletes it: the run
    returns normally with the service in the state [create_agent] left,
    the new agent still registered. *)
Theorem b1_rerun_leaks_agent env ep model submit u ts_u ts_a (w : page1 F R) t s1 p ag r1 :
  cli_config env = Ok (ep, model) -> p1_tid w = Some t ->
  _memory_path_for_thread t (p1_fs w) = Ok (s1, p) ->
  create_agent model "my-mcp-agent" b1_instructions (p1_remote w) = Ok (ag, r1) ->
  submit = false \/ u = "" ->
  b1_script_run env submit u ts_u ts_a w =
    (Ok tt, mk_page1 (Some t) s1 r1
              (p1_out w ++ [P1Title "Azure AI Agent Chat";
                            P1Write "Ask a question and get a response from your Azure AI Agent (with MCP Tool)."])).
Proof.
  intros Hc Ht Hp Ha Hs. unfold b1_script_run, p1_emit, py_modify.
  rewrite !pyM_bind_run. cbv beta iota. rewrite Hc. cbv beta iota.
  rewrite pyM_bind_run, (b1_ensure_thread_old _ t s1 p) by done. cbv beta iota.
  unfold p1_on_remote at 1. rewrite pyM_bind_run. cbn [p1_remote]. rewrite Ha. cbv beta iota.
  cbn [p1_tid p1_fs p1_out]. rewrite Ht, <- app_assoc.
  destruct Hs as [-> | ->]; [done|]. by rewrite andb_false_r.
Qed.

(** C34. The first run of the first page, on a fresh session, creates a
    thread and stamps its journal with the thread id, keeping whatever
    messages the file held; whatever the user submits and whatever the
    service answers afterwards, at the end of the run the session holds
    the thread and the journal still carries its id and those messages
    first.  (The current page never stamps, C1.) *)
Theorem b1_first_run_stamps env ep model submit u ts_u ts_a (w : page1 F R) t r0 s1 j :
  cli_config env = Ok (ep, model) -> p1_tid w = None ->
  threads_create (p1_remote w) = Ok (t, r0) -> no_slash t = true ->
  fs_mkdir_p memory_dir_path (p1_fs w) = Ok s1 ->
  journal_view ["memory"; memory_file_name t] s1 = Some j ->
  fs_is_dir ["memory"; memory_file_name t] s1 = false ->
  b1_grows ["memory"; memory_file_name t] t (j_messages j) (b1_script_run env submit u ts_u ts_a w).2.
Proof.
  intros Hc Ht Htc Hns Hm Hv Hd. unfold b1_script_run, p1_emit, py_modify.
  rewrite !pyM_bind_run. cbv beta iota. rewrite Hc. cbv beta iota.
  rewrite pyM_bind_run, (b1_ensure_thread_new _ t r0 s1 j) by done. cbv beta iota.
  apply b1_chat_grows. split; [done|]. exists []. cbn [p1_fs].
  rewrite journal_view_dump, app_nil_r. by destruct j.
Qed.
End Page1Claims.

Module BackupScenarios.
Import CliScenarios.

Definition env1 : gmap string string :=
  {[ "PROJECT_ENDPOINT" := "https://example"; "MODEL_DEPLOYMENT_NAME" := "gpt-4o" ]}.

Definition pg0 : page1 raw_file scripted := mk_page1 None (mk_fs ∅ ∅) (scripted_init [Some ok_run]) [].

Definition t0 := res_default ("", p1_remote pg0) (threads_create (p1_remote pg0)).
Definition s1_0 := res_default (p1_fs pg0) (fs_mkdir_p memory_dir_path (p1_fs pg0)).
Definition j_0 := default empty_journal (journal_view ["memory"; memory_file_name t0.1] s1_0).

(** The first run, with the question ["Hello"]. *)
Definition pg1 := (b1_script_run env1 true "Hello" "T1" "T2" pg0).2.

Lemma b1_first_run_stamps_witness :
  b1_grows ["memory"; memory_file_name t0.1] t0.1 (j_messages j_0) pg1.
Proof.
  apply (b1_first_run_stamps env1 "https://example" "gpt-4o" true "Hello" "T1" "T2" pg0 t0.1 t0.2 s1_0 j_0);
    vm_compute; reflexivity.
Defined.

(** The journal of that run holds the thread id and the exchange. *)
Lemma first_run_journal :
  journal_view ["memory"; memory_file_name "thread_0"] (p1_fs pg1) =
    Some (mk_journal (Some "thread_0")
      [mk_entry "T1" "user" "Hello" (Some "msg_2"); mk_entry "T2" "assistant" "Hi there" (Some "msg_4")]).
Proof. vm_compute. reflexivity. Qed.

(** A rerun without pressing Send, then another. *)
Definition s_2 := res_default (p1_fs pg1, []) (_memory_path_for_thread "thread_0" (p1_fs pg1)).
Definition ag_r := res_default (mk_agent "" "", p1_remote pg1)
  (create_agent "gpt-4o" "my-mcp-agent" b1_instructions (p1_remote pg1)).
Definition pg2 := (b1_script_run env1 false "" "T3" "T4" pg1).2.
Definition pg3 := (b1_script_run env1 false "" "T5" "T6" pg2).2.

Lemma b1_rerun_leaks_agent_witness :
  b1_script_run env1 false "" "T3" "T4" pg1 =
    (Ok tt, mk_page1 (Some "thread_0") s_2.1 ag_r.2
              (p1_out pg1 ++ [P1Title "Azure AI Agent Chat";
                              P1Write "Ask a question and get a response from your Azure AI Agent (with MCP Tool)."])).
Proof.
  apply (b1_rerun_leaks_agent env1 "https://example" "gpt-4o" false "" "T3" "T4" pg1 "thread_0"
    s_2.1 s_2.2 ag_r.1 ag_r.2); try (vm_compute; reflexivity). by left.
Defined.

(** After the two idle reruns, their two agents are still registered. *)
Lemma idle_reruns_leave_agents : size (sc_agents (p1_remote pg3)) = 2.
Proof. vm_compute. reflexivity. Qed.
End BackupScenarios.
