(* ===== verification/SidebarPages.v ===== *)
(** * SidebarPages: the pages that draw their activity log in the sidebar

    The backup pages 2, 3 and 4 ([src/backup/streamlit_mcpclient2.py],
    [streamlit_mcpclient3.py], [streamlit_mcpclient4.py]) write their
    activity log straight into the sidebar
    ([st.session_state.activity_log = st.sidebar]) instead of keeping it
    in the session as the current page does.  This file holds what they
    share: the widgets they draw, their state ([st.session_state] with
    [messages], [selected_chat] and [thread_id], the files, the service and
    the widgets drawn so far), the statements over that state, and their
    identical [_print_latest_assistant] and [_log_run_steps].  It then
    models page 2, the first backup page with the sidebar added, and shows
    that it does what page 1 does, drawing apart (C37). *)

From S2P Require Import Prelude PyJson PyStr FileSystem Journal Remote Cli BackupPage.
Import Store.

(** The widgets; [SbExpander]/[SbExpanderEnd] bracket the [with] block of
    an expander, and the [st.columns(2)] layout inside it is not drawn. *)
Inductive sb_widget :=
  | SbHeader (text : string)
  | SbInfo (text : string)
  | SbSuccess (text : string)
  | SbWarning (text : string)
  | SbError (text : string)
  | SbSubheader (text : string)
  | SbExpander (label : string)
  | SbExpanderEnd
  | WTitle (text : string)
  | WWrite (text : string)
  | WStyle
  | WText (text : string)
  | WMarkdown (text : string)
  | WError (text : string)
  | WWarning (text : string)
  | WSuccess (text : string)
  | WSubheader (text : string)
  | WDivider
  | WChatMessage (role content : json)
  | WButton (label : string)
  | WSelectbox (options : list json) (index : nat)
  | WTextInput (label : string)
  | WChatInput (label : string)
  | WToast (text : string).

(** [st.session_state]: an absent ["messages"] is the empty list the
    scripts put there first; [sp_selected] and [sp_tid] are [None] when
    the key is absent. *)
Record spage (F R : Type) := mk_spage {
  sp_messages : list (json * json);
  sp_selected : option json;
  sp_tid : option json;
  sp_fs : fs F;
  sp_remote : R;
  sp_out : list sb_widget
}.
Arguments mk_spage {F R}.
Arguments sp_messages {F R}.
Arguments sp_selected {F R}.
Arguments sp_tid {F R}.
Arguments sp_fs {F R}.
Arguments sp_remote {F R}.
Arguments sp_out {F R}.

Section Statements.
Context {F R : Type} `{!JsonCodec F} `{!AgentsService R}.
Notation spM := (pyM (spage F R)).

Definition sp_emit (x : sb_widget) : spM unit :=
  py_modify (fun w => mk_spage (sp_messages w) (sp_selected w) (sp_tid w) (sp_fs w) (sp_remote w)
                        (sp_out w ++ [x])).

Definition sp_on_fs {A} (f : fs F -> res (fs F * A)) : spM A :=
  fun w => match f (sp_fs w) with
           | Ok (s', a) => (Ok a, mk_spage (sp_messages w) (sp_selected w) (sp_tid w) s' (sp_remote w) (sp_out w))
           | Raise e => (Raise e, w)
           end.

Definition sp_on_fs_ (f : fs F -> res (fs F)) : spM unit := sp_on_fs (fun s => s' ← f s; Ok (s', tt)).

Definition sp_on_remote {A} (f : R -> res (A * R)) : spM A :=
  fun w => match f (sp_remote w) with
           | Ok (a, r') => (Ok a, mk_spage (sp_messages w) (sp_selected w) (sp_tid w) (sp_fs w) r' (sp_out w))
           | Raise e => (Raise e, w)
           end.

Definition sp_on_remote_ (f : R -> res R) : spM unit := sp_on_remote (fun r => r' ← f r; Ok (tt, r')).

Definition sp_read_remote {A} (f : R -> res A) : spM A := fun w => (f (sp_remote w), w).

Definition sp_set_messages (ms : list (json * json)) : spM unit :=
  py_modify (fun w => mk_spage ms (sp_selected w) (sp_tid w) (sp_fs w) (sp_remote w) (sp_out w)).

(** [st.session_state.messages.append({"role": role, "content": content})] *)
Definition sp_add_message (role content : string) : spM unit :=
  py_modify (fun w => mk_spage (sp_messages w ++ [(JStr role, JStr content)]) (sp_selected w) (sp_tid w)
                        (sp_fs w) (sp_remote w) (sp_out w)).

Definition sp_set_selected (x : option json) : spM unit :=
  py_modify (fun w => mk_spage (sp_messages w) x (sp_tid w) (sp_fs w) (sp_remote w) (sp_out w)).

Definition sp_set_tid (t : option json) : spM unit :=
  py_modify (fun w => mk_spage (sp_messages w) (sp_selected w) t (sp_fs w) (sp_remote w) (sp_out w)).

(** [_print_latest_assistant] of the pages 2 to 4. *)
Definition sb_print_latest_assistant (thread_id : string) : spM string :=
  sp_emit (SbInfo "...Retrieving assistant's response.");;
  msgs ← sp_read_remote (messages_list_desc thread_id);
  match latest_assistant_text msgs with
  | Some t => sp_emit (SbSuccess "✅ Response received.");; mret t
  | None => sp_emit (SbWarning "⚠️ No assistant response found.");; mret ""
  end.

(** One tool call in the expander: [call.get('id', 'N/A')] and so on. *)
Definition sb_call (call : json) : spM unit :=
  i ← py_lift (py_get_or call "id" (JStr "N/A")); sp_emit (WText ("ID: " +:+ py_fstr i));;
  t ← py_lift (py_get_or call "type" (JStr "N/A")); sp_emit (WText ("Type: " +:+ py_fstr t));;
  n ← py_lift (py_get_or call "name" (JStr "N/A")); sp_emit (WText ("Name: " +:+ py_fstr n)).

Definition sb_step (step : run_step) : spM unit :=
  sp_emit (WWrite ("**Step ID:** `" +:+ step_id step +:+ "`"));;
  tool_calls ← py_lift (py_get_or (step_details step) "tool_calls" (JList []));
  if py_truthy tool_calls then
    sp_emit (WWrite "**MCP Tool Calls:**");;
    it ← py_lift (py_iter tool_calls);
    py_for sb_call it
  else mret tt.

(** [_log_run_steps]: the expander closes also when a step raises. *)
Definition sb_log_run_steps (thread_id run_id : string) : spM unit :=
  sp_emit (SbSubheader "Run Steps & Tool Calls");;
  run_steps ← sp_read_remote (run_steps_list thread_id run_id);
  py_finally (sp_emit (SbExpander "Show Details");; py_for sb_step run_steps) (sp_emit SbExpanderEnd).
End Statements.

(** ** Page 2 ([streamlit_mcpclient2.py]) *)

Definition b2_instructions : string :=
  "You are a helpful AI Agent for Tony, specializing in Microsoft documentation." +:+ nl +:+
  "Your **primary directive** is to use the `mslearn` MCP tool to answer any questions related to Microsoft products, services, technologies, or documentation." +:+ nl +:+
  "You **must not** answer these questions from your own pre-existing knowledge unless you check the MCP tool first and no answer is available. Always prioritize fetching the most current information from the MCP tool." +:+ nl +:+
  "When the MCP tool is used, your response **must** begin with 'Hello Tony, I am using the MCP to fetch this information.'".

Section Page2.
Context {F R : Type} `{!JsonCodec F} `{!AgentsService R}.
Notation spM := (pyM (spage F R)).

(** [st.session_state["thread_id"]], as the string the calls receive. *)
Definition b2_thread_id : spM string := py_gets (fun w => default "" (py_fstr <$> sp_tid w)).

(** Lines 132-144: the journal path, with a new thread and its stamped
    journal the first time. *)
Definition b2_ensure_thread : spM path :=
  cur ← py_gets sp_tid;
  match cur with
  | None =>
      sp_emit (SbInfo "No thread found. Creating a new thread...");;
      thread ← sp_on_remote threads_create;
      sp_set_tid (Some (JStr thread));;
      sp_emit (SbSuccess ("✅ New thread created: `" +:+ thread +:+ "`"));;
      mem_path ← sp_on_fs (_memory_path_for_thread thread);
      sp_on_fs_ (stamp_thread_id mem_path (JStr thread));;
      mret mem_path
  | Some t =>
      mem_path ← sp_on_fs (_memory_path_for_thread (py_fstr t));
      sp_emit (SbInfo ("Using existing thread: `" +:+ py_fstr t +:+ "`"));;
      mret mem_path
  end.

(** Lines 165-210, the [if submit and user_input:] block. *)
Definition b2_turn (mem_path : path) (ag : agent) (user_input ts_u ts_a : string) : spM unit :=
  sp_emit (SbInfo "➡️ Sending user message to thread...");;
  thread_id ← b2_thread_id;
  user_msg ← sp_on_remote (messages_create thread_id "user" user_input);
  sp_on_fs_ (_append_memory_untrimmed mem_path "user" user_input (Some user_msg) ts_u);;
  sp_emit (SbSuccess "✅ Message sent.");;
  sp_emit (SbInfo "🏃‍♂️ Starting run with agent...");;
  thread_id ← b2_thread_id;
  rn ← sp_on_remote (runs_create_and_process thread_id (agent_id ag));
  (if String.eqb (run_status rn) "failed" then
     sp_emit (WError ("Run failed: " +:+ run_last_error rn));;
     sp_emit (SbError ("❌ Run `" +:+ run_id rn +:+ "` failed."))
   else sp_emit (SbSuccess ("✅ Run `" +:+ run_id rn +:+ "` completed with status: **" +:+ run_status rn +:+ "**")));;
  thread_id ← b2_thread_id;
  sb_log_run_steps thread_id (run_id rn);;
  thread_id ← b2_thread_id;
  assistant_text ← sb_print_latest_assistant thread_id;
  (if String.eqb assistant_text "" then mret tt
   else
     sp_emit (WSuccess ("**Agent Response:**" +:+ nl +:+ nl +:+ assistant_text));;
     thread_id ← b2_thread_id;
     msgs ← sp_read_remote (messages_list_desc thread_id);
     sp_on_fs_ (_append_memory_untrimmed mem_path "assistant" assistant_text (first_assistant_id msgs) ts_a));;
  sp_emit (SbInfo ("🗑️ Deleting agent `" +:+ agent_id ag +:+ "`..."));;
  py_try (sp_on_remote_ (delete_agent (agent_id ag));; sp_emit (SbSuccess "✅ Agent deleted."))
         (fun e => sp_emit (WWarning ("Could not delete agent: " +:+ exn_text e));;
                   sp_emit (SbWarning ("⚠️ Could not delete agent: " +:+ exn_text e))).

(** One run of the script (lines 86-210). *)
Definition b2_script_run (env : gmap string string) (submit : bool) (user_input ts_u ts_a : string)
    : spM unit :=
  sp_emit (WTitle "Azure AI Agent Chat 🤖");;
  sp_emit (WWrite "Ask a question and get a response from your Azure AI Agent (with MCP Tool).");;
  sp_emit WStyle;;
  sp_emit (SbHeader "Agent Activity Log 📜");;
  match cli_config env with
  | Raise _ => sp_emit (WError "PROJECT_ENDPOINT and MODEL_DEPLOYMENT_NAME must be set in your .env file.")
  | Ok (_, model) =>
      mem_path ← b2_ensure_thread;
      sp_emit (SbInfo "Creating agent for this session...");;
      ag ← sp_on_remote (create_agent model "my-mcp-agent" b2_instructions);
      sp_emit (SbSuccess ("✅ Agent created: `" +:+ agent_name ag +:+ "` (`" +:+ agent_id ag +:+ "`)"));;
      sp_emit (WTextInput "Ask your question:");;
      sp_emit (WButton "Send");;
      if submit && negb (String.eqb user_input "") then b2_turn mem_path ag user_input ts_u ts_a
      else mret tt
  end.
End Page2.

(** ** What a page does besides drawing *)

Section Silent.
Context {F R : Type} `{!JsonCodec F} `{!AgentsService R}.

(** The parts of the states that drawing leaves alone. *)
Definition p1_core (w : page1 F R) := (p1_tid w, p1_fs w, p1_remote w).
Definition sp_core (w : spage F R) := (sp_messages w, sp_selected w, sp_tid w, sp_fs w, sp_remote w).

(** A statement that only draws. *)
Definition p1_silent (m : pyM (page1 F R) unit) : Prop :=
  forall w, (m w).1 = Ok tt /\ p1_core (m w).2 = p1_core w.
Definition sp_silent (m : pyM (spage F R) unit) : Prop :=
  forall w, (m w).1 = Ok tt /\ sp_core (m w).2 = sp_core w.

Lemma p1_silent_emit x : p1_silent (p1_emit x).
Proof. by intros w. Qed.

Lemma sp_silent_emit x : sp_silent (sp_emit x).
Proof. by intros w. Qed.

Lemma p1_silent_ret : p1_silent (mret tt).
Proof. by intros w. Qed.

Lemma sp_silent_ret : sp_silent (mret tt).
Proof. by intros w. Qed.

Lemma p1_silent_seq m k : p1_silent m -> p1_silent k -> p1_silent (m;; k).
Proof.
  intros Hm Hk w. rewrite pyM_bind_run. destruct (Hm w) as [H1 H2]. destruct (m w) as [r w1].
  cbn in *. subst r. destruct (Hk w1) as [H3 H4]. split; [done|]. by rewrite H4.
Qed.

Lemma sp_silent_seq m k : sp_silent m -> sp_silent k -> sp_silent (m;; k).
Proof.
  intros Hm Hk w. rewrite pyM_bind_run. destruct (Hm w) as [H1 H2]. destruct (m w) as [r w1].
  cbn in *. subst r. destruct (Hk w1) as [H3 H4]. split; [done|]. by rewrite H4.
Qed.

(** The drawing of a tool call raises as [page 1]'s lines of it do: on a
    call that is not a dict. *)
Lemma sb_call_lines call w :
  (sb_call call w).1 = res_unit (b1_call_lines call) /\ sp_core (sb_call call w).2 = sp_core w.
Proof. by destruct call. Qed.

Lemma sb_step_lines st w :
  (sb_step st w).1 = res_unit (b1_step_lines st) /\ sp_core (sb_step st w).2 = sp_core w.
Proof.
  unfold sb_step, b1_step_lines, sp_emit. py_unfold.
  destruct (py_get_or (step_details st) "tool_calls" (JList [])) as [tc|e]; cbn; [|done].
  destruct (py_truthy tc); cbn; [|done]. destruct (py_iter tc) as [it|e]; cbn; [|done].
  lazymatch goal with
  | |- context [py_for sb_call it ?w] =>
      destruct (py_for_mapM sp_core sb_call b1_call_lines it sb_call_lines w) as [H1 H2]
  end.
  rewrite H1, H2. split; [|done]. by destruct (res_mapM b1_call_lines it).
Qed.
End Silent.

#[export] Hint Resolve p1_silent_emit sp_silent_emit p1_silent_ret sp_silent_ret
  p1_silent_seq sp_silent_seq : uwepd.

(** ** Page 2 does what page 1 does *)

Section Page12.
Context {F R : Type} `{!JsonCodec F} `{!AgentsService R}.

(** Page 1 keeps the thread id as a string, page 2 as the JSON string;
    inside a turn, [ot] is the id the turn was started with. *)
Definition rel12 (ot : option string) (w1 : page1 F R) (w2 : spage F R) : Prop :=
  sp_tid w2 = JStr <$> p1_tid w1 /\ sp_fs w2 = p1_fs w1 /\ sp_remote w2 = p1_remote w1 /\
  from_option (fun t => default "" (p1_tid w1) = t) True ot.

Lemma p1_silent_quiet ot m : p1_silent m -> quiet_l (rel12 ot) m.
Proof.
  intros Hm w1 w2 H. destruct (Hm w1) as [Hr Hc]. split; [done|].
  unfold p1_core in Hc. injection Hc as E1 E2 E3. unfold rel12. by rewrite E1, E2, E3.
Qed.

Lemma sp_silent_quiet ot m : sp_silent m -> quiet_r (rel12 ot) m.
Proof.
  intros Hm w1 w2 H. destruct (Hm w2) as [Hr Hc]. split; [done|].
  unfold sp_core in Hc. injection Hc as _ _ E1 E2 E3. unfold rel12. by rewrite E1, E2, E3.
Qed.

Lemma sim12_on_fs ot {A} (f : fs F -> res (fs F * A)) : pyM_sim (rel12 ot) (p1_on_fs f) (sp_on_fs f).
Proof.
  intros w1 w2 (Ht & Hf & Hr & Ho). unfold p1_on_fs, sp_on_fs. rewrite Hf.
  by destruct (f (p1_fs w1)) as [[s' a]|e].
Qed.

Lemma sim12_on_fs_ ot (f : fs F -> res (fs F)) : pyM_sim (rel12 ot) (p1_on_fs_ f) (sp_on_fs_ f).
Proof. apply sim12_on_fs. Qed.

Lemma sim12_on_remote ot {A} (f : R -> res (A * R)) : pyM_sim (rel12 ot) (p1_on_remote f) (sp_on_remote f).
Proof.
  intros w1 w2 (Ht & Hf & Hr & Ho). unfold p1_on_remote, sp_on_remote. rewrite Hr.
  by destruct (f (p1_remote w1)) as [[a r']|e].
Qed.

Lemma sim12_on_remote_ ot (f : R -> res R) : pyM_sim (rel12 ot) (p1_on_remote_ f) (sp_on_remote_ f).
Proof. apply sim12_on_remote. Qed.

(** Two agent creations that differ in the instruction text only. *)
Lemma sim12_create_agent ot m n i i' :
  (forall r, create_agent m n i r = create_agent m n i' r) ->
  pyM_sim (rel12 ot) (p1_on_remote (create_agent m n i)) (sp_on_remote (create_agent m n i')).
Proof.
  intros Hi w1 w2 (Ht & Hf & Hr & Ho). unfold p1_on_remote, sp_on_remote. rewrite Hr, Hi.
  by destruct (create_agent m n i' (p1_remote w1)) as [[a r']|e].
Qed.

Lemma sim12_read_remote ot {A} (f : R -> res A) : pyM_sim (rel12 ot) (p1_read_remote f) (sp_read_remote f).
Proof. intros w1 w2 (Ht & Hf & Hr & Ho). cbn. by rewrite Hr. Qed.

(** Inside a turn, each [st.session_state["thread_id"]] of page 2 reads
    the id page 1 read once. *)
Lemma sim12_thread_id t {B} (k1 : pyM (page1 F R) B) (k2 : string -> pyM (spage F R) B) :
  pyM_sim (rel12 (Some t)) k1 (k2 t) -> pyM_sim (rel12 (Some t)) k1 (x ← b2_thread_id; k2 x).
Proof.
  apply sim_gets_r. intros w1 w2 (Ht & _ & _ & Ho). cbn in Ho. rewrite Ht, <- Ho.
  by destruct (p1_tid w1).
Qed.

Lemma sim12_log_run_steps ot t rid w1 w2 :
  rel12 ot w1 w2 ->
  res_unit (b1_log_run_steps t rid w1).1 = (sb_log_run_steps t rid w2).1 /\
  rel12 ot (b1_log_run_steps t rid w1).2 (sb_log_run_steps t rid w2).2.
Proof.
  intros H. pose proof H as (Ht & Hf & Hr & Ho).
  unfold b1_log_run_steps, sb_log_run_steps, p1_read_remote, sp_read_remote, py_finally, sp_emit.
  py_unfold. cbn. rewrite Hr. destruct (run_steps_list t rid (p1_remote w1)) as [steps|e]; cbn; [|done].
  lazymatch goal with
  | |- context [py_for sb_step steps ?w] =>
      destruct (py_for_mapM sp_core sb_step b1_step_lines steps sb_step_lines w) as [H1 H2];
      destruct (py_for sb_step steps w) as [r w'] eqn:E
  end.
  cbn in H1, H2 |- *. subst r. unfold sp_core in H2. injection H2 as _ _ -> -> ->.
  destruct (res_mapM b1_step_lines steps); cbn; done.
Qed.

Lemma sim12_print ot t : pyM_sim (rel12 ot) (b1_print_latest_assistant t) (sb_print_latest_assistant t).
Proof.
  intros w1 w2 H. pose proof H as (Ht & Hf & Hr & Ho).
  unfold b1_print_latest_assistant, sb_print_latest_assistant, p1_read_remote, sp_read_remote, sp_emit.
  py_unfold. cbn. rewrite Hr. destruct (messages_list_desc t (p1_remote w1)) as [msgs|e]; cbn; [|done].
  by destruct (latest_assistant_text msgs).
Qed.

Lemma sim12_ensure : pyM_sim (rel12 None) b1_ensure_thread b2_ensure_thread.
Proof.
  intros [t1 s1 r1 o1] [m2 sel2 t2 s2 r2 o2] (Ht & Hf & Hr & _). cbn in Ht, Hf, Hr. subst.
  unfold b1_ensure_thread, b2_ensure_thread, p1_on_remote, sp_on_remote, p1_on_fs_, p1_on_fs,
    sp_on_fs_, sp_on_fs, p1_set_tid, sp_set_tid, sp_emit. py_unfold.
  destruct t1 as [t|]; cbn.
  - by destruct (_memory_path_for_thread t s1) as [[s p]|e].
  - destruct (threads_create r1) as [[t r']|e]; cbn; [|done].
    destruct (_memory_path_for_thread t s1) as [[s p]|e]; cbn; [|done].
    by destruct (stamp_thread_id p (JStr t) s) as [s'|e].
Qed.
End Page12.

#[export] Hint Resolve p1_silent_quiet sp_silent_quiet sim12_on_fs sim12_on_fs_ sim12_on_remote
  sim12_on_remote_ sim12_read_remote sim12_print : uwepd.

Section Page12Turn.
Context {F R : Type} `{!JsonCodec F} `{!AgentsService R}.

Lemma rel12_forget t (w1 : page1 F R) (w2 : spage F R) : rel12 (Some t) w1 w2 -> rel12 None w1 w2.
Proof. by intros (Ht & Hf & Hr & _). Qed.

Lemma sim12_turn t p ag u ts_u ts_a :
  pyM_sim (rel12 (Some t)) (b1_turn (F:=F) (R:=R) t p ag u ts_u ts_a) (b2_turn p ag u ts_u ts_a).
Proof.
  unfold b1_turn, b2_turn.
  sim_auto_with
    ltac:(first [ apply sim12_thread_id; cbv beta
                | apply sim_bind_discard;
                    [intros ???; by apply sim12_log_run_steps | intros ?; case_match; eauto with uwepd | ] ])
    ltac:(apply sim_quiet; eauto with uwepd).
Qed.
End Page12Turn.

Section Page12Claims.
Context {F R : Type} `{!JsonCodec F} `{!AgentsService R}.

Lemma sim12_turn_entry p ag u ts_u ts_a :
  pyM_sim (rel12 None)
    (thread_id ← py_gets (fun w : page1 F R => default "" (p1_tid w)); b1_turn thread_id p ag u ts_u ts_a)
    (b2_turn p ag u ts_u ts_a).
Proof.
  intros w1 w2 H. rewrite pyM_bind_run. cbn [py_gets fst snd].
  destruct H as (Ht & Hf & Hr & _).
  destruct (sim12_turn (default "" (p1_tid w1)) p ag u ts_u ts_a w1 w2) as [H1 H2]; [done|].
  split; [done|]. by apply rel12_forget in H2.
Qed.

(** C37. Page 2 is page 1 with the activity log drawn in the sidebar, up
    to the agent's instructions.  The two pages pass different instruction
    texts to [create_agent] ([b1_instructions], [b2_instructions]); the
    theorem assumes a service whose [create_agent] result does not depend
    on that text (the hypothesis below, which the scripted service meets)
    and says nothing about a service whose agents behave according to it.
    Under that assumption one run of page 2's script returns or raises as
    page 1's does and leaves the same session thread, files and service,
    from any pair of states that agree on those. *)
Theorem page2_refines_page1 env submit u ts_u ts_a :
  (forall m n i i' r, create_agent m n i r = create_agent m n i' r) ->
  pyM_sim (rel12 None) (b1_script_run (F:=F) (R:=R) env submit u ts_u ts_a) (b2_script_run env submit u ts_u ts_a).
Proof.
  intros Hi. unfold b1_script_run, b2_script_run.
  sim_auto_with
    ltac:(first [ apply sim12_ensure
                | apply sim12_turn_entry
                | apply sim12_create_agent; intros; apply Hi ])
    ltac:(apply sim_quiet; eauto with uwepd).
Qed.
End Page12Claims.

Module Page2Scenarios.
Import CliScenarios BackupScenarios.

Definition sp0 : spage raw_file scripted :=
  mk_spage [] None None (mk_fs ∅ ∅) (scripted_init [Some ok_run]) [].

(** The first run of both pages on a fresh session, with the question
    ["Hello"]: same outcome, same thread, files and service. *)
Lemma page2_refines_page1_witness :
  (b1_script_run env1 true "Hello" "T1" "T2" pg0).1 = (b2_script_run env1 true "Hello" "T1" "T2" sp0).1 /\
  rel12 None (b1_script_run env1 true "Hello" "T1" "T2" pg0).2 (b2_script_run env1 true "Hello" "T1" "T2" sp0).2.
Proof.
  apply (page2_refines_page1 env1 true "Hello" "T1" "T2"); [intros; reflexivity|].
  repeat split.
Defined.

(** Page 2 draws the tool call of that run in the sidebar. *)
Lemma page2_draws_tool_call :
  WText "Name: microsoft_docs_search" ∈ sp_out (b2_script_run env1 true "Hello" "T1" "T2" sp0).2.
Proof. apply list_elem_of_In. vm_compute. repeat first [left; reflexivity | right]. Qed.
End Page2Scenarios.
