(* ===== verification/AppTurn.v ===== *)
(** * AppTurn: one chat turn of the Streamlit app, and the app as a state machine

    The [if prompt := st.chat_input(...)] block of
    [streamlit_mcpclientapp.py]: reset the activity log, show the prompt,
    create a remote thread when the session has none, create an agent,
    post the prompt and journal it, run the agent, and on a run that did
    not fail log its steps, fetch the latest assistant reply, show and
    journal it; finally delete the agent, warning if that fails.  With
    [_print_latest_assistant] and [_log_run_steps].

    [app_step] is one user action (a prompt, or a history-column event of
    [Session]); [reachable] closes a world under actions.  The invariant
    theorem shows that no action ever writes a thread id into a journal,
    so the app lists none of the conversations it creates. *)

From S2P Require Import Prelude PyJson FileSystem Journal Directory Session Remote.
Import Store.

(** The instructions string of [create_agent]. *)
Definition agent_instructions : string :=
  "You are a helpful AI Agent for Tony, specializing in Microsoft documentation.
Your **primary directive** is to use the `mslearn` MCP tool to answer any questions related to Microsoft products, services, technologies, or documentation.
You **must not** answer these questions from your own pre-existing knowledge. Always prioritize fetching the most current information from the MCP tool.
When the MCP tool is used, your response **must** begin with 'Hello Tony, I am using the MCP to fetch this information.'".

(** [{"id": call.get('id', 'N/A'), "type": ..., "name": ...}]. *)
Definition tool_call_details (call : json) : res json :=
  i ← py_get_or call "id" (JStr "N/A");
  ty ← py_get_or call "type" (JStr "N/A");
  nm ← py_get_or call "name" (JStr "N/A");
  Ok (JDict [("id", i); ("type", ty); ("name", nm)]).

(** The details of one step: its id and its tool calls, if any. *)
Definition step_log (step : run_step) : res json :=
  tool_calls ← py_get_or (step_details step) "tool_calls" (JList []);
  calls ← (if py_truthy tool_calls
           then it ← py_iter tool_calls; res_mapM tool_call_details it
           else Ok []);
  Ok (JDict [("id", JStr (step_id step)); ("tool_calls", JList calls)]).

Section Turn.
Context {F R : Type} `{!JsonCodec F} `{!AgentsService R}.
Notation app := (pyM (world F R)).

Definition on_remote {A} (f : R -> res (A * R)) : app A :=
  fun w => match f (w_remote w) with
           | Ok (a, r') => (Ok a, mk_world (w_ss w) (w_fs w) r' (w_ui w))
           | Raise e => (Raise e, w)
           end.

Definition on_remote_ (f : R -> res R) : app unit :=
  on_remote (fun r => r' ← f r; Ok (tt, r')).

Definition read_remote {A} (f : R -> res A) : app A := fun w => (f (w_remote w), w).

Definition log (kind : string) (c : log_content) : app unit :=
  modify_ss (fun ss => set_log (ss_log ss ++ [(kind, c)]) ss).

Definition show_message (role content : string) : app unit :=
  modify_ss (fun ss => set_messages (ss_messages ss ++ [(JStr role, JStr content)]) ss).

(** [_print_latest_assistant]. *)
Definition _print_latest_assistant (thread_id : string) : app string :=
  log "info" (LText "...Retrieving assistant's response.");;
  msgs ← read_remote (messages_list_desc thread_id);
  match latest_assistant_text msgs with
  | Some t => log "success" (LText "✅ Response received.");; mret t
  | None => log "warning" (LText "⚠️ No assistant response found.");; mret ""
  end.

(** [_log_run_steps]. *)
Definition _log_run_steps (thread_id run_id : string) : app unit :=
  log "subheader" (LText "Run Steps & Tool Calls");;
  steps ← read_remote (run_steps_list thread_id run_id);
  details ← py_lift (res_mapM step_log steps);
  log "run_steps" (LRunSteps (JList details)).

(** The part of the turn after the run, when it did not fail. *)
Definition after_run (mem_path : path) (thread_id : string) (rn : run) (ts : string) : app unit :=
  log "success" (LText ("✅ Run `" +:+ run_id rn +:+ "`: **" +:+ run_status rn +:+ "**"));;
  _log_run_steps thread_id (run_id rn);;
  assistant_text ← _print_latest_assistant thread_id;
  show_message "assistant" assistant_text;;
  msgs ← read_remote (messages_list_desc thread_id);
  on_fs_ (_append_memory mem_path "assistant" assistant_text (first_assistant_id msgs) ts).

(** The chat-input block; [model] is [MODEL_DEPLOYMENT_NAME], [ts_user]
    and [ts_asst] the clock at the two appends. *)
Definition app_turn (model prompt ts_user ts_asst : string) : app unit :=
  modify_ss (set_log []);;
  show_message "user" prompt;;
  cur ← py_gets (fun w => ss_thread_id (w_ss w));
  (match cur with
   | None =>
       log "info" (LText "Creating a new thread...");;
       tid ← on_remote threads_create;
       modify_ss (set_thread (Some (JStr tid)));;
       log "success" (LText ("✅ New thread: `" +:+ tid +:+ "`"))
   | Some _ => mret tt
   end);;
  tid_obj ← py_gets (fun w => default JNull (ss_thread_id (w_ss w)));
  thread_id ← py_lift (py_str tid_obj);
  mem_path ← on_fs (_memory_path_for_thread thread_id);
  log "info" (LText "Creating agent...");;
  ag ← on_remote (create_agent model "my-mcp-agent" agent_instructions);
  log "success" (LText ("✅ Agent created: `" +:+ agent_name ag +:+ "`"));;
  log "info" (LText "➡️ Sending message...");;
  user_msg_id ← on_remote (messages_create thread_id "user" prompt);
  on_fs_ (_append_memory mem_path "user" prompt (Some user_msg_id) ts_user);;
  log "success" (LText "✅ Message sent.");;
  log "info" (LText "🏃‍♂️ Starting run...");;
  rn ← on_remote (runs_create_and_process thread_id (agent_id ag));
  (if String.eqb (run_status rn) "failed" then
     show (UiError ("Run failed: " +:+ run_last_error rn));;
     log "error" (LText ("❌ Run `" +:+ run_id rn +:+ "` failed."))
   else after_run mem_path thread_id rn ts_asst);;
  log "info" (LText ("🗑️ Deleting agent `" +:+ agent_id ag +:+ "`..."));;
  py_try (on_remote_ (delete_agent (agent_id ag));; log "success" (LText "✅ Agent deleted."))
         (fun e => show (UiWarningExn "Could not delete agent: " e);;
                   log "warning" (LTextExn "⚠️ Could not delete agent: " e)).

(** One user action on the page.  [st.chat_input] yields nothing for an
    empty submission, so an empty prompt does nothing. *)
Inductive app_event :=
  | History (ev : history_event)
  | Prompt (prompt ts_user ts_asst : string).

Definition app_step (model : string) (ev : app_event) : app unit :=
  match ev with
  | History h => history_step h
  | Prompt p t1 t2 => if String.eqb p "" then mret tt else app_turn model p t1 t2
  end.

(** Worlds reachable by user actions; an action that raises still leaves
    its mutations (Streamlit shows the traceback and keeps the state). *)
Inductive reachable (model : string) (w0 : world F R) : world F R -> Prop :=
  | reach_init : reachable model w0 w0
  | reach_step w ev r w' :
      reachable model w0 w -> app_step model ev w = (r, w') -> reachable model w0 w'.
End Turn.

(** Symbolic execution of a turn: [wstep] reduces the world plumbing,
    [turn_to_run] runs a turn up to the run call from the hypotheses on
    the session, the files and the service. *)
Ltac wstep :=
  cbn [set_log set_messages set_thread ss_thread_id ss_messages ss_log ss_selected_chat
       w_fs w_ss w_remote w_ui py_str default from_option id mret pyM_ret res_bind mbind py_modify].

Ltac turn_to_append w Ht Hns Hm Ha Hmc :=
  unfold app_turn, after_run, _log_run_steps, _print_latest_assistant, show_message, log,
    on_remote_, on_remote, read_remote;
  destruct w as [[? ? ? cur] ? ? ?]; cbn in Ht, Hm, Ha |- *; subst cur;
  run_app; unfold mret, pyM_ret; wstep;
  rewrite (memory_path_eq _ _ _ Hns Hm); wstep; rewrite Ha; wstep; rewrite Hmc; wstep.

Ltac turn_to_run w Ht Hns Hm Hv Hd Ha Hmc j :=
  let Hpd := fresh "Hpd" in
  pose proof (memory_dir_is_dir _ _ Hm) as Hpd;
  turn_to_append w Ht Hns Hm Ha Hmc;
  rewrite (append_memory_put _ _ _ _ _ _ j) by done; wstep.

(** ** No action of the app writes a thread id *)

Section StoreInv.
Context {F R : Type} `{!JsonCodec F} `{!AgentsService R}.
Context (P : fs F -> Prop).
Notation app := (pyM (world F R)).
Notation I := (fun w : world F R => P (w_fs w)).

Lemma on_fs_preserves {A} (f : fs F -> res (fs F * A)) :
  (forall s s' a, P s -> f s = Ok (s', a) -> P s') -> pyM_preserves I (on_fs f).
Proof.
  intros Hf w Hw. unfold on_fs. destruct (f (w_fs w)) as [[s' a]|] eqn:E; [|done]. by eapply Hf.
Qed.

Lemma on_fs__preserves (f : fs F -> res (fs F)) :
  (forall s s', P s -> f s = Ok s' -> P s') -> pyM_preserves I (on_fs_ f).
Proof. intros Hf. apply on_fs_preserves. intros s s' [] Hs (s1 & E & [= <-])%bind_eq_Ok. eauto. Qed.

Lemma modify_ss_preserves f : pyM_preserves I (modify_ss f).
Proof. by intros w. Qed.

Lemma show_preserves m : pyM_preserves I (show m).
Proof. by intros w. Qed.

Lemma log_preserves k c : pyM_preserves I (log k c).
Proof. by intros w. Qed.

Lemma show_message_preserves r c : pyM_preserves I (show_message r c).
Proof. by intros w. Qed.

Lemma read_fs_preserves {A} (f : fs F -> A) : pyM_preserves I (read_fs f).
Proof. by intros w. Qed.

Lemma read_remote_preserves {A} (f : R -> res A) : pyM_preserves I (read_remote f).
Proof. by intros w. Qed.

Lemma on_remote_preserves {A} (f : R -> res (A * R)) : pyM_preserves I (on_remote f).
Proof. intros w Hw. unfold on_remote. by destruct (f _) as [[]|]. Qed.

Lemma on_remote__preserves (f : R -> res R) : pyM_preserves I (on_remote_ f).
Proof. apply on_remote_preserves. Qed.

(** A property of the files that every action keeps holds in every
    reachable world. *)
Lemma reachable_preserves model w0 w :
  (forall ev, pyM_preserves I (app_step model ev)) -> P (w_fs w0) -> reachable model w0 w -> P (w_fs w).
Proof.
  intros Hstep H0 Hr. induction Hr as [|w ev r w' _ IH Hs]; [done|].
  replace w' with (app_step model ev w).2 by (by rewrite Hs). by apply Hstep.
Qed.
End StoreInv.

Lemma get_all_threads_keeps {F} `{!JsonCodec F} (s s' : fs F) d :
  unstamped s -> get_all_threads s = Ok (s', d) -> unstamped s'.
Proof. intros Hu Hg. by eapply unstamped_files, Hu; rewrite (get_all_threads_files _ _ _ Hg). Qed.

Lemma get_all_threads_typed {F} `{!JsonCodec F} (s s' : fs F) d :
  journals_typed s -> get_all_threads s = Ok (s', d) -> journals_typed s'.
Proof. intros Hu Hg. by eapply typed_files, Hu; rewrite (get_all_threads_files _ _ _ Hg). Qed.

#[export] Hint Resolve on_fs_preserves on_fs__preserves modify_ss_preserves show_preserves
  log_preserves show_message_preserves read_fs_preserves read_remote_preserves
  on_remote_preserves on_remote__preserves : uwepd.
#[export] Hint Resolve memory_path_unstamped append_memory_with_unstamped
  unlink_memory_unstamped get_all_threads_keeps : uwepd.
#[export] Hint Resolve memory_path_typed append_memory_typed unlink_memory_typed get_all_threads_typed : uwepd.

Section StoreSteps.
Context {F R : Type} `{!JsonCodec F} `{!AgentsService R}.
Context (P : fs F -> Prop).
Context (HP_path : forall t s s' q, P s -> _memory_path_for_thread t s = Ok (s', q) -> P s').
Context (HP_append : forall p role text mid ts s s', P s -> _append_memory p role text mid ts s = Ok s' -> P s').
Context (HP_unlink : forall p s s', P s -> unlink_memory p s = Ok s' -> P s').
Context (HP_list : forall s s' d, P s -> get_all_threads s = Ok (s', d) -> P s').

(** Every page action keeps a property of the files that the journal
    path, the append, the unlink and the listing keep. *)
Lemma app_step_preserves model ev : pyM_preserves (fun w : world F R => P (w_fs w)) (app_step model ev).
Proof.
  destruct ev as [h|p t1 t2]; [destruct h|];
    unfold app_step, history_step, handle_chat_selection, delete_selected_chat_callback,
      set_active_thread, delete_thread, start_new_chat, app_turn, after_run, _log_run_steps,
      _print_latest_assistant; preserves_auto idtac.
Qed.
End StoreSteps.

Section UnstampedSteps.
Context {F R : Type} `{!JsonCodec F} `{!AgentsService R}.

Lemma reachable_unstamped model w0 w :
  unstamped (w_fs w0) -> reachable model w0 w -> unstamped (w_fs w).
Proof.
  apply reachable_preserves. intros ev. apply app_step_preserves; eauto with uwepd.
Qed.

Lemma reachable_step model w0 w ev :
  reachable model w0 w -> reachable model w0 (app_step model ev w).2.
Proof. intros Hr. eapply reach_step; [exact Hr|]. apply surjective_pairing. Qed.
End UnstampedSteps.

Section AppClaims.
Context {F R : Type} `{!JsonCodec F} `{!AgentsService R}.

(** C1. The history column stays empty: starting from files that hold no
    journal with a thread id (a fresh install, for one), no sequence of
    chats, selections, deletions and new-chat clicks ever writes a thread
    id into a journal, because the app's turn only calls [_append_memory]
    and nothing sets ["thread_id"]; so [get_all_threads] lists nothing in
    every reachable world, although the app saves every conversation. *)
Theorem app_history_always_empty model (w0 w : world F R) s' d :
  unstamped (w_fs w0) -> reachable model w0 w -> get_all_threads (w_fs w) = Ok (s', d) -> d = [].
Proof.
  intros H0 Hr Hg. by destruct (get_all_threads_unstamped _ _ _ (reachable_unstamped _ _ _ H0 Hr) Hg).
Qed.

(** C3. A turn whose run completes (any status but ["failed"]), in a
    session with an active thread: the prompt and then the latest
    assistant text (or [""]) are appended to the thread's journal, each
    append trimming to the last 20 entries, the reply carrying the id of
    the newest assistant message; both are shown; and the turn returns
    normally whether or not the agent deletion succeeds. *)
Theorem app_turn_completed model prompt ts_u ts_a (w : world F R) tid s1 j ag r1 mid r2 rn r3
    steps details msgs :
  ss_thread_id (w_ss w) = Some (JStr tid) -> no_slash tid = true ->
  fs_mkdir_p memory_dir_path (w_fs w) = Ok s1 ->
  journal_view ["memory"; memory_file_name tid] s1 = Some j ->
  fs_is_dir ["memory"; memory_file_name tid] s1 = false ->
  create_agent model "my-mcp-agent" agent_instructions (w_remote w) = Ok (ag, r1) ->
  messages_create tid "user" prompt r1 = Ok (mid, r2) ->
  runs_create_and_process tid (agent_id ag) r2 = Ok (rn, r3) ->
  String.eqb (run_status rn) "failed" = false ->
  run_steps_list tid (run_id rn) r3 = Ok steps -> res_mapM step_log steps = Ok details ->
  messages_list_desc tid r3 = Ok msgs ->
  let '(r, w') := app_turn model prompt ts_u ts_a w in
  r = Ok tt /\
  journal_view ["memory"; memory_file_name tid] (w_fs w') =
    Some (journal_append (Some 20)
            (mk_entry ts_a "assistant" (default "" (latest_assistant_text msgs)) (first_assistant_id msgs))
            (journal_append (Some 20) (mk_entry ts_u "user" prompt (Some mid)) j)) /\
  ss_messages (w_ss w') = ss_messages (w_ss w) ++
    [(JStr "user", JStr prompt); (JStr "assistant", JStr (default "" (latest_assistant_text msgs)))].
Proof.
  intros Ht Hns Hm Hv Hd Ha Hmc Hr Hf Hs Hdt Hl.
  turn_to_run w Ht Hns Hm Hv Hd Ha Hmc j. rewrite Hr. wstep. rewrite Hf.
  wstep. rewrite Hs. wstep. rewrite Hdt. wstep. rewrite Hl. wstep.
  destruct (latest_assistant_text msgs) as [txt|]; wstep; rewrite Hl; wstep;
  (rewrite (append_memory_put _ _ _ _ _ _ (journal_append (Some 20) (mk_entry ts_u "user" prompt (Some mid)) j));
   [|by rewrite journal_view_dump|by rewrite fs_is_dir_put|by rewrite fs_is_dir_put]); wstep;
  destruct (delete_agent _ _); wstep; (split; [done|split; [apply journal_view_dump|]]);
  by rewrite <- app_assoc.
Qed.

(** C8. A turn whose run ends ["failed"]: only the prompt is journalled
    (no reply is fetched or saved), the user sees the run's error, and the
    turn still returns normally. *)
Theorem app_turn_failed model prompt ts_u ts_a (w : world F R) tid s1 j ag r1 mid r2 rn r3 :
  ss_thread_id (w_ss w) = Some (JStr tid) -> no_slash tid = true ->
  fs_mkdir_p memory_dir_path (w_fs w) = Ok s1 ->
  journal_view ["memory"; memory_file_name tid] s1 = Some j ->
  fs_is_dir ["memory"; memory_file_name tid] s1 = false ->
  create_agent model "my-mcp-agent" agent_instructions (w_remote w) = Ok (ag, r1) ->
  messages_create tid "user" prompt r1 = Ok (mid, r2) ->
  runs_create_and_process tid (agent_id ag) r2 = Ok (rn, r3) ->
  String.eqb (run_status rn) "failed" = true ->
  let '(r, w') := app_turn model prompt ts_u ts_a w in
  r = Ok tt /\
  journal_view ["memory"; memory_file_name tid] (w_fs w') =
    Some (journal_append (Some 20) (mk_entry ts_u "user" prompt (Some mid)) j) /\
  ss_messages (w_ss w') = ss_messages (w_ss w) ++ [(JStr "user", JStr prompt)] /\
  UiError ("Run failed: " +:+ run_last_error rn) ∈ w_ui w'.
Proof.
  intros Ht Hns Hm Hv Hd Ha Hmc Hr Hf.
  turn_to_run w Ht Hns Hm Hv Hd Ha Hmc j. rewrite Hr. wstep. rewrite Hf. wstep.
  destruct (delete_agent _ _); wstep; (split; [done|split; [apply journal_view_dump|split; [done|]]]);
  set_solver.
Qed.

(** C9. A run call that raises (the service rejects it, or the run times
    out) propagates out of the turn after the prompt was journalled, and
    the agent created for the turn is never deleted: the service is left
    in the state the message post produced, the agent still registered. *)
Theorem app_turn_run_raises_leaks_agent model prompt ts_u ts_a (w : world F R) tid s1 j ag r1 mid
    r2 e :
  ss_thread_id (w_ss w) = Some (JStr tid) -> no_slash tid = true ->
  fs_mkdir_p memory_dir_path (w_fs w) = Ok s1 ->
  journal_view ["memory"; memory_file_name tid] s1 = Some j ->
  fs_is_dir ["memory"; memory_file_name tid] s1 = false ->
  create_agent model "my-mcp-agent" agent_instructions (w_remote w) = Ok (ag, r1) ->
  messages_create tid "user" prompt r1 = Ok (mid, r2) ->
  runs_create_and_process tid (agent_id ag) r2 = Raise e ->
  let '(r, w') := app_turn model prompt ts_u ts_a w in
  r = Raise e /\ w_remote w' = r2 /\
  journal_view ["memory"; memory_file_name tid] (w_fs w') =
    Some (journal_append (Some 20) (mk_entry ts_u "user" prompt (Some mid)) j).
Proof.
  intros Ht Hns Hm Hv Hd Ha Hmc Hr.
  turn_to_run w Ht Hns Hm Hv Hd Ha Hmc j. rewrite Hr. wstep.
  split; [done|split; [done|apply journal_view_dump]].
Qed.

(** C31. A journal write error (a directory, or a JSON value that is not
    an object, at the journal's path) raised by the append of the prompt
    is not contained: the turn raises it after the message was posted, the
    agent created for the turn is never deleted, and the files are left
    as the memory directory's creation left them.  Spec section 7 says a
    write error surfaces as a warning and does not crash the turn. *)
Theorem app_turn_journal_error_escapes model prompt ts_u ts_a (w : world F R) tid s1 ag r1 mid r2 e :
  ss_thread_id (w_ss w) = Some (JStr tid) -> no_slash tid = true ->
  fs_mkdir_p memory_dir_path (w_fs w) = Ok s1 ->
  create_agent model "my-mcp-agent" agent_instructions (w_remote w) = Ok (ag, r1) ->
  messages_create tid "user" prompt r1 = Ok (mid, r2) ->
  _append_memory ["memory"; memory_file_name tid] "user" prompt (Some mid) ts_u s1 = Raise e ->
  let '(r, w') := app_turn model prompt ts_u ts_a w in
  r = Raise e /\ w_remote w' = r2 /\ w_fs w' = s1 /\
  ss_messages (w_ss w') = ss_messages (w_ss w) ++ [(JStr "user", JStr prompt)].
Proof.
  intros Ht Hns Hm Ha Hmc He.
  turn_to_append w Ht Hns Hm Ha Hmc. rewrite He. wstep. done.
Qed.
(** C39. The journal schema is an invariant of the page: starting from
    files each of which, when it parses, holds a journal (a dict with a
    thread id and a list of entries with [ts], [role], [text] and
    [message_id]), every world reached by chats, selections, deletions and
    new-chat clicks still has only such files; the page never writes
    anything but a journal. *)
Theorem app_journals_typed model (w0 w : world F R) :
  journals_typed (w_fs w0) -> reachable model w0 w -> journals_typed (w_fs w).
Proof. apply reachable_preserves. intros ev. apply app_step_preserves; eauto with uwepd. Qed.
End AppClaims.

Module AppScenarios.
Definition mcp_call : json :=
  JDict [("id", JStr "c1"); ("type", JStr "mcp"); ("name", JStr "microsoft_docs_search")].
Definition ok_run : outcome :=
  mk_outcome "completed" "" [("assistant", ["Hi there"])]
    [("step_1", JDict [("tool_calls", JList [mcp_call])])].
Definition failed_run : outcome := mk_outcome "failed" "rate limit" [] [].

Definition fresh_world (script : list (option outcome)) : world raw_file scripted :=
  mk_world initial_session (mk_fs ∅ ∅) (scripted_init script) [].

(** The world after a first chat ["Hello"], whose run is the script's head. *)
Definition first_turn (script : list (option outcome)) : world raw_file scripted :=
  (app_step "gpt-4o" (Prompt "Hello" "T1" "T2") (fresh_world script)).2.

(** The intermediate values of a second turn ["Again"] in [first_turn sc]. *)
Section Second.
Variable sc : list (option outcome).
Definition w2 := first_turn sc.
Definition p2 : path := ["memory"; memory_file_name "thread_0"].
Definition s1_2 := res_default (w_fs w2) (fs_mkdir_p memory_dir_path (w_fs w2)).
Definition j_2 := default empty_journal (journal_view p2 s1_2).
Definition ag_2 := res_default (mk_agent "" "", w_remote w2)
  (create_agent "gpt-4o" "my-mcp-agent" agent_instructions (w_remote w2)).
Definition mid_2 := res_default ("", ag_2.2) (messages_create "thread_0" "user" "Again" ag_2.2).
Definition rn_2 := res_default (mk_run "" "" "", mid_2.2)
  (runs_create_and_process "thread_0" (agent_id ag_2.1) mid_2.2).
Definition steps_2 := res_default [] (run_steps_list "thread_0" (run_id rn_2.1) rn_2.2).
Definition msgs_2 := res_default [] (messages_list_desc "thread_0" rn_2.2).
End Second.

Lemma app_journals_typed_witness :
  is_Some (fs_files (w_fs (first_turn [Some ok_run])) !! p2) /\
  journals_typed (w_fs (first_turn [Some ok_run])).
Proof.
  split; [vm_compute; by eexists|].
  apply (app_journals_typed "gpt-4o" (fresh_world [Some ok_run])).
  - intros p c v. cbn. by rewrite lookup_empty.
  - apply reachable_step, reach_init.
Defined.

Lemma app_history_always_empty_witness :
  is_Some (fs_files (w_fs (first_turn [Some ok_run])) !! p2) /\
  match get_all_threads (w_fs (first_turn [Some ok_run])) with
  | Ok (_, d) => d = [] | Raise _ => False end.
Proof.
  split; [vm_compute; by eexists|].
  destruct (get_all_threads (w_fs (first_turn [Some ok_run]))) as [[s' d]|] eqn:E.
  - refine (app_history_always_empty "gpt-4o" (fresh_world [Some ok_run]) _ s' d _ _ E).
    + intros p c v. cbn. by rewrite lookup_empty.
    + apply reachable_step, reach_init.
  - vm_compute in E. discriminate.
Defined.

Definition sc_ok := [Some ok_run; Some ok_run].
Definition sc_failed := [Some ok_run; Some failed_run].
Definition sc_raise := [Some ok_run; None].

(** A run that ends ["cancelled"] without adding a message. *)
Definition cancelled_run : outcome := mk_outcome "cancelled" "" [] [].
Definition sc_cancel := [Some ok_run; Some cancelled_run].

(** A run that answers, then adds an assistant message with no text
    segment (as a message carrying only a tool result or an image does). *)
Definition split_run : outcome :=
  mk_outcome "completed" "" [("assistant", ["Answer"]); ("assistant", [])] [].

(** A run that ends neither ["failed"] nor with a new reply (here
    ["cancelled"]) is treated as answered: the turn fetches the thread's
    latest assistant text, which is the previous turn's reply, shows it
    and journals it again, with the previous reply's message id, as the
    answer to the new prompt. *)
Lemma cancelled_run_journals_stale_reply :
  journal_view p2 (w_fs (app_turn "gpt-4o" "Again" "T3" "T4" (w2 sc_cancel)).2) =
    Some (mk_journal None
      [mk_entry "T1" "user" "Hello" (Some "msg_2"); mk_entry "T2" "assistant" "Hi there" (Some "msg_4");
       mk_entry "T3" "user" "Again" (Some "msg_6"); mk_entry "T4" "assistant" "Hi there" (Some "msg_4")]).
Proof. vm_compute. reflexivity. Qed.

(** The journalled reply takes its text from the newest assistant
    message that has text but its [message_id] from the newest assistant
    message: when the run's last message has no text, the entry pairs the
    text ["Answer"] of [msg_4] with the id [msg_5] of another message. *)
Lemma reply_text_and_id_from_different_messages :
  journal_view p2 (w_fs (first_turn [Some split_run])) =
    Some (mk_journal None
      [mk_entry "T1" "user" "Hello" (Some "msg_2"); mk_entry "T2" "assistant" "Answer" (Some "msg_5")]) /\
  sc_threads (w_remote (first_turn [Some split_run])) !! "thread_0" =
    Some [mk_rmessage "msg_5" "assistant" []; mk_rmessage "msg_4" "assistant" ["Answer"];
          mk_rmessage "msg_2" "user" ["Hello"]].
Proof. split; vm_compute; reflexivity. Qed.

Lemma app_turn_completed_witness :
  let '(r, w') := app_turn "gpt-4o" "Again" "T3" "T4" (w2 sc_ok) in
  r = Ok tt /\
  journal_view p2 (w_fs w') =
    Some (journal_append (Some 20)
            (mk_entry "T4" "assistant" (default "" (latest_assistant_text (msgs_2 sc_ok)))
               (first_assistant_id (msgs_2 sc_ok)))
            (journal_append (Some 20) (mk_entry "T3" "user" "Again" (Some (mid_2 sc_ok).1))
               (j_2 sc_ok))) /\
  ss_messages (w_ss w') = ss_messages (w_ss (w2 sc_ok)) ++
    [(JStr "user", JStr "Again"); (JStr "assistant", JStr (default "" (latest_assistant_text (msgs_2 sc_ok))))].
Proof.
  apply (app_turn_completed "gpt-4o" "Again" "T3" "T4" (w2 sc_ok) "thread_0" (s1_2 sc_ok) (j_2 sc_ok)
    (ag_2 sc_ok).1 (ag_2 sc_ok).2 (mid_2 sc_ok).1 (mid_2 sc_ok).2 (rn_2 sc_ok).1 (rn_2 sc_ok).2
    (steps_2 sc_ok) (res_default [] (res_mapM step_log (steps_2 sc_ok))) (msgs_2 sc_ok));
  vm_compute; reflexivity.
Defined.

Lemma app_turn_failed_witness :
  let '(r, w') := app_turn "gpt-4o" "Again" "T3" "T4" (w2 sc_failed) in
  r = Ok tt /\
  journal_view p2 (w_fs w') =
    Some (journal_append (Some 20) (mk_entry "T3" "user" "Again" (Some (mid_2 sc_failed).1))
            (j_2 sc_failed)) /\
  ss_messages (w_ss w') = ss_messages (w_ss (w2 sc_failed)) ++ [(JStr "user", JStr "Again")] /\
  UiError ("Run failed: " +:+ run_last_error (rn_2 sc_failed).1) ∈ w_ui w'.
Proof.
  apply (app_turn_failed "gpt-4o" "Again" "T3" "T4" (w2 sc_failed) "thread_0" (s1_2 sc_failed)
    (j_2 sc_failed) (ag_2 sc_failed).1 (ag_2 sc_failed).2 (mid_2 sc_failed).1 (mid_2 sc_failed).2
    (rn_2 sc_failed).1 (rn_2 sc_failed).2);
  vm_compute; reflexivity.
Defined.

Lemma app_turn_run_raises_leaks_agent_witness :
  (let '(r, w') := app_turn "gpt-4o" "Again" "T3" "T4" (w2 sc_raise) in
   r = Raise ServiceError /\ w_remote w' = (mid_2 sc_raise).2 /\
   journal_view p2 (w_fs w') =
     Some (journal_append (Some 20) (mk_entry "T3" "user" "Again" (Some (mid_2 sc_raise).1))
             (j_2 sc_raise))) /\
  agent_id (ag_2 sc_raise).1 ∈ sc_agents (mid_2 sc_raise).2.
Proof.
  split; [|apply (bool_decide_unpack (agent_id (ag_2 sc_raise).1 ∈ sc_agents (mid_2 sc_raise).2)); vm_compute; reflexivity].
  apply (app_turn_run_raises_leaks_agent "gpt-4o" "Again" "T3" "T4" (w2 sc_raise) "thread_0"
    (s1_2 sc_raise) (j_2 sc_raise) (ag_2 sc_raise).1 (ag_2 sc_raise).2 (mid_2 sc_raise).1
    (mid_2 sc_raise).2 ServiceError);
  vm_compute; reflexivity.
Defined.
(** A directory where the journal of ["thread_0"] should be. *)
Definition dir_at_journal : world raw_file scripted :=
  mk_world (set_thread (Some (JStr "thread_0")) initial_session)
    (mk_fs ∅ {[ ["memory"]; ["memory"; memory_file_name "thread_0"] ]})
    (res_default ("", scripted_init [Some ok_run]) (threads_create (scripted_init [Some ok_run]))).2 [].
Definition s1_d := res_default (w_fs dir_at_journal) (fs_mkdir_p memory_dir_path (w_fs dir_at_journal)).
Definition ag_d := res_default (mk_agent "" "", w_remote dir_at_journal)
  (create_agent "gpt-4o" "my-mcp-agent" agent_instructions (w_remote dir_at_journal)).
Definition mid_d := res_default ("", ag_d.2) (messages_create "thread_0" "user" "Hello" ag_d.2).

Lemma app_turn_journal_error_escapes_witness :
  let '(r, w') := app_turn "gpt-4o" "Hello" "T1" "T2" dir_at_journal in
  r = Raise OSError /\ w_remote w' = mid_d.2 /\ w_fs w' = s1_d /\
  ss_messages (w_ss w') = ss_messages (w_ss dir_at_journal) ++ [(JStr "user", JStr "Hello")].
Proof.
  apply (app_turn_journal_error_escapes "gpt-4o" "Hello" "T1" "T2" dir_at_journal "thread_0" s1_d
    ag_d.1 ag_d.2 mid_d.1 mid_d.2 OSError); vm_compute; reflexivity.
Defined.

(** The agent of that turn is still registered with the service. *)
Lemma journal_error_agent_registered : agent_id ag_d.1 ∈ sc_agents mid_d.2.
Proof. apply (bool_decide_unpack _). vm_compute. reflexivity. Qed.
End AppScenarios.
