(* ===== verification/Render.v ===== *)
(** * Render: the sidebar activity log and the chat column of the page

    [streamlit_mcpclientapp.py] draws, on every run of the script, the
    sidebar (title, divider, header, then one widget per entry of
    [st.session_state.log_messages]) and the chat messages, newest first.
    Drawing only reads the session; it is a statement over the list of
    widgets emitted so far, and it can raise: the ["run_steps"] entry is
    subscripted as [step['id']], [step['tool_calls']] and [call['id']].
    The theorem of this file shows that the log the page writes always
    draws: in every reachable world, no entry makes the sidebar raise. *)

From S2P Require Import Prelude PyJson PyStr FileSystem Journal Directory Session Remote AppTurn.
Import Store.

Inductive widget :=
  | WMarkdown (text : string)
  | WDivider
  | WHeader (text : string)
  | WAlert (kind : string) (content : log_content)   (** [st.info], [st.success], ... *)
  | WSubheader (content : log_content)
  | WExpanderOpen (label : string)
  | WExpanderClose
  | WWrite (text : string)
  | WText (text : string)
  | WChatMessage (role : json) (content : json)
  | WTitle (text : string)
  | WStyle                                   (** the [<style>] block of [st.markdown] *)
  | WChatInput (label : string)
  | WRadio (options : list json) (value : json)
  | WButton (label : string) (disabled : bool).

Notation drawM := (pyM (list widget)).

Definition emit (w : widget) : drawM unit := py_modify (fun ws => ws ++ [w]).

Definition nl : string := String (ascii_of_nat 10) EmptyString.
Definition dq : string := String (ascii_of_nat 34) EmptyString.

(** The log content as the Python value the page stored. *)
Definition content_json (c : log_content) : json :=
  match c with
  | LText s => JStr s
  | LTextExn p e => JStr (p +:+ exn_text e)
  | LRunSteps d => d
  end.

(** [st.text(f"  ID: {call['id']}\n  Type: {call['type']}\n  Name: {call['name']}")] *)
Definition render_call (call : json) : drawM unit :=
  i ← py_lift (py_getitem call "id");
  t ← py_lift (py_getitem call "type");
  n ← py_lift (py_getitem call "name");
  emit (WText ("  ID: " +:+ py_fstr i +:+ nl +:+ "  Type: " +:+ py_fstr t +:+ nl +:+ "  Name: " +:+ py_fstr n)).

Definition render_step (step : json) : drawM unit :=
  i ← py_lift (py_getitem step "id");
  emit (WWrite ("**Step ID:** `" +:+ py_fstr i +:+ "`"));;
  tc ← py_lift (py_getitem step "tool_calls");
  if py_truthy tc then
    emit (WWrite "**MCP Tool Calls:**");;
    tc' ← py_lift (py_getitem step "tool_calls");
    calls ← py_lift (py_iter tc');
    py_for render_call calls
  else mret tt.

(** One entry of the log ([streamlit_mcpclientapp.py] lines 175-192). *)
Definition render_entry (entry : string * log_content) : drawM unit :=
  let '(kind, content) := entry in
  if bool_decide (kind ∈ ["info"; "success"; "warning"; "error"]) then emit (WAlert kind content)
  else if String.eqb kind "subheader" then emit (WSubheader content)
  else if String.eqb kind "run_steps" then
    py_finally
      (emit (WExpanderOpen "Show Details");;
       steps ← py_lift (py_iter (content_json content));
       py_for render_step steps)
      (emit WExpanderClose)
  else mret tt.

(** The sidebar ([with st.sidebar:], lines 167-192). *)
Definition render_sidebar (log : list (string * log_content)) : drawM unit :=
  emit (WMarkdown ("<h1 style=" +:+ dq +:+ "color: darkred;" +:+ dq +:+ ">Developing Agent MCP based Apps</h1>"));;
  emit WDivider;;
  emit (WHeader "Agent Activity Log 📜");;
  py_for render_entry log.

(** [for message in reversed(st.session_state.messages)] (lines 266-268). *)
Definition render_messages (msgs : list (json * json)) : drawM unit :=
  py_for (fun m => emit (WChatMessage m.1 m.2)) (reverse msgs).

(** An entry draws without raising, whatever was drawn before. *)
Definition entry_renders (entry : string * log_content) : Prop :=
  forall ws, (render_entry entry ws).1 = Ok tt.

(** Every entry of the world's log draws. *)
Definition log_renders {F R} (w : world F R) : Prop := Forall entry_renders (ss_log (w_ss w)).

(** ** The entries the page writes draw *)

Lemma py_for_ok {S A} (f : A -> pyM S unit) xs :
  (forall x s, x ∈ xs -> (f x s).1 = Ok tt) -> forall s, (py_for f xs s).1 = Ok tt.
Proof.
  induction xs as [|x xs IH]; intros Hf s; [done|]. cbn [py_for]. rewrite pyM_bind_run.
  pose proof (Hf x s ltac:(left)) as Hx. destruct (f x s) as [[[]|e] s']; cbn in Hx; [|done].
  apply IH. intros y s1 Hy. apply Hf. by right.
Qed.

Lemma entry_renders_other k c : String.eqb k "run_steps" = false -> entry_renders (k, c).
Proof.
  intros Hk ws. unfold render_entry. case_bool_decide; [done|].
  destruct (String.eqb k "subheader"); [done|]. by rewrite Hk.
Qed.

Lemma tool_call_details_shape call d :
  tool_call_details call = Ok d -> exists i t n, d = JDict [("id", i); ("type", t); ("name", n)].
Proof.
  unfold tool_call_details. destruct call; cbn [py_get_or mbind res_bind]; try done.
  intros [= <-]. by do 3 eexists.
Qed.

Lemma render_call_details call d ws : tool_call_details call = Ok d -> (render_call d ws).1 = Ok tt.
Proof. intros (i & t & n & ->)%tool_call_details_shape. done. Qed.

Lemma render_step_log st d ws : step_log st = Ok d -> (render_step d ws).1 = Ok tt.
Proof.
  unfold step_log. destruct (py_get_or _ "tool_calls" _) as [tc|]; cbn [mbind res_bind]; [|done].
  destruct (py_truthy tc).
  - destruct (py_iter tc) as [it|]; cbn [mbind res_bind]; [|done].
    destruct (res_mapM tool_call_details it) as [calls|] eqn:Hc; cbn [mbind res_bind]; [|done].
    intros [= <-]. unfold render_step. cbn -[py_truthy py_for render_call]. rewrite !pyM_bind_run. cbn -[py_truthy py_for render_call].
    destruct calls as [|c0 cs] eqn:E; cbn -[py_for render_call]; [done|].
    rewrite !pyM_bind_run. cbn -[py_for render_call]. apply py_for_ok. intros x s Hx.
    destruct (res_mapM_elem _ _ _ _ Hc Hx) as (call & Hcall). by eapply render_call_details.
  - intros [= <-]. done.
Qed.

Lemma entry_renders_run_steps steps ds :
  res_mapM step_log steps = Ok ds -> entry_renders ("run_steps", LRunSteps (JList ds)).
Proof.
  intros Hd ws.
  change (render_entry ("run_steps", LRunSteps (JList ds))) with
    (py_finally (emit (WExpanderOpen "Show Details");;
                 steps ← py_lift (py_iter (JList ds)); py_for render_step steps)
                (emit WExpanderClose)).
  unfold py_finally. repeat (rewrite pyM_bind_run; cbn [py_lift py_iter emit py_modify fst snd]).
  assert (Hs : forall x s, x ∈ ds -> (render_step x s).1 = Ok tt).
  { intros x s Hx. destruct (res_mapM_elem step_log steps ds x Hd Hx) as (st & Hst).
    by eapply render_step_log. }
  pose proof (py_for_ok render_step ds Hs (ws ++ [WExpanderOpen "Show Details"])) as Hok.
  destruct (py_for render_step ds _) as [r s1]. cbn in Hok |- *. by subst r.
Qed.

(** ** Every action keeps the log drawable *)

Section RenderInv.
Context {F R : Type} `{!JsonCodec F} `{!AgentsService R}.
Notation app := (pyM (world F R)).
Notation I := (@log_renders F R).

Lemma ss_fixed_preserves {A} (m : app A) : (forall w, w_ss (m w).2 = w_ss w) -> pyM_preserves I m.
Proof. intros Hm w Hw. unfold log_renders. by rewrite Hm. Qed.

Lemma modify_ss_renders f :
  (forall ss, Forall entry_renders (ss_log ss) -> Forall entry_renders (ss_log (f ss))) ->
  pyM_preserves I (modify_ss f).
Proof. intros Hf w Hw. by apply Hf. Qed.

Lemma log_entry_preserves k c : entry_renders (k, c) -> pyM_preserves I (log k c).
Proof. intros Hc. apply modify_ss_renders. intros ss Hss. cbn. apply Forall_app. auto. Qed.

Lemma on_fs_renders {A} (f : fs F -> res (fs F * A)) : pyM_preserves I (on_fs f).
Proof. apply ss_fixed_preserves. intros w. unfold on_fs. by destruct (f _) as [[]|]. Qed.

Lemma on_fs__renders (f : fs F -> res (fs F)) : pyM_preserves I (on_fs_ f).
Proof. apply on_fs_renders. Qed.

Lemma on_remote_renders {A} (f : R -> res (A * R)) : pyM_preserves I (on_remote f).
Proof. apply ss_fixed_preserves. intros w. unfold on_remote. by destruct (f _) as [[]|]. Qed.

Lemma on_remote__renders (f : R -> res R) : pyM_preserves I (on_remote_ f).
Proof. apply on_remote_renders. Qed.

Lemma show_renders m : pyM_preserves I (show m).
Proof. by apply ss_fixed_preserves. Qed.

Lemma read_fs_renders {A} (f : fs F -> A) : pyM_preserves I (read_fs f).
Proof. by apply ss_fixed_preserves. Qed.

Lemma read_remote_renders {A} (f : R -> res A) : pyM_preserves I (read_remote f).
Proof. by apply ss_fixed_preserves. Qed.

(** The one entry whose content is built from the service's data. *)
Lemma log_run_steps_renders tid rid : pyM_preserves I (_log_run_steps tid rid).
Proof.
  unfold _log_run_steps. apply preserves_bind; [apply log_entry_preserves, entry_renders_other; done|].
  intros []. intros w Hw. unfold read_remote. rewrite pyM_bind_run. cbn [fst snd].
  destruct (run_steps_list tid rid (w_remote w)) as [steps|e]; [|done].
  rewrite pyM_bind_run. cbn [py_lift fst snd].
  destruct (res_mapM step_log steps) as [ds|e] eqn:Hd; [|done].
  by apply (log_entry_preserves _ _ (entry_renders_run_steps steps ds Hd)).
Qed.
End RenderInv.

#[export] Hint Resolve on_fs_renders on_fs__renders on_remote_renders on_remote__renders show_renders
  read_fs_renders read_remote_renders log_run_steps_renders : uwepd.

(** Closes the [modify_ss] and [log] statements of a handler. *)
Ltac renders_solve :=
  first [ apply log_entry_preserves, entry_renders_other; reflexivity
        | apply modify_ss_renders; intros ?ss ?Hss; cbn; (assumption || constructor) ].

Section RenderSteps.
Context {F R : Type} `{!JsonCodec F} `{!AgentsService R}.

Lemma history_step_renders ev : pyM_preserves (@log_renders F R) (history_step ev).
Proof.
  destruct ev; unfold history_step, handle_chat_selection, delete_selected_chat_callback,
    set_active_thread, delete_thread, start_new_chat; preserves_auto renders_solve.
Qed.

Lemma app_step_renders model ev : pyM_preserves (@log_renders F R) (app_step model ev).
Proof.
  destruct ev as [h|p t1 t2]; [apply history_step_renders|].
  unfold app_step, app_turn, after_run, _print_latest_assistant.
  preserves_auto renders_solve.
Qed.
End RenderSteps.

(** ** The sidebar of every reachable page draws *)

Section RenderClaims.
Context {F R : Type} `{!JsonCodec F} `{!AgentsService R}.

Lemma reachable_renders model (w0 w : world F R) :
  log_renders w0 -> reachable model w0 w -> log_renders w.
Proof.
  intros H0 Hr. induction Hr as [|w ev r w' _ IH Hstep]; [done|].
  replace w' with (app_step model ev w).2 by (by rewrite Hstep). by apply app_step_renders.
Qed.

Lemma render_sidebar_ok log ws : Forall entry_renders log -> (render_sidebar log ws).1 = Ok tt.
Proof.
  intros Hl. unfold render_sidebar. rewrite !pyM_bind_run. cbn [emit py_modify fst snd].
  apply py_for_ok. intros x s Hx. by eapply Forall_forall in Hl; [apply Hl|].
Qed.

(** C30. From a session whose activity log is empty (the script's
    initialisation), every world that user actions reach draws its sidebar
    without raising: each ["run_steps"] entry the chat turn logs has, for
    each step, an ["id"] and a ["tool_calls"] list whose calls carry
    ["id"], ["type"] and ["name"], which is all the drawing code
    subscripts. *)
Theorem sidebar_always_draws model (w0 w : world F R) ws :
  ss_log (w_ss w0) = [] -> reachable model w0 w -> (render_sidebar (ss_log (w_ss w)) ws).1 = Ok tt.
Proof.
  intros H0 Hr. apply render_sidebar_ok, (reachable_renders model w0); [|done].
  unfold log_renders. rewrite H0. constructor.
Qed.
End RenderClaims.

Module RenderScenarios.
Import AppScenarios.

(** After a first chat whose run called an MCP tool, the sidebar draws,
    and it lists the call. *)
Lemma sidebar_always_draws_witness :
  (render_sidebar (ss_log (w_ss (first_turn [Some ok_run]))) []).1 = Ok tt.
Proof.
  apply (sidebar_always_draws "gpt-4o" (fresh_world [Some ok_run])); [reflexivity|].
  apply reachable_step, reach_init.
Defined.

Lemma sidebar_lists_tool_call :
  WText ("  ID: c1" +:+ nl +:+ "  Type: mcp" +:+ nl +:+ "  Name: microsoft_docs_search")
    ∈ (render_sidebar (ss_log (w_ss (first_turn [Some ok_run]))) []).2.
Proof. apply list_elem_of_In. vm_compute. repeat first [left; reflexivity | right]. Qed.

(** The drawing code itself subscripts: a step without an ["id"] raises. *)
Lemma step_without_id_raises :
  (render_entry ("run_steps", LRunSteps (JList [JDict []])) []).1 = Raise KeyError.
Proof. reflexivity. Qed.
End RenderScenarios.
