(* ===== verification/AppPage.v ===== *)
(** * AppPage: one run of the current page's script, and Streamlit's loop

    [streamlit_mcpclientapp.py] is a script Streamlit runs from the top on
    every interaction: a widget's callback first, then the script, which
    draws the title, the style block and the sidebar ([Render]), the chat
    input, and then either answers a submitted prompt ([AppTurn.app_turn])
    and calls [st.rerun()] (line 264), or draws the messages newest first
    and the history column (lines 271-295).  A page state [apage] pairs the
    world of [Session] with the widgets drawn so far; [on_world] and [draw]
    lift the statements of the two into it.  [app_reruns] is Streamlit's
    loop: while a run ends in [st.rerun()], it runs the script again with
    no user action.

    The theorem (C40) is the liveness of the page, the counterpart of page
    4's livelock (C36): from a fresh session whose files hold journals, in
    every world user actions reach, an action that succeeds is followed by
    at most one rerun, after which the page has drawn its chat input and
    asks for no further rerun. *)

From S2P Require Import Prelude PyJson PyStr FileSystem Journal Directory Session Remote AppTurn Render.
Import Store.

Record apage (F R : Type) := mk_apage {
  ap_world : world F R;
  ap_out : list widget
}.
Arguments mk_apage {F R}.
Arguments ap_world {F R}.
Arguments ap_out {F R}.

Section Page.
Context {F R : Type} `{!JsonCodec F} `{!AgentsService R}.
Notation pageM := (pyM (apage F R)).

(** A statement over the session, the files and the service. *)
Definition on_world {A} (m : pyM (world F R) A) : pageM A :=
  fun p => let '(r, w') := m (ap_world p) in (r, mk_apage w' (ap_out p)).

(** A drawing statement. *)
Definition draw {A} (m : drawM A) : pageM A :=
  fun p => let '(r, ws) := m (ap_out p) in (r, mk_apage (ap_world p) ws).

(** The history column (lines 271-295): the radio is bound to
    [st.session_state.selected_chat] through its key, and Delete Selected
    Chat is disabled while the placeholder is selected. *)
Definition history_column : pageM unit :=
  draw (emit (WSubheader (LText "Chat History")));;
  saved_threads ← on_world (on_fs get_all_threads);
  let options := JStr placeholder :: map snd saved_threads in
  sel ← on_world (py_gets (fun w => ss_selected_chat (w_ss w)));
  draw (emit (WRadio options sel));;
  draw (emit WDivider);;
  draw (emit (WButton "➕ New Chat" false));;
  draw (emit (WButton "🗑️ Delete Selected Chat" (py_eq sel (JStr placeholder)))).

(** The end of a run without a prompt: the messages, newest first
    (lines 266-268), then the history column. *)
Definition settle_run : pageM bool :=
  msgs ← on_world (py_gets (fun w => ss_messages (w_ss w)));
  draw (render_messages msgs);;
  history_column;;
  mret false.

(** The part of every run before the prompt is read (lines 144-198): the
    title, the style block, the sidebar and the chat input.  The session's
    initialisation (lines 159-164) leaves an existing session as it is; a
    fresh one is [initial_session]. *)
Definition script_head : pageM unit :=
  draw (emit (WTitle "EPD 522 - Azure AI Agent Chat 🤖"));;
  draw (emit WStyle);;
  lg ← on_world (py_gets (fun w => ss_log (w_ss w)));
  draw (render_sidebar lg);;
  draw (emit (WChatInput "Ask your question:")).

(** One run of the script (lines 144-295), [true] when it ends in
    [st.rerun()].  The prompt is what [st.chat_input] returns, with the
    clock at the two appends; an empty submission is falsy and answers
    nothing. *)
Definition app_script_run (model : string) (prompt : option (string * string * string)) : pageM bool :=
  script_head;;
  match prompt with
  | Some (p, ts_u, ts_a) =>
      if String.eqb p "" then settle_run
      else on_world (app_turn model p ts_u ts_a);; mret true
  | None => settle_run
  end.

(** A page interaction: the callback of the history widget the user
    changed, then the script; a prompt is read by the script itself. *)
Definition app_page_run (model : string) (ev : option app_event) : pageM bool :=
  match ev with
  | Some (History h) => on_world (history_step h);; app_script_run model None
  | Some (Prompt p ts_u ts_a) => app_script_run model (Some (p, ts_u, ts_a))
  | None => app_script_run model None
  end.

(** Streamlit's loop: after a run that calls [st.rerun()], up to [n] more
    runs with no user action. *)
Fixpoint app_reruns (n : nat) (model : string) (ev : option app_event) (p : apage F R)
    : res bool * apage F R :=
  let '(r, p') := app_page_run model ev p in
  match n, r with
  | S n', Ok true => app_reruns n' model None p'
  | _, _ => (r, p')
  end.

(** The memory directory exists and is not a file: the state every
    [_memory_dir()] call leaves behind, and the one in which it succeeds. *)
Definition memory_is_dir (s : fs F) : Prop :=
  memory_dir_path ∈ fs_dirs s /\ fs_files s !! memory_dir_path = None.

(** What a world needs for the page to draw to the end: a drawable log,
    journal files and the memory directory. *)
Definition page_ok (w : world F R) : Prop :=
  log_renders w /\ journals_typed (w_fs w) /\ memory_is_dir (w_fs w).
End Page.

(** ** The memory directory stays a directory *)

Section MemoryDir.
Context {F : Type} `{!JsonCodec F}.
Implicit Types (s : fs F).

Lemma memdir_write p c s s' : memory_is_dir s -> fs_write p c s = Ok s' -> memory_is_dir s'.
Proof.
  intros [Hd Hf]. unfold fs_write. destruct (fs_is_dir p s) eqn:E; [done|].
  destruct (fs_is_dir (parent p) s); [|done]. intros [= <-]. split; [done|]. cbn.
  rewrite lookup_insert_ne; [done|]. intros ->. unfold fs_is_dir in E.
  rewrite bool_decide_eq_false in E. apply E. by right.
Qed.

Lemma memdir_mkdir q s s' : memory_is_dir s -> fs_mkdir_p q s = Ok s' -> memory_is_dir s'.
Proof.
  intros [Hd Hf]. unfold fs_mkdir_p. destruct (existsb _ _); [done|]. intros [= <-].
  split; [cbn; set_solver|done].
Qed.

Lemma memdir_path t s s' q : memory_is_dir s -> _memory_path_for_thread t s = Ok (s', q) -> memory_is_dir s'.
Proof.
  unfold _memory_path_for_thread, _memory_dir. intros Hs.
  destruct (fs_mkdir_p memory_dir_path s) as [s1|] eqn:E; cbn; [|done]. intros [= <- _].
  by eapply memdir_mkdir.
Qed.

Lemma memdir_append p role text mid ts s s' :
  memory_is_dir s -> _append_memory p role text mid ts s = Ok s' -> memory_is_dir s'.
Proof.
  unfold _append_memory, append_memory_with. intros Hs H.
  apply bind_eq_Ok in H as (? & _ & H). apply bind_eq_Ok in H as (? & _ & H).
  apply bind_eq_Ok in H as (? & _ & H). apply bind_eq_Ok in H as (? & _ & H).
  apply bind_eq_Ok in H as (? & _ & H). by eapply memdir_write.
Qed.

Lemma memdir_unlink p s s' : memory_is_dir s -> unlink_memory p s = Ok s' -> memory_is_dir s'.
Proof.
  unfold unlink_memory, fs_unlink. intros [Hd Hf].
  destruct (fs_exists p s); [destruct (fs_is_file p s)|]; intros H; res_simpl; rewrite <- H;
    [split; [done|]; cbn; apply lookup_delete_None; by right | by split].
Qed.

Lemma memdir_list s s' d : memory_is_dir s -> get_all_threads s = Ok (s', d) -> memory_is_dir s'.
Proof.
  unfold get_all_threads, _memory_dir. intros Hs.
  destruct (fs_mkdir_p memory_dir_path s) as [s1|] eqn:E; cbn; [|done].
  destruct (res_foldl _ _ _); cbn; [|done]. intros [= <- _]. by eapply memdir_mkdir.
Qed.

(** With the directory in place and journal files, the listing succeeds. *)
Lemma get_all_threads_ok s : journals_typed s -> memory_is_dir s -> exists s' d, get_all_threads s = Ok (s', d).
Proof.
  intros Ht [Hd Hf].
  assert (E : fs_mkdir_p memory_dir_path s = Ok (mk_fs (fs_files s) (list_to_set [memory_dir_path] ∪ fs_dirs s))).
  { unfold fs_mkdir_p, fs_is_file, memory_dir_path in *. cbn. rewrite Hf. reflexivity. }
  set (s1 := mk_fs (fs_files s) _) in E.
  assert (Ht1 : journals_typed s1) by (eapply typed_files, Ht; done).
  destruct (mapM_is_Some_2 (fun p => journal_view p s1) (sorted_desc (fs_glob memory_dir_path conversation_glob s1)))
    as [js Hjs].
  { apply Forall_forall. intros p _. by apply typed_view. }
  exists s1, (listing_json (listing_of js)). apply get_all_threads_listing; [|done].
  unfold _memory_dir. by rewrite E.
Qed.
End MemoryDir.

#[export] Hint Resolve memdir_path memdir_append memdir_unlink memdir_list : uwepd.

(** ** Runs of the script *)

Section Runs.
Context {F R : Type} `{!JsonCodec F} `{!AgentsService R}.
Implicit Types (w : world F R) (ws : list widget).

Lemma emits_run {A} (g : A -> widget) xs ws : py_for (fun x => emit (g x)) xs ws = (Ok tt, ws ++ map g xs).
Proof.
  revert ws. induction xs as [|x xs IH]; intros ws; cbn [py_for map]; [by rewrite app_nil_r|].
  rewrite pyM_bind_run. cbn. rewrite IH. by rewrite <- app_assoc.
Qed.

(** The part before the prompt draws to the chat input when the log draws. *)
Lemma script_head_run w ws :
  log_renders w -> exists ws', script_head (mk_apage w ws) = (Ok tt, mk_apage w (ws' ++ [WChatInput "Ask your question:"])).
Proof.
  intros Hl. unfold script_head, draw, on_world, emit. py_unfold. cbn -[render_sidebar].
  lazymatch goal with
  | |- context [render_sidebar ?lg ?ws0] =>
      pose proof (render_sidebar_ok lg ws0 Hl) as Hs; destruct (render_sidebar lg ws0) as [r ws1]
  end.
  cbn in Hs |- *. subst r. by eexists.
Qed.

(** Without a prompt the run ends drawing the messages and the history
    column, and asks for no rerun. *)
Lemma settle_run_ok w ws :
  journals_typed (w_fs w) -> memory_is_dir (w_fs w) ->
  exists p', settle_run (mk_apage w ws) = (Ok false, p') /\ exists ws', ap_out p' = ws ++ ws'.
Proof.
  intros Ht Hm. destruct (get_all_threads_ok _ Ht Hm) as (s' & d & Hg).
  unfold settle_run, history_column, draw, on_world, on_fs, emit, render_messages. py_unfold.
  cbn -[get_all_threads py_for]. rewrite emits_run. cbn -[get_all_threads]. rewrite Hg. cbn.
  eexists. split; [reflexivity|]. eexists. cbn. by rewrite <- !app_assoc.
Qed.

Lemma idle_run_settles model w ws :
  page_ok w -> exists p', app_script_run model None (mk_apage w ws) = (Ok false, p') /\
    WChatInput "Ask your question:" ∈ ap_out p'.
Proof.
  intros (Hl & Ht & Hm). destruct (script_head_run w ws Hl) as [ws' Hh].
  unfold app_script_run. rewrite pyM_bind_run, Hh. cbn [fst snd].
  destruct (settle_run_ok w (ws' ++ [WChatInput "Ask your question:"]) Ht Hm) as (p' & -> & ws2 & Ho).
  exists p'. split; [done|]. rewrite Ho. set_solver.
Qed.

Lemma app_reruns_run n model ev p r p' :
  app_page_run model ev p = (r, p') -> r <> Ok true -> app_reruns n model ev p = (r, p').
Proof. intros E Hr. destruct n; cbn; rewrite E; [done|]. by destruct r as [[]|]. Qed.

(** The worlds user actions reach keep what the page needs to draw. *)
Lemma reachable_page_ok model (w0 w : world F R) :
  ss_log (w_ss w0) = [] -> journals_typed (w_fs w0) -> memory_is_dir (w_fs w0) ->
  reachable model w0 w -> page_ok w.
Proof.
  intros H0 Ht Hm Hr. split; [|split].
  - apply (reachable_renders model w0); [|done]. unfold log_renders. rewrite H0. constructor.
  - revert Hr. apply reachable_preserves; [|done]. intros ev. apply app_step_preserves; eauto with uwepd.
  - revert Hr. apply reachable_preserves; [|done]. intros ev. apply app_step_preserves; eauto with uwepd.
Qed.
End Runs.

(** ** The page settles *)

Section PageClaims.
Context {F R : Type} `{!JsonCodec F} `{!AgentsService R}.

(** C40. The current page settles: from a fresh session (empty activity
    log) on files that hold journals under an existing [memory] directory,
    in every world that user actions reach, an action that succeeds (a
    history callback, or a prompt whose turn completes) followed by
    Streamlit's reruns ends, after at most one rerun, in a run that
    returns normally without calling [st.rerun()] and has drawn the chat
    input: the sidebar draws, the listing of the history column succeeds,
    and only the prompt branch reruns.  Page 4 never gets there (C36). *)
Theorem app_page_settles model ev n (w0 w : world F R) ws :
  ss_log (w_ss w0) = [] -> journals_typed (w_fs w0) -> memory_is_dir (w_fs w0) ->
  reachable model w0 w -> 1 <= n -> (app_step model ev w).1 = Ok tt ->
  let '(r, p) := app_reruns n model (Some ev) (mk_apage w ws) in
  r = Ok false /\ WChatInput "Ask your question:" ∈ ap_out p.
Proof.
  intros H0 Ht Hm Hr Hn Hs.
  pose proof (reachable_page_ok _ _ _ H0 Ht Hm Hr) as Hok.
  destruct (app_step model ev w) as [r0 w1] eqn:E. cbn in Hs. subst r0.
  assert (Hok1 : page_ok w1) by (eapply reachable_page_ok, reach_step; eauto).
  destruct ev as [h|p t1 t2].
  - destruct (idle_run_settles model w1 ws Hok1) as (p' & Hrun & Hin).
    rewrite (app_reruns_run n model _ _ (Ok false) p'); [done| |done].
    unfold app_page_run, on_world. rewrite pyM_bind_run. cbn [ap_world ap_out]. cbn in E. by rewrite E.
  - cbn in E. destruct (String.eqb p "") eqn:Ep.
    + injection E as <-. destruct (idle_run_settles model w ws Hok) as (p' & Hrun & Hin).
      rewrite (app_reruns_run n model _ _ (Ok false) p'); [done| |done].
      unfold app_page_run, app_script_run. rewrite Ep. exact Hrun.
    + destruct Hok as (Hl & _). destruct (script_head_run w ws Hl) as [ws' Hh].
      destruct (idle_run_settles model w1 (ws' ++ [WChatInput "Ask your question:"]) Hok1) as (p' & Hrun & Hin).
      destruct n as [|n]; [lia|]. cbn [app_reruns].
      unfold app_page_run at 1, app_script_run at 1. rewrite pyM_bind_run, Hh. cbn [fst snd]. rewrite Ep.
      unfold on_world at 1. rewrite pyM_bind_run. cbn [ap_world ap_out]. rewrite E. cbn.
      rewrite (app_reruns_run n model _ _ (Ok false) p'); [done|exact Hrun|done].
Qed.
End PageClaims.

Module AppPageScenarios.
Import AppScenarios JournalWitnesses.

(** A fresh session on an empty [memory] directory. *)
Definition w_mem : world raw_file scripted := mk_world initial_session mem_dir_only (scripted_init [Some ok_run]) [].

Lemma app_page_settles_witness :
  let '(r, p) := app_reruns 1 "gpt-4o" (Some (Prompt "Hello" "T1" "T2")) (mk_apage w_mem []) in
  r = Ok false /\ WChatInput "Ask your question:" ∈ ap_out p.
Proof.
  apply (app_page_settles "gpt-4o" (Prompt "Hello" "T1" "T2") 1 w_mem w_mem []).
  - reflexivity.
  - intros p c v. cbn. by rewrite lookup_empty.
  - split; [cbn; set_solver|reflexivity].
  - apply reach_init.
  - lia.
  - vm_compute. reflexivity.
Defined.

(** The rerun after the first chat shows the question and the reply,
    newest first. *)
Lemma rerun_shows_reply :
  (app_reruns 1 "gpt-4o" (Some (Prompt "Hello" "T1" "T2")) (mk_apage w_mem [])).1 = Ok false /\
  [WChatMessage (JStr "assistant") (JStr "Hi there"); WChatMessage (JStr "user") (JStr "Hello")]
    `sublist_of` ap_out (app_reruns 1 "gpt-4o" (Some (Prompt "Hello" "T1" "T2")) (mk_apage w_mem [])).2.
Proof.
  split; [vm_compute; reflexivity|].
  vm_compute. repeat first [apply sublist_skip | apply sublist_cons]; apply sublist_nil_l.
Qed.
End AppPageScenarios.
