(* ===== verification/HistoryPages.v ===== *)
(** * HistoryPages: the backup pages with a history column

    [src/backup/streamlit_mcpclient3.py] (page 3) lists the saved
    conversations as one button per thread, labelled with the first user
    message cut to 30 characters; [streamlit_mcpclient4.py] (page 4)
    offers them in a selectbox, with New Chat and Delete Current Chat
    buttons.  Both keep [st.session_state.messages] and [thread_id], draw
    their activity log in the sidebar (the page state [spage] of
    [SidebarPages]) and answer a chat input with the same turn as the
    current page.  A page interaction is the clicked button's callback
    followed by one run of the script ([b3_page_run], [b4_page_run]);
    page 4's script returns [true] when it calls [st.rerun()], and
    [b4_reruns] is Streamlit's loop over such runs.

    The theorems: a history button of page 3 loads the thread it was drawn
    for, by id (C35); page 4's selectbox compares the session's
    ["--- Start a new chat ---"] with its own placeholder
    ["--- Select a conversation ---"], so every run resets the chat and
    calls [st.rerun()] before the chat input is drawn: the page never
    settles (C36); and the chat turns of pages 3 and 4 do what the current
    page's turn does, drawing apart (C38, a stuttering simulation
    [pyM_sim] against [AppTurn.app_turn]).  Page 3's labels have at most
    33 characters, and a label that is not a string (a journal written by
    another tool) makes its whole run raise [TypeError]. *)

From S2P Require Import Prelude PyJson PyStr FileSystem Journal Directory Session Remote Cli BackupPage SidebarPages AppTurn.
Import Store.

(** The [selected_chat] value [start_new_chat] and the initialisation
    write, and the selectbox's own placeholder. *)
Definition start_label : string := "--- Start a new chat ---".
Definition b4_placeholder : string := "--- Select a conversation ---".

(** [options.index(x)]: the first position holding a value equal to [x];
    [ValueError] when there is none. *)
Fixpoint py_index_of (x : json) (xs : list json) : res nat :=
  match xs with
  | [] => Raise ValueError
  | y :: ys => if py_eq y x then Ok 0 else n ← py_index_of x ys; Ok (S n)
  end.

(** The value [st.selectbox] returns: the option the user picked, while it
    is still offered, otherwise the one at [index]. *)
Definition selectbox_value (choice : option json) (options : list json) (index : nat) : json :=
  match choice with
  | Some v => if existsb (py_eq v) options then v else default JNull (options !! index)
  | None => default JNull (options !! index)
  end.

(** The history widgets of page 4 that call back before the next run. *)
Inductive b4_click :=
  | B4NewChat                 (** [st.button("➕ New Chat", on_click=start_new_chat)] *)
  | B4Delete (thread_id : json).  (** [on_click=delete_thread, args=(thread_id,)] *)

(** What the user did since the last run. *)
Record b4_event := mk_b4_event {
  b4_clicked : option b4_click;
  b4_choice : option json;      (** the selectbox option picked, if any *)
  b4_prompt : option string;    (** [st.chat_input] *)
  b4_ts_user : string;
  b4_ts_asst : string
}.

Section Pages34.
Context {F R : Type} `{!JsonCodec F} `{!AgentsService R}.
Notation spM := (pyM (spage F R)).

(** [start_new_chat] of page 4 (lines 89-93). *)
Definition b4_start_new_chat : spM unit :=
  sp_set_messages [];; sp_set_selected (Some (JStr start_label));; sp_set_tid None.

(** [start_new_chat] of page 3 (lines 89-93), which has no [selected_chat]. *)
Definition b3_start_new_chat : spM unit :=
  sp_set_messages [];; sp_set_tid None.

(** [set_active_thread] of pages 3 and 4 (lines 95-101 of page 4). *)
Definition b34_set_active_thread (thread_id : json) : spM unit :=
  sp_set_tid (Some thread_id);;
  tid ← py_lift (py_str thread_id);
  mem_path ← sp_on_fs (_memory_path_for_thread tid);
  mem_data ← py_gets (fun w => _load_memory mem_path (sp_fs w));
  msgs ← py_lift (py_get_or mem_data "messages" (JList []));
  it ← py_lift (py_iter msgs);
  ms ← py_lift (res_mapM message_view it);
  sp_set_messages ms.

(** [delete_thread] of page 4 (lines 103-111). *)
Definition b4_delete_thread (thread_id : json) : spM unit :=
  tid ← py_lift (py_str thread_id);
  mem_path ← sp_on_fs (_memory_path_for_thread tid);
  py_try
    (sp_on_fs_ (unlink_memory mem_path);;
     cur ← py_gets sp_tid;
     if py_eq (default JNull cur) thread_id then b4_start_new_chat else mret tt)
    (fun e => sp_emit (WError ("Error deleting thread: " +:+ exn_text e))).

Definition b4_callback (c : b4_click) : spM unit :=
  match c with
  | B4NewChat => b4_start_new_chat
  | B4Delete t => b4_delete_thread t
  end.

(** The history column of page 4 (lines 154-198); [true] when it calls
    [st.rerun()], which ends the run there. *)
Definition b4_history (choice : option json) : spM bool :=
  sp_emit (WSubheader "Chat History");;
  saved_threads ← sp_on_fs get_all_threads;
  let options := JStr b4_placeholder :: map snd saved_threads in
  sel ← py_gets sp_selected;
  let current_selection_index :=
    match py_index_of (default (JStr b4_placeholder) sel) options with Ok i => i | Raise _ => 0 end in
  sp_emit (WSelectbox options current_selection_index);;
  let selected_option := selectbox_value choice options current_selection_index in
  selected_chat ← py_lift (from_option Ok (Raise AttributeError) sel);
  if py_truthy selected_option && negb (py_eq selected_option selected_chat) then
    sp_set_selected (Some selected_option);;
    (if py_eq selected_option (JStr b4_placeholder) then b4_start_new_chat
     else
       thread_id_to_load ← py_lift (first_key_with_value saved_threads selected_option);
       b34_set_active_thread thread_id_to_load);;
    mret true
  else
    sp_emit (WButton "➕ New Chat");;
    tid ← py_gets sp_tid;
    (if py_truthy (default JNull tid) then sp_emit (WButton "🗑️ Delete Current Chat") else mret tt);;
    mret false.

(** The chat-input block of page 4 (lines 215-269). *)
Definition b4_turn (model prompt ts_user ts_asst : string) : spM unit :=
  sp_add_message "user" prompt;;
  cur ← py_gets sp_tid;
  (match cur with
   | None =>
       sp_emit (SbInfo "Creating a new thread...");;
       tid ← sp_on_remote threads_create;
       sp_set_tid (Some (JStr tid));;
       sp_emit (SbSuccess ("✅ New thread: `" +:+ tid +:+ "`"))
   | Some _ => mret tt
   end);;
  tid_obj ← py_gets (fun w => default JNull (sp_tid w));
  thread_id ← py_lift (py_str tid_obj);
  mem_path ← sp_on_fs (_memory_path_for_thread thread_id);
  sp_emit (SbInfo "Creating agent...");;
  ag ← sp_on_remote (create_agent model "my-mcp-agent" agent_instructions);
  sp_emit (SbSuccess ("✅ Agent created: `" +:+ agent_name ag +:+ "`"));;
  sp_emit (SbInfo "➡️ Sending message...");;
  user_msg_id ← sp_on_remote (messages_create thread_id "user" prompt);
  sp_on_fs_ (_append_memory mem_path "user" prompt (Some user_msg_id) ts_user);;
  sp_emit (SbSuccess "✅ Message sent.");;
  sp_emit (SbInfo "🏃‍♂️ Starting run...");;
  rn ← sp_on_remote (runs_create_and_process thread_id (agent_id ag));
  (if String.eqb (run_status rn) "failed" then
     sp_emit (WError ("Run failed: " +:+ run_last_error rn));;
     sp_emit (SbError ("❌ Run `" +:+ run_id rn +:+ "` failed."))
   else
     sp_emit (SbSuccess ("✅ Run `" +:+ run_id rn +:+ "`: **" +:+ run_status rn +:+ "**"));;
     sb_log_run_steps thread_id (run_id rn);;
     assistant_text ← sb_print_latest_assistant thread_id;
     sp_add_message "assistant" assistant_text;;
     msgs ← sp_read_remote (messages_list_desc thread_id);
     sp_on_fs_ (_append_memory mem_path "assistant" assistant_text (first_assistant_id msgs) ts_asst));;
  sp_emit (SbInfo ("🗑️ Deleting agent `" +:+ agent_id ag +:+ "`..."));;
  py_try (sp_on_remote_ (delete_agent (agent_id ag));; sp_emit (SbSuccess "✅ Agent deleted."))
         (fun e => sp_emit (WWarning ("Could not delete agent: " +:+ exn_text e));;
                   sp_emit (SbWarning ("⚠️ Could not delete agent: " +:+ exn_text e))).

(** One run of page 4's script (lines 116-272); [true] when it ends in
    [st.rerun()]. *)
Definition b4_script_run (env : gmap string string) (ev : b4_event) : spM bool :=
  sp_emit (WTitle "Azure AI Agent Chat 🤖");;
  sp_emit WStyle;;
  sp_emit (SbHeader "Agent Activity Log 📜");;
  sel ← py_gets sp_selected;
  (match sel with None => sp_set_selected (Some (JStr start_label)) | Some _ => mret tt end);;
  msgs ← py_gets sp_messages;
  py_for (fun m : json * json => sp_emit (WChatMessage m.1 m.2)) msgs;;
  rerun ← (b4_history (b4_choice ev) : spM bool);
  if (rerun : bool) then mret true
  else
    match cli_config env with
    | Raise _ =>
        sp_emit (WError "PROJECT_ENDPOINT and MODEL_DEPLOYMENT_NAME must be set in your .env file.");;
        mret false
    | Ok (_, model) =>
        sp_emit (WChatInput "Ask your question:");;
        match b4_prompt ev with
        | Some p =>
            if String.eqb p "" then mret false
            else b4_turn model p (b4_ts_user ev) (b4_ts_asst ev);; mret true
        | None => mret false
        end
    end.

(** A page interaction: the clicked button's callback, then the script. *)
Definition b4_page_run (env : gmap string string) (ev : b4_event) : spM bool :=
  (match b4_clicked ev with Some c => b4_callback c | None => mret tt end);;
  b4_script_run env ev.

(** No user action: the run Streamlit makes for [st.rerun()]. *)
Definition b4_idle : b4_event := mk_b4_event None None None "" "".

(** Streamlit's loop: rerun while the script asks for it, [n] more times. *)
Fixpoint b4_reruns (n : nat) (env : gmap string string) (w : spage F R) : res bool * spage F R :=
  let '(r, w') := b4_page_run env b4_idle w in
  match n, r with
  | S n', Ok true => b4_reruns n' env w'
  | _, _ => (r, w')
  end.

(** [get_all_threads] of page 3 (lines 78-87): the journals in the order
    the directory lists them, without the sort of the later pages. *)
Definition b3_get_all_threads (s : fs F) : res (fs F * pydict) :=
  r ← _memory_dir s;
  threads ← res_foldl (thread_step r.1) [] (fs_glob r.2 conversation_glob r.1);
  Ok (r.1, threads).

(** [(first_message[:30] + '...') if len(first_message) > 30 else
    first_message] (line 143). *)
Definition b3_display (first_message : json) : res json :=
  n ← py_len first_message;
  if 30 <? n then a ← py_slice_to 30 first_message; py_add_str a "..." else Ok first_message.

(** The history widgets of page 3 that call back before the next run. *)
Inductive b3_click :=
  | B3NewChat                 (** [st.button("➕ New Chat", on_click=start_new_chat)] *)
  | B3Load (thread_id : json).  (** [st.button(..., key=thread_id, on_click=set_active_thread)] *)

Definition b3_callback (c : b3_click) : spM unit :=
  match c with
  | B3NewChat => b3_start_new_chat
  | B3Load t => b34_set_active_thread t
  end.

(** The chat-input block of page 3 (lines 168-235). *)
Definition b3_turn (model prompt ts_user ts_asst : string) : spM unit :=
  sp_add_message "user" prompt;;
  sp_emit (WChatMessage (JStr "user") (JStr prompt));;
  cur ← py_gets sp_tid;
  (match cur with
   | None =>
       sp_emit (SbInfo "No thread found. Creating a new thread...");;
       tid ← sp_on_remote threads_create;
       sp_set_tid (Some (JStr tid));;
       sp_emit (SbSuccess ("✅ New thread created: `" +:+ tid +:+ "`"))
   | Some _ => mret tt
   end);;
  tid_obj ← py_gets (fun w => default JNull (sp_tid w));
  thread_id ← py_lift (py_str tid_obj);
  mem_path ← sp_on_fs (_memory_path_for_thread thread_id);
  sp_emit (WChatMessage (JStr "assistant") (JStr "Thinking..."));;
  sp_emit (SbInfo "Creating agent for this session...");;
  ag ← sp_on_remote (create_agent model "my-mcp-agent" agent_instructions);
  sp_emit (SbSuccess ("✅ Agent created: `" +:+ agent_name ag +:+ "` (`" +:+ agent_id ag +:+ "`)"));;
  sp_emit (SbInfo "➡️ Sending user message to thread...");;
  user_msg_id ← sp_on_remote (messages_create thread_id "user" prompt);
  sp_on_fs_ (_append_memory mem_path "user" prompt (Some user_msg_id) ts_user);;
  sp_emit (SbSuccess "✅ Message sent.");;
  sp_emit (SbInfo "🏃‍♂️ Starting run with agent...");;
  rn ← sp_on_remote (runs_create_and_process thread_id (agent_id ag));
  (if String.eqb (run_status rn) "failed" then
     sp_emit (WError ("Run failed: " +:+ run_last_error rn));;
     sp_emit (SbError ("❌ Run `" +:+ run_id rn +:+ "` failed."))
   else
     sp_emit (SbSuccess ("✅ Run `" +:+ run_id rn +:+ "` completed with status: **" +:+ run_status rn +:+ "**"));;
     sb_log_run_steps thread_id (run_id rn);;
     assistant_text ← sb_print_latest_assistant thread_id;
     sp_emit (WMarkdown assistant_text);;
     sp_add_message "assistant" assistant_text;;
     msgs ← sp_read_remote (messages_list_desc thread_id);
     sp_on_fs_ (_append_memory mem_path "assistant" assistant_text (first_assistant_id msgs) ts_asst));;
  sp_emit (SbInfo ("🗑️ Deleting agent `" +:+ agent_id ag +:+ "`..."));;
  py_try (sp_on_remote_ (delete_agent (agent_id ag));; sp_emit (SbSuccess "✅ Agent deleted."))
         (fun e => sp_emit (WWarning ("Could not delete agent: " +:+ exn_text e));;
                   sp_emit (SbWarning ("⚠️ Could not delete agent: " +:+ exn_text e))).

(** One run of page 3's script (lines 108-235): the history column, one
    button per saved thread labelled with its first user message, then the
    chat. *)
Definition b3_script_run (env : gmap string string) (prompt : option string) (ts_u ts_a : string) : spM unit :=
  sp_emit (WTitle "Azure AI Agent Chat 🤖");;
  sp_emit WStyle;;
  sp_emit (SbHeader "Agent Activity Log 📜");;
  sp_emit (WSubheader "Chat History");;
  sp_emit (WButton "➕ New Chat");;
  sp_emit WDivider;;
  saved_threads ← sp_on_fs b3_get_all_threads;
  py_for (fun kv : json * json =>
            display_message ← py_lift (b3_display kv.2); sp_emit (WButton (py_fstr display_message)))
         saved_threads;;
  msgs ← py_gets sp_messages;
  py_for (fun m : json * json => sp_emit (WChatMessage m.1 m.2)) msgs;;
  match cli_config env with
  | Raise _ => sp_emit (WError "PROJECT_ENDPOINT and MODEL_DEPLOYMENT_NAME must be set in your .env file.")
  | Ok (_, model) =>
      sp_emit (WChatInput "Ask your question:");;
      match prompt with
      | Some p => if String.eqb p "" then mret tt else b3_turn model p ts_u ts_a
      | None => mret tt
      end
  end.

(** A page interaction: the clicked button's callback, then the script. *)
Definition b3_page_run (env : gmap string string) (c : option b3_click) (prompt : option string)
    (ts_u ts_a : string) : spM unit :=
  (match c with Some c => b3_callback c | None => mret tt end);;
  b3_script_run env prompt ts_u ts_a.
End Pages34.

(** ** Page 4 never settles *)

(** Simplify the fields of a page state, and run one statement. *)
Ltac sp_proj := cbn [sp_messages sp_selected sp_tid sp_fs sp_remote sp_out].
Ltac sp_step := py_step; sp_proj.

Section Livelock.
Context {F R : Type} `{!JsonCodec F} `{!AgentsService R}.

(** The states the loop goes through: [selected_chat] unset or the
    session's ["--- Start a new chat ---"], and a listing of the
    conversations that succeeds and labels none of them with that text. *)
Definition b4_stuck (w : spage F R) : Prop :=
  (sp_selected w = None \/ sp_selected w = Some (JStr start_label)) /\
  exists s' d, get_all_threads (sp_fs w) = Ok (s', d) /\
    Forall (fun kv => py_eq kv.2 (JStr start_label) = false) d.

Lemma py_index_of_absent x (d : pydict) :
  py_eq (JStr b4_placeholder) x = false -> Forall (fun kv => py_eq kv.2 x = false) d ->
  py_index_of x (JStr b4_placeholder :: map snd d) = Raise ValueError.
Proof.
  intros H0 Hd. cbn [py_index_of]. rewrite H0.
  induction Hd as [|kv d Hkv _ IH]; [done|]. cbn [map py_index_of]. by rewrite Hkv, IH.
Qed.

Lemma sp_emit_messages (msgs : list (json * json)) (w : spage F R) :
  py_for (fun m : json * json => sp_emit (WChatMessage m.1 m.2)) msgs w =
  (Ok tt, mk_spage (sp_messages w) (sp_selected w) (sp_tid w) (sp_fs w) (sp_remote w)
            (sp_out w ++ map (fun m => WChatMessage m.1 m.2) msgs)).
Proof.
  revert w. induction msgs as [|m msgs IH]; intros w; cbn [py_for map].
  - by destruct w; rewrite app_nil_r.
  - rewrite pyM_bind_run. cbn. rewrite IH. cbn. by rewrite <- app_assoc.
Qed.
End Livelock.

Section LivelockRun.
Context {F R : Type} `{!JsonCodec F} `{!AgentsService R}.

Lemma b4_history_stuck (m : list (json * json)) t fs0 (r : R) out s' d :
  get_all_threads fs0 = Ok (s', d) -> Forall (fun kv => py_eq kv.2 (JStr start_label) = false) d ->
  b4_history None (mk_spage m (Some (JStr start_label)) t fs0 r out) =
  (Ok true, mk_spage [] (Some (JStr start_label)) None s' r
              (out ++ [WSubheader "Chat History"; WSelectbox (JStr b4_placeholder :: map snd d) 0])).
Proof.
  intros Hg Hd.
  unfold b4_history, b4_start_new_chat, sp_set_selected, sp_set_messages, sp_set_tid, sp_on_fs, sp_emit.
  py_unfold. cbn -[get_all_threads py_index_of]. rewrite Hg. cbn -[py_index_of].
  rewrite py_index_of_absent by done. cbn. by rewrite <- app_assoc.
Qed.

(** One idle run from a stuck state: it asks for a rerun, has reset the
    chat, reaches a stuck state again and draws no chat input. *)
Lemma b4_run_stuck env (w : spage F R) :
  b4_stuck w ->
  let '(r, w') := b4_page_run env b4_idle w in
  r = Ok true /\ b4_stuck w' /\ sp_messages w' = [] /\ sp_tid w' = None /\ sp_remote w' = sp_remote w /\
  exists ws, sp_out w' = sp_out w ++ ws /\ forall l, WChatInput l ∉ ws.
Proof.
  intros [Hsel (s' & d & Hg & Hd)]. destruct w as [m sel t fs0 r out]; cbn in Hsel, Hg.
  unfold b4_page_run, b4_idle, b4_script_run. cbn [b4_clicked b4_choice].
  do 5 sp_step. destruct Hsel as [-> | ->]; do 2 sp_step;
    py_step by apply sp_emit_messages; sp_proj;
    py_step by apply (b4_history_stuck _ _ _ _ _ _ _ Hg Hd); cbn;
    (split; [done|]);
    (split; [split; [by right|exists s', d; split; [exact (get_all_threads_idem _ _ _ Hg)|done]]|]);
    do 3 (split; [done|]);
    eexists; (split; [by rewrite <- !app_assoc|]);
    intros l Hl; apply list_elem_of_In in Hl; rewrite !in_app_iff, in_map_iff in Hl; cbn in Hl; naive_solver.
Qed.
End LivelockRun.

Section LivelockClaims.
Context {F R : Type} `{!JsonCodec F} `{!AgentsService R}.

(** C36. Page 4 never reaches its chat input: from a session whose
    [selected_chat] is unset or ["--- Start a new chat ---"] (a fresh
    session, or one just after New Chat), with any saved conversations
    none of which is labelled with that text, every run of the script
    finds the selectbox on its own placeholder ["--- Select a
    conversation ---"], takes it for a new selection, resets the chat and
    calls [st.rerun()].  However many reruns Streamlit makes, the last one
    still asks for another, the chat stays empty with no thread, the
    service is never called and no chat input is ever drawn. *)
Theorem b4_never_settles env n (w : spage F R) :
  b4_stuck w -> (forall l, WChatInput l ∉ sp_out w) ->
  let '(r, w') := b4_reruns n env w in
  r = Ok true /\ sp_messages w' = [] /\ sp_tid w' = None /\ sp_remote w' = sp_remote w /\
  forall l, WChatInput l ∉ sp_out w'.
Proof.
  revert w. induction n as [|n IH]; intros w Hw Hin; cbn [b4_reruns];
    pose proof (b4_run_stuck env w Hw) as Hrun;
    destruct (b4_page_run env b4_idle w) as [r w1];
    destruct Hrun as (-> & Hs & Hm & Ht & Hr & ws & Ho & Hws).
  - do 4 (split; [done|]). intros l. rewrite Ho, elem_of_app. by intros [?|?]; [eapply Hin|eapply Hws].
  - assert (Hin1 : forall l, WChatInput l ∉ sp_out w1).
    { intros l. rewrite Ho, elem_of_app. by intros [?|?]; [eapply Hin|eapply Hws]. }
    specialize (IH w1 Hs Hin1). destruct (b4_reruns n env w1) as [r' w'].
    destruct IH as (? & ? & ? & Hr' & ?). do 3 (split; [done|]). split; [congruence|done].
Qed.
End LivelockClaims.

Module Page4Scenarios.
Import CliScenarios BackupScenarios JournalWitnesses.

(** A fresh session on files holding one resumable conversation, saved by
    a client that stamps its journals. *)
Definition saved_fs : fs raw_file :=
  fs_put t1_path (json_dump (journal_json (mk_journal (Some "t1") [mk_entry "T0" "user" "Hello" (Some "m1")])))
    mem_dir_only.

Definition sp4_0 : spage raw_file scripted := mk_spage [] None None saved_fs (scripted_init []) [].

Lemma b4_never_settles_witness :
  let '(r, w') := b4_reruns 5 env1 sp4_0 in
  r = Ok true /\ sp_messages w' = [] /\ sp_tid w' = None /\ sp_remote w' = sp_remote sp4_0 /\
  forall l, WChatInput l ∉ sp_out w'.
Proof.
  apply (b4_never_settles env1 5 sp4_0).
  - split; [by left|]. eexists _, _. split; [vm_compute; reflexivity|].
    repeat constructor.
  - intros l Hl. by apply not_elem_of_nil in Hl.
Defined.

(** The conversation is offered, yet every run redraws the selectbox on
    the placeholder. *)
Lemma saved_conversation_offered :
  WSelectbox [JStr b4_placeholder; JStr "Hello"] 0 ∈ sp_out (b4_reruns 0 env1 sp4_0).2.
Proof. apply list_elem_of_In. vm_compute. repeat first [left; reflexivity | right]. Qed.
End Page4Scenarios.

(** ** The chat turn of page 4 is the current page's *)

Section TurnEquiv.
Context {F R : Type} `{!JsonCodec F} `{!AgentsService R}.

(** What a turn reads and writes besides drawing: the chat messages, the
    thread, the files and the service. *)
Definition relA4 (w : world F R) (p : spage F R) : Prop :=
  ss_messages (w_ss w) = sp_messages p /\ ss_thread_id (w_ss w) = sp_tid p /\
  w_fs w = sp_fs p /\ w_remote w = sp_remote p.

Definition app_core (w : world F R) := (ss_messages (w_ss w), ss_thread_id (w_ss w), w_fs w, w_remote w).

(** Statements of the current page that only log or show. *)
Definition app_silent (m : pyM (world F R) unit) : Prop :=
  forall w, (m w).1 = Ok tt /\ app_core (m w).2 = app_core w.

Lemma app_silent_log k c : app_silent (log k c).
Proof. by intros w. Qed.

Lemma app_silent_set_log l : app_silent (modify_ss (set_log l)).
Proof. by intros w. Qed.

Lemma app_silent_show m : app_silent (show m).
Proof. by intros w. Qed.

Lemma app_silent_seq m k : app_silent m -> app_silent k -> app_silent (m;; k).
Proof.
  intros Hm Hk w. rewrite pyM_bind_run. destruct (Hm w) as [H1 H2]. destruct (m w) as [r w1].
  cbn in *. subst r. destruct (Hk w1) as [H3 H4]. split; [done|]. by rewrite H4.
Qed.

Lemma app_silent_quiet m : app_silent m -> quiet_l relA4 m.
Proof.
  intros Hm w p H. destruct (Hm w) as [Hr Hc]. split; [done|].
  unfold app_core in Hc. injection Hc as E1 E2 E3 E4. unfold relA4. by rewrite E1, E2, E3, E4.
Qed.

Lemma sp_silent_quietA m : sp_silent m -> quiet_r relA4 m.
Proof.
  intros Hm w p H. destruct (Hm p) as [Hr Hc]. split; [done|].
  unfold sp_core in Hc. injection Hc as E1 _ E2 E3 E4. unfold relA4. by rewrite E1, E2, E3, E4.
Qed.

Lemma simA_on_fs {A} (f : fs F -> res (fs F * A)) : pyM_sim relA4 (on_fs f) (sp_on_fs f).
Proof.
  intros w p (Hm & Ht & Hf & Hr). unfold on_fs, sp_on_fs. rewrite Hf.
  by destruct (f (sp_fs p)) as [[s' a]|e].
Qed.

Lemma simA_on_fs_ (f : fs F -> res (fs F)) : pyM_sim relA4 (on_fs_ f) (sp_on_fs_ f).
Proof. apply simA_on_fs. Qed.

Lemma simA_on_remote {A} (f : R -> res (A * R)) : pyM_sim relA4 (on_remote f) (sp_on_remote f).
Proof.
  intros w p (Hm & Ht & Hf & Hr). unfold on_remote, sp_on_remote. rewrite Hr.
  by destruct (f (sp_remote p)) as [[a r']|e].
Qed.

Lemma simA_on_remote_ (f : R -> res R) : pyM_sim relA4 (on_remote_ f) (sp_on_remote_ f).
Proof. apply simA_on_remote. Qed.

Lemma simA_read_remote {A} (f : R -> res A) : pyM_sim relA4 (read_remote f) (sp_read_remote f).
Proof. intros w p (Hm & Ht & Hf & Hr). cbn. by rewrite Hr. Qed.

Lemma simA_show_message r c : pyM_sim relA4 (show_message r c) (sp_add_message r c).
Proof. apply sim_modify. intros w p (Hm & Ht & Hf & Hr). cbn. by rewrite Hm. Qed.

Lemma simA_set_thread t : pyM_sim relA4 (modify_ss (set_thread t)) (sp_set_tid t).
Proof. apply sim_modify. by intros w p (Hm & Ht & Hf & Hr). Qed.

Lemma simA_gets_thread : pyM_sim relA4 (py_gets (fun w => ss_thread_id (w_ss w))) (py_gets sp_tid).
Proof. apply sim_gets. by intros w p (Hm & Ht & Hf & Hr). Qed.

Lemma simA_gets_thread_obj :
  pyM_sim relA4 (py_gets (fun w => default JNull (ss_thread_id (w_ss w)))) (py_gets (fun p => default JNull (sp_tid p))).
Proof. apply sim_gets. intros w p (Hm & Ht & Hf & Hr). by rewrite Ht. Qed.

Lemma sb_call_details call (p : spage F R) :
  (sb_call call p).1 = res_unit (tool_call_details call) /\ sp_core (sb_call call p).2 = sp_core p.
Proof. by destruct call. Qed.

(** The expander of a step raises as the step's log entry does. *)
Lemma sb_step_log st (p : spage F R) :
  (sb_step st p).1 = res_unit (step_log st) /\ sp_core (sb_step st p).2 = sp_core p.
Proof.
  unfold sb_step, step_log, sp_emit. py_unfold.
  destruct (py_get_or (step_details st) "tool_calls" (JList [])) as [tc|e]; cbn; [|done].
  destruct (py_truthy tc); cbn; [|done]. destruct (py_iter tc) as [it|e]; cbn; [|done].
  lazymatch goal with
  | |- context [py_for sb_call it ?w] =>
      destruct (py_for_mapM sp_core sb_call tool_call_details it sb_call_details w) as [H1 H2]
  end.
  rewrite H1, H2. split; [|done]. by destruct (res_mapM tool_call_details it).
Qed.

Lemma simA_log_run_steps t rid : pyM_sim relA4 (_log_run_steps t rid) (sb_log_run_steps t rid).
Proof.
  intros w p H. pose proof H as (Hm & Ht & Hf & Hr).
  unfold _log_run_steps, sb_log_run_steps, log, read_remote, sp_read_remote, modify_ss, py_finally, sp_emit.
  py_unfold. cbn. rewrite Hr. destruct (run_steps_list t rid (sp_remote p)) as [steps|e]; cbn; [|done].
  lazymatch goal with
  | |- context [py_for sb_step steps ?w] =>
      destruct (py_for_mapM sp_core sb_step step_log steps sb_step_log w) as [H1 H2];
      destruct (py_for sb_step steps w) as [r w'] eqn:E
  end.
  cbn in H1, H2 |- *. subst r. unfold sp_core in H2. injection H2 as E1 _ E2 E3 E4.
  destruct (res_mapM step_log steps); cbn; unfold relA4; cbn; by rewrite E1, E2, E3, E4.
Qed.

Lemma simA_print t : pyM_sim relA4 (_print_latest_assistant t) (sb_print_latest_assistant t).
Proof.
  intros w p H. pose proof H as (Hm & Ht & Hf & Hr).
  unfold _print_latest_assistant, sb_print_latest_assistant, log, read_remote, sp_read_remote, modify_ss, sp_emit.
  py_unfold. cbn. rewrite Hr.
  destruct (messages_list_desc t (sp_remote p)) as [msgs|e]; cbn; [destruct (latest_assistant_text msgs)|];
    cbn; (split; [done|]); unfold relA4; cbn; by repeat split.
Qed.
End TurnEquiv.

#[export] Hint Resolve app_silent_log app_silent_set_log app_silent_show app_silent_seq app_silent_quiet
  sp_silent_quietA simA_on_fs simA_on_fs_ simA_on_remote simA_on_remote_ simA_read_remote
  simA_show_message simA_set_thread simA_gets_thread simA_gets_thread_obj simA_log_run_steps simA_print : uwepd.

Section Resume.
Context {F R : Type} `{!JsonCodec F} `{!AgentsService R}.

(** [set_active_thread] of pages 3 and 4 on a journal file. *)
Lemma b34_set_active_thread_run (w : spage F R) t s1 j :
  no_slash t = true ->
  fs_mkdir_p memory_dir_path (sp_fs w) = Ok s1 ->
  journal_view ["memory"; memory_file_name t] s1 = Some j ->
  b34_set_active_thread (JStr t) w =
    (Ok tt, mk_spage (map entry_view (j_messages j)) (sp_selected w) (Some (JStr t)) s1 (sp_remote w) (sp_out w)).
Proof.
  intros Ht Hm Hv. destruct w as [m sel tid fs0 r out]; cbn in Hm |- *.
  unfold b34_set_active_thread, sp_set_tid, sp_on_fs, sp_set_messages. py_unfold. sp_proj. cbn [py_str].
  rewrite (memory_path_eq _ _ _ Ht Hm). sp_proj. rewrite (load_memory_view _ _ _ Hv).
  destruct j as [tj ms].
  cbn [py_get_or journal_json dict_lookup String.eqb Ascii.eqb Bool.eqb default from_option id py_iter j_messages].
  by rewrite message_views.
Qed.
(** Page 3's button label: the first user message, cut to 30 characters
    and marked with ["..."] when longer. *)
Lemma b3_display_str t :
  b3_display (JStr t) = Ok (JStr (if 30 <? py_len_str t then py_take_str 30 t +:+ "..." else t)).
Proof. unfold b3_display. cbn [py_len mbind res_bind]. by destruct (30 <? py_len_str t). Qed.

(** C27. Page 3's history buttons are bounded: the label drawn for a
    string first message ([msg[:30] + "..." if len(msg) > 30]) has at
    most 33 characters, and a message of at most 30 characters is shown
    whole. *)
Theorem b3_display_bounded t :
  exists l, b3_display (JStr t) = Ok (JStr l) /\ py_len_str l <= 33 /\ (py_len_str t <= 30 -> l = t).
Proof.
  rewrite b3_display_str. eexists; split; [done|].
  destruct (Nat.ltb_spec 30 (py_len_str t)) as [H|H].
  - split; [|lia]. rewrite py_len_str_app. pose proof (py_len_take 30 t).
    change (py_len_str "...") with 3. lia.
  - split; [lia|done].
Qed.

(** A label that is not a string or a list has no [len]: [TypeError]. *)
Lemma b3_display_scalar_raises x :
  match x with JNull | JBool _ | JInt _ => True | _ => False end -> b3_display x = Raise TypeError.
Proof. by destruct x. Qed.
End Resume.

Section TurnClaims.
Context {F R : Type} `{!JsonCodec F} `{!AgentsService R}.

(** C38. The chat turns of pages 3 and 4 do what the current page's turn
    ([app_turn]) does: from a session, files and service that agree, each
    raises exactly when the app's turn raises and leaves the same chat
    messages, thread, files and service; they differ only in what they
    draw and log. *)
Theorem history_turns_refine_app model prompt ts_u ts_a :
  pyM_sim relA4 (app_turn (F:=F) (R:=R) model prompt ts_u ts_a) (b3_turn model prompt ts_u ts_a) /\
  pyM_sim relA4 (app_turn (F:=F) (R:=R) model prompt ts_u ts_a) (b4_turn model prompt ts_u ts_a).
Proof.
  unfold app_turn, b3_turn, b4_turn, after_run.
  split; sim_auto ltac:(apply sim_quiet; eauto with uwepd).
Qed.

(** C35. A history button of page 3 resumes the conversation it was drawn
    for: its callback receives the thread id itself, makes that thread
    active and shows exactly its journal's messages, in order, as
    role/content pairs, whatever labels the other conversations have. *)
Theorem b3_history_button_resumes (w : spage F R) t s1 j :
  no_slash t = true ->
  fs_mkdir_p memory_dir_path (sp_fs w) = Ok s1 ->
  journal_view ["memory"; memory_file_name t] s1 = Some j ->
  b3_callback (B3Load (JStr t)) w =
    (Ok tt, mk_spage (map entry_view (j_messages j)) (sp_selected w) (Some (JStr t)) s1 (sp_remote w) (sp_out w)).
Proof. apply b34_set_active_thread_run. Qed.
End TurnClaims.

Module Page3Scenarios.
Import CliScenarios BackupScenarios JournalWitnesses.

(** Two conversations that both start with "Hello": the button of the
    second loads the second. *)
Definition sp3_hello : spage raw_file scripted := mk_spage [] None None two_hello (scripted_init []) [].

Lemma b3_history_button_resumes_witness :
  b3_callback (B3Load (JStr "tB")) sp3_hello =
    (Ok tt, mk_spage (map entry_view (j_messages hello_b)) None (Some (JStr "tB")) two_hello
              (scripted_init []) []).
Proof. apply (b3_history_button_resumes sp3_hello "tB" two_hello hello_b); vm_compute; reflexivity. Defined.

(** Both buttons are drawn, each under the label "Hello". *)
Lemma b3_both_conversations_listed :
  (b3_script_run env1 None "" "" sp3_hello).1 = Ok tt /\
  length (List.filter (fun x => match x with WButton l => String.eqb l "Hello" | _ => false end) (sp_out (b3_script_run env1 None "" "" sp3_hello).2)) = 2.
Proof. split; vm_compute; reflexivity. Qed.
(** A journal written by another tool whose first user message has a
    number for its text. *)
Definition numeric_label_fs : fs raw_file :=
  fs_put ["memory"; "conversation_tN.json"]
    (json_dump (JDict [("thread_id", JStr "tN");
                       ("messages", JList [JDict [("ts", JStr "T0"); ("role", JStr "user");
                                                  ("text", JInt 42); ("message_id", JNull)]])]))
    mem_dir_only.

(** Page 3 cannot draw its history column on such a store: the whole run
    raises [TypeError] at [len(first_message)], before the chat input;
    page 4 offers the same conversation without error. *)
Lemma b3_numeric_label_raises :
  (b3_script_run env1 None "" "" (mk_spage [] None None numeric_label_fs (scripted_init []) [])).1 = Raise TypeError /\
  (b4_script_run env1 b4_idle (mk_spage [] (Some (JStr start_label)) None numeric_label_fs (scripted_init []) [])).1 = Ok true.
Proof. split; vm_compute; reflexivity. Qed.
End Page3Scenarios.
