(* ===== verification/FrontEnds.v ===== *)
(** * FrontEnds: the helpers every front end carries

    Each Python file of the repository is a standalone script with its own
    copy of the journal helpers ([_memory_path_for_thread], [_load_memory],
    [_append_memory]) and of the two service helpers
    ([_print_latest_assistant], [_log_run_steps]).  The copies differ in
    where the activity goes (the session's log, the sidebar, standard
    output) and in whether [_append_memory] trims the history to its last
    20 entries.  A [front_end] record gathers one file's helpers; the
    definitions below are the records of the seven files, each naming the
    definitions of the development that translate its copies.

    [journal_contract h t] is what the Journal Store promises: the path of
    a thread id without ['/'] is [memory/conversation_<id>.json] once the
    directory exists, loading a journal file gives back its journal, and
    an append writes the abstract journal with the entry appended under
    the trim policy [t].  Every file meets it with its own policy: the
    current page and pages 3 and 4 keep 20 entries, pages 1 and 2 and both
    CLIs keep everything.  The sidebar pages' service helpers do what the
    current page's do, drawing apart ([sidebar_contract]).  The pages with
    a history column (the current page, pages 3 and 4) have their
    [start_new_chat] and [set_active_thread] as [history_helpers], and
    [history_contract] states what the three share: New Chat empties the
    chat and forgets the thread, and resuming shows exactly the journal's
    messages with the thread active (the current page when its listing
    succeeds, which journal files ensure). *)

From S2P Require Import Prelude PyJson PyStr FileSystem Journal Directory Session Remote Cli BackupPage SidebarPages AppTurn HistoryPages.
Import Store.

Record journal_helpers (F : Type) := mk_journal_helpers {
  jh_memory_path_for_thread : string -> fs F -> res (fs F * path);
  jh_load_memory : path -> fs F -> json;
  jh_append_memory : path -> string -> string -> option string -> string -> fs F -> res (fs F)
}.
Arguments mk_journal_helpers {F}.
Arguments jh_memory_path_for_thread {F}.
Arguments jh_load_memory {F}.
Arguments jh_append_memory {F}.

(** One file's helpers over its state [S]; [L] is what its
    [_log_run_steps] returns. *)
Record front_end (F S L : Type) := mk_front_end {
  fe_journal : journal_helpers F;
  fe_print_latest_assistant : string -> pyM S string;
  fe_log_run_steps : string -> string -> pyM S L
}.
Arguments mk_front_end {F S L}.
Arguments fe_journal {F S L}.
Arguments fe_print_latest_assistant {F S L}.
Arguments fe_log_run_steps {F S L}.

Section Helpers.
Context {F R : Type} `{!JsonCodec F} `{!AgentsService R}.

Definition trimmed_journal : journal_helpers F :=
  mk_journal_helpers _memory_path_for_thread _load_memory _append_memory.

Definition untrimmed_journal : journal_helpers F :=
  mk_journal_helpers _memory_path_for_thread _load_memory _append_memory_untrimmed.

(** [streamlit_mcpclientapp.py] lines 22-79. *)
Definition app_front_end : front_end F (world F R) unit :=
  mk_front_end trimmed_journal _print_latest_assistant _log_run_steps.

(** [backup/streamlit_mcpclient.py] lines 17-67. *)
Definition b1_front_end : front_end F (page1 F R) string :=
  mk_front_end untrimmed_journal b1_print_latest_assistant b1_log_run_steps.

(** [backup/streamlit_mcpclient2.py] lines 16-79. *)
Definition b2_front_end : front_end F (spage F R) unit :=
  mk_front_end untrimmed_journal sb_print_latest_assistant sb_log_run_steps.

(** [backup/streamlit_mcpclient3.py] lines 16-75. *)
Definition b3_front_end : front_end F (spage F R) unit :=
  mk_front_end trimmed_journal sb_print_latest_assistant sb_log_run_steps.

(** [backup/streamlit_mcpclient4.py] lines 19-76. *)
Definition b4_front_end : front_end F (spage F R) unit :=
  mk_front_end trimmed_journal sb_print_latest_assistant sb_log_run_steps.

(** [client_python.py] lines 18-69. *)
Definition cp_front_end : front_end F (cli F R) unit :=
  mk_front_end untrimmed_journal cli_print_latest_assistant cli_log_run_steps.

(** [client_v2.py] lines 17-69: the directory is created inline in
    [_memory_path_for_thread]. *)
Definition v2_front_end : front_end F (cli F R) unit :=
  mk_front_end (mk_journal_helpers v2_memory_path_for_thread _load_memory _append_memory_untrimmed)
    cli_print_latest_assistant cli_log_run_steps.

(** The history callbacks of the pages that have a history column. *)
Record history_helpers (S : Type) := mk_history_helpers {
  hh_start_new_chat : pyM S unit;
  hh_set_active_thread : json -> pyM S unit
}.

(** [streamlit_mcpclientapp.py] lines 92-107. *)
Definition app_history_helpers : history_helpers (world F R) :=
  mk_history_helpers _ start_new_chat set_active_thread.

(** [backup/streamlit_mcpclient3.py] lines 89-103. *)
Definition b3_history_helpers : history_helpers (spage F R) :=
  mk_history_helpers _ b3_start_new_chat b34_set_active_thread.

(** [backup/streamlit_mcpclient4.py] lines 89-101. *)
Definition b4_history_helpers : history_helpers (spage F R) :=
  mk_history_helpers _ b4_start_new_chat b34_set_active_thread.

(** What the history column promises, over a view of the page state as
    its messages, its thread and its files: New Chat empties the chat and
    forgets the thread; resuming a thread whose journal file holds [j]
    (on files satisfying [P] once the directory exists) shows exactly
    [j]'s messages and makes the thread active. *)
Definition history_contract {S} (v : S -> list (json * json) * option json * fs F) (P : fs F -> Prop)
    (h : history_helpers S) : Prop :=
  (forall st, exists st', hh_start_new_chat _ h st = (Ok tt, st') /\
     (v st').1.1 = [] /\ (v st').1.2 = None /\ (v st').2 = (v st).2) /\
  (forall st t s1 j, no_slash t = true -> fs_mkdir_p memory_dir_path (v st).2 = Ok s1 -> P s1 ->
     journal_view ["memory"; memory_file_name t] s1 = Some j ->
     exists st', hh_set_active_thread _ h (JStr t) st = (Ok tt, st') /\
       (v st').1.1 = map entry_view (j_messages j) /\ (v st').1.2 = Some (JStr t) /\ (v st').2 = s1).

Definition world_view (w : world F R) := (ss_messages (w_ss w), ss_thread_id (w_ss w), w_fs w).
Definition spage_view (p : spage F R) := (sp_messages p, sp_tid p, sp_fs p).

(** The Journal Store's contract, with the trim policy [t]. *)
Definition journal_contract (h : journal_helpers F) (t : option nat) : Prop :=
  (forall tid s s1, no_slash tid = true -> fs_mkdir_p memory_dir_path s = Ok s1 ->
     jh_memory_path_for_thread h tid s = Ok (s1, ["memory"; memory_file_name tid])) /\
  (forall p s j, journal_view p s = Some j -> jh_load_memory h p s = journal_json j) /\
  (forall p role text mid ts s j, journal_view p s = Some j ->
     jh_append_memory h p role text mid ts s =
     fs_write p (json_dump (journal_json (journal_append t (mk_entry ts role text mid) j))) s).

(** A sidebar page's service helpers do what the current page's do:
    same results, exceptions, session, files and service. *)
Definition sidebar_contract (h : front_end F (spage F R) unit) : Prop :=
  (forall t, pyM_sim relA4 (_print_latest_assistant t) (fe_print_latest_assistant h t)) /\
  (forall t rid, pyM_sim relA4 (_log_run_steps t rid) (fe_log_run_steps h t rid)).
End Helpers.

(** ** Every file meets the contract with its own trim policy *)

Section Contracts.
Context {F R : Type} `{!JsonCodec F} `{!AgentsService R}.

Lemma journal_contract_of mp t :
  trim_ok t ->
  (forall tid s s1, no_slash tid = true -> fs_mkdir_p memory_dir_path s = Ok s1 ->
     mp tid s = Ok (s1, ["memory"; memory_file_name tid])) ->
  journal_contract (mk_journal_helpers (F:=F) mp _load_memory (append_memory_with (trim_arg t))) t.
Proof.
  intros Ht Hp. split; [exact Hp|split; [exact load_memory_view|]].
  intros p role text mid ts s j Hv. by apply append_memory_with_journal.
Qed.

Lemma v2_memory_path_eq tid (s s1 : fs F) :
  no_slash tid = true -> fs_mkdir_p memory_dir_path s = Ok s1 ->
  v2_memory_path_for_thread tid s = Ok (s1, ["memory"; memory_file_name tid]).
Proof.
  intros Ht Hm. unfold v2_memory_path_for_thread. unfold memory_dir_path in Hm. rewrite Hm. cbn [mbind res_bind].
  unfold memory_file_name. rewrite path_div_single; [done| |done|done].
  rewrite !no_slash_app. by rewrite Ht.
Qed.


(** The app's [set_active_thread] on a journal file, when the listing it
    reads afterwards succeeds. *)
Lemma set_active_thread_run (w : world F R) t s1 j :
  no_slash t = true -> fs_mkdir_p memory_dir_path (w_fs w) = Ok s1 -> journals_typed s1 ->
  journal_view ["memory"; memory_file_name t] s1 = Some j ->
  exists sel, set_active_thread (JStr t) w =
    (Ok tt, mk_world (mk_session (map entry_view (j_messages j)) sel (ss_log (w_ss w)) (Some (JStr t)))
                     s1 (w_remote w) (w_ui w)).
Proof.
  intros Ht Hm Hty Hv.
  destruct (mapM_is_Some_2 (fun p => journal_view p s1) (sorted_desc (fs_glob memory_dir_path conversation_glob s1)))
    as [js Hjs]; [apply Forall_forall; intros p _; by apply typed_view|].
  unfold set_active_thread. unfold mbind, pyM_bind, on_fs, read_fs, py_gets, modify_ss, py_modify, py_lift.
  cbn [w_fs w_ss w_remote w_ui py_str].
  rewrite (memory_path_eq _ _ _ Ht Hm). cbn [w_fs w_ss w_remote w_ui].
  rewrite (load_memory_view _ _ _ Hv).
  destruct j as [tid ms]. cbn [py_get_or journal_json dict_lookup String.eqb Ascii.eqb Bool.eqb
    default from_option id py_iter j_messages].
  rewrite message_views.
  rewrite (get_all_threads_listing s1 s1 js); [|unfold _memory_dir; by rewrite (fs_mkdir_p_idem _ _ _ Hm)|done].
  cbn [w_ss w_fs w_remote w_ui set_selected set_messages set_thread ss_messages ss_selected_chat ss_log ss_thread_id].
  rewrite pydict_get_str. by eexists.
Qed.

End Contracts.

Module FrontEndScenarios.
Import JournalWitnesses.

(** A journal already holding 20 entries. *)
Definition full_fs : fs raw_file :=
  fs_put t1_path (json_dump (journal_json (mk_journal None (repeat hello 20)))) mem_dir_only.

(** The policies are really different: the untrimmed helpers of pages 1
    and 2 and of the CLIs do not meet the contract of the trimming ones,
    a 21st entry is kept. *)
Lemma untrimmed_keeps_21 : ~ journal_contract (@untrimmed_journal raw_file _) (Some 20).
Proof.
  intros (_ & _ & H).
  specialize (H t1_path "user" "Hi" None "T2" full_fs (mk_journal None (repeat hello 20)) ltac:(vm_compute; reflexivity)).
  vm_compute in H. discriminate H.
Qed.
End FrontEndScenarios.
